(** * GlobalGADM: boundary aggregation and layer reconciliation

    A shallow embedding of the browser clients of the GADM explorer.

    - [OnDemand] follows the DuckDB/Leaflet client (the file that defines
      [waitForDuckDB] and [loadBoundaries]): the aggregation query, the
      conversion of result rows to GeoJSON features, and the asynchronous
      control flow of [loadBoundaries] as an event-driven machine in which
      every [await] is a suspended task resumed by an event.
    - [MapLibre] holds what the two MapLibre/PMTiles clients share: the
      style of the map, the session state and a state and exception monad
      for their statements.
    - [Tiled] follows the MapLibre/PMTiles client whose [addLevelLayer]
      applies a country filter and whose [resetAdminLevels] removes layers.
    - [AppJs] follows [src/js/app.js], the MapLibre/PMTiles client whose
      [resetAdminLevels] only hides layers.
    - [Dissolve] states what the dissolve of a level is, independently of
      the query, for comparison with it.
    - [Samples] and [MapSamples] hold the concrete inputs of the examples.

    External collaborators (the DuckDB spatial engine, [JSON.parse], Leaflet,
    MapLibre GL) are modelled at their interface only: what they compute is
    left open, and so is which arguments they reject with an exception. *)

From Stdlib Require Import ZArith Lia.
From stdpp Require Import base decidable option list strings pretty gmap.

(** ** JavaScript values that flow through the code *)

(** Column values as the Arrow row proxy hands them to JavaScript: a column
    that the query did not select reads as [undefined], an SQL NULL as
    [null], a VARCHAR as a string. *)
Inductive jsval :=
  | JUndefined
  | JNull
  | JStr (s : string).

#[global] Instance jsval_eq_dec : EqDecision jsval.
Proof. solve_decision. Defined.

(** [if (v)] on such a value: [undefined], [null] and the empty string are
    falsy. *)
Definition truthy (v : jsval) : bool :=
  match v with
  | JStr s => negb (String.eqb s EmptyString)
  | _ => false
  end.

(** [String(v)], the coercion [JSON.parse] applies to its argument. *)
Definition js_to_string (v : jsval) : string :=
  match v with
  | JUndefined => "undefined"
  | JNull => "null"
  | JStr s => s
  end.

(** A JavaScript number that the code only passes around, kept as its
    decimal literal. *)
Definition num := string.

(** [`${level}`]: the decimal text of an integer inside a template string. *)
Definition decimal (n : Z) : string := pretty n.
#[global] Arguments decimal : simpl never.

(** The integers that a JavaScript number holds exactly
    ([Number.isSafeInteger]): on them [`${n}`] is the decimal text of [n],
    and [parseInt] of that text gives [n] back. *)
Definition safe_integer (n : Z) : Prop := (- 2 ^ 53 < n < 2 ^ 53)%Z.

(** ** The spatial query engine and the JSON parser, at their interface *)

Class SpatialEngine := {
  WKB : Type;                               (* the binary geometry column *)
  Geom : Type;                              (* geometries inside the engine *)
  JSON : Type;                              (* parsed JSON values *)
  ST_GeomFromWKB : WKB -> Geom;
  ST_Union_Agg : list Geom -> Geom;         (* aggregate over one group *)
  ST_AsGeoJSON : Geom -> string;
  JSON_parse : string -> option JSON        (* [None]: throws SyntaxError *)
}.

(** ** The map libraries, at their interface *)

(** Leaflet throws from [map.fitBounds] when a corner of the bounds is no
    valid coordinate pair ("Invalid LatLng object"), and from [L.geoJSON]
    when the geometry of a feature is no GeoJSON geometry ("Invalid GeoJSON
    object.").  Which corners and which parsed values it accepts is left
    open; a corner with a missing coordinate ([undefined]) is never
    accepted, which the client model below writes out. *)
Class LeafletLibrary `{SpatialEngine} := {
  L_fitBounds_accepts : num * num -> num * num -> bool;
  L_geoJSON_accepts : JSON -> bool
}.

(** MapLibre GL throws from [map.fitBounds] when a corner is no valid
    [LngLat] ([NaN], a latitude outside -90..90).  Which corners it accepts
    is left open; a corner with a missing coordinate is never accepted. *)
Class MapLibreLibrary := {
  fitBounds_accepts : num * num -> num * num -> bool
}.

Module OnDemand.

(** *** Raw table and the aggregation query *)

(** Column identifiers built by the template strings [NAME_${level}],
    [TYPE_${level}], [ENGTYPE_${level}] and [GID_${level}]. *)
Inductive column :=
  | NAME (l : Z)
  | TYPE (l : Z)
  | ENGTYPE (l : Z)
  | GID (l : Z).

#[global] Instance column_eq_dec : EqDecision column.
Proof. solve_decision. Defined.

(** An SQL VARCHAR value; [None] is NULL. *)
Definition sqlval := option string.

Record RawRow `{SpatialEngine} := {
  col : column -> sqlval;
  geometry : WKB
}.

(** The GROUP BY list:
    [nameCol, typeCol, engTypeCol, gidCol, NAME_0] and, when [level > 1],
    [NAME_(level-1)]. *)
Record GroupKey := {
  k_name : sqlval;
  k_type : sqlval;
  k_eng_type : sqlval;
  k_gid : sqlval;
  k_country : sqlval;
  k_parent : option sqlval
}.

#[global] Instance GroupKey_eq_dec : EqDecision GroupKey.
Proof. solve_decision. Defined.

Definition group_key `{SpatialEngine} (level : Z) (r : RawRow) : GroupKey :=
  {| k_name := col r (NAME level);
     k_type := col r (TYPE level);
     k_eng_type := col r (ENGTYPE level);
     k_gid := col r (GID level);
     k_country := col r (NAME 0);
     k_parent := if (1 <? level)%Z then Some (col r (NAME (level - 1))) else None |}.

(** [WHERE nameCol IS NOT NULL AND nameCol != ''] *)
Definition where_clause `{SpatialEngine} (level : Z) (r : RawRow) : bool :=
  match col r (NAME level) with
  | Some s => negb (String.eqb s EmptyString)
  | None => false
  end.

(** Hash aggregation: a row joins the group of its key, or opens a new
    group.  NULLs compare equal inside GROUP BY, as [option] equality does. *)
Fixpoint group_insert {G : Type} (k : GroupKey) (g : G)
    (groups : list (GroupKey * list G)) : list (GroupKey * list G) :=
  match groups with
  | [] => [(k, [g])]
  | (k', gs) :: rest =>
      if decide (k = k') then (k', gs ++ [g]) :: rest
      else (k', gs) :: group_insert k g rest
  end.

Definition group_by `{SpatialEngine} (level : Z) (rows : list RawRow)
    : list (GroupKey * list WKB) :=
  foldl (fun acc r => group_insert (group_key level r) (geometry r) acc) [] rows.

(** One row of the query result, as seen from JavaScript. *)
Record Row := {
  r_name : jsval;
  r_type : jsval;
  r_eng_type : jsval;
  r_gid : jsval;
  r_country : jsval;
  r_parent : jsval;
  r_geojson : jsval
}.

Definition js_of_sql (v : sqlval) : jsval :=
  match v with
  | Some s => JStr s
  | None => JNull
  end.

(** The SELECT list applied to one group. *)
Definition select_row `{SpatialEngine} (g : GroupKey * list WKB) : Row :=
  {| r_name := js_of_sql (k_name g.1);
     r_type := js_of_sql (k_type g.1);
     r_eng_type := js_of_sql (k_eng_type g.1);
     r_gid := js_of_sql (k_gid g.1);
     r_country := js_of_sql (k_country g.1);
     r_parent := match k_parent g.1 with
                 | Some v => js_of_sql v
                 | None => JUndefined
                 end;
     r_geojson := JStr (ST_AsGeoJSON (ST_Union_Agg (map ST_GeomFromWKB g.2))) |}.

(** The rows a successful run of the query of [loadBoundaries] returns for
    the rows of the parquet file.  Groups come out in order of first
    occurrence (SQL leaves the order open).  A run that fails (the file
    cannot be read, a column is missing, a geometry is malformed) is the
    [inl] outcome of [EQueryDone] below. *)
Definition query `{SpatialEngine} (level : Z) (table : list RawRow) : list Row :=
  map select_row (group_by level (filter (fun r => where_clause level r = true) table)).

(** *** From result rows to GeoJSON features *)

Record Props := {
  p_name : jsval;
  p_type : jsval;
  p_eng_type : jsval;
  p_gid : jsval;
  p_country : jsval;
  p_level : Z;
  p_parent : option jsval        (* [None]: the property is absent *)
}.

Record Feature `{SpatialEngine} := {
  properties : Props;
  f_geometry : JSON
}.

Inductive LogEntry :=
  | LogWarn (msg : string) (arg : jsval)
  | LogError (msg : string) (err : string)
  | LogInfo (msg : string).

(** [JSON.parse(row.geojson)] *)
Definition JSON_parse_js `{SpatialEngine} (v : jsval) : option JSON :=
  JSON_parse (js_to_string v).

(** The callback of [rows.map(...)]: the feature, or [null] after a
    [console.warn] when the geometry does not parse. *)
Definition feature_of_row `{SpatialEngine} (level : Z) (row : Row)
    : option Feature * list LogEntry :=
  let props :=
    {| p_name := r_name row;
       p_type := r_type row;
       p_eng_type := r_eng_type row;
       p_gid := r_gid row;
       p_country := r_country row;
       p_level := level;
       p_parent := if truthy (r_parent row) then Some (r_parent row) else None |} in
  match JSON_parse_js (r_geojson row) with
  | Some g => (Some {| properties := props; f_geometry := g |}, [])
  | None => (None, [LogWarn "Failed to parse geometry for" (r_name row)])
  end.

(** [rows.map(...).filter(f => f !== null)], with the console output. *)
Definition build_features `{SpatialEngine} (level : Z) (rows : list Row)
    : list Feature * list LogEntry :=
  let results := map (feature_of_row level) rows in
  (omap fst results, concat (map snd results)).

(** The feature collection [loadBoundaries(level)] builds from the rows of
    the country's file when the query succeeds. *)
Definition aggregate `{SpatialEngine} (level : Z) (table : list RawRow) : list Feature :=
  (build_features level (query level table)).1.

(** *** Session state of the DuckDB/Leaflet client *)

(** The object [handleCountryChange] stores in [currentCountry]. *)
Record Country := {
  filename : string;
  c_name : string;
  bounds : list num;
  levels : list Z
}.

(** The Leaflet viewport: [setView([20, 0], 2)] or
    [fitBounds([[minY, minX], [maxY, maxX]])]. *)
Inductive View :=
  | DefaultView
  | FitBounds (southWest northEast : num * num).

(** A layer object made by [L.geoJSON(geojson, ...)]; [lid] is its
    identity as a JavaScript object. *)
Record GeoLayer `{SpatialEngine} := {
  lid : nat;
  fc_features : list Feature
}.

(** The text of the query is determined by the level and the file URL. *)
Record Query := {
  q_url : string;
  q_level : Z
}.

(** A call of [loadBoundaries(level)] suspended at an [await]. *)
Inductive Task :=
  | Polling (level : Z) (i : nat)       (* in [waitForDuckDB], iteration [i], awaiting the timer *)
  | Querying (level : Z) (q : Query).   (* awaiting [conn.query(query)] *)

Record Globals `{SpatialEngine} := {
  duckDBReady : bool;
  conn : bool;                          (* [conn] holds a connection *)
  currentCountry : option Country;
  currentLevel : option Z;
  boundaryLayer : option GeoLayer
}.

Record Leaflet `{SpatialEngine} := {
  map_layers : list GeoLayer;           (* overlay layers on the map *)
  map_view : View;
  next_lid : nat
}.

Record Dom := {
  loading : option string;              (* loading indicator shown with this text *)
  errors : list string;                 (* error boxes appended by [showError] *)
  container_shown : bool;               (* #admin-levels-container *)
  buttons : list (Z * bool);            (* .admin-level-btn: level, has class active *)
  console : list LogEntry
}.

Record Runtime := {
  baseUrl : string;
  tasks : gmap nat Task;                (* suspended calls of [loadBoundaries] *)
  next_tid : nat;
  issued : list Query;                  (* queries handed to [conn.query] *)
  timers : list (nat * Z)               (* [setTimeout] calls: task, delay in ms *)
}.

Record State `{SpatialEngine} := {
  globals : Globals;
  leaflet : Leaflet;
  dom : Dom;
  runtime : Runtime
}.

Section Updates.
Context `{SpatialEngine}.

Definition with_globals (f : Globals -> Globals) (s : State) : State :=
  {| globals := f (globals s); leaflet := leaflet s; dom := dom s; runtime := runtime s |}.
Definition with_leaflet (f : Leaflet -> Leaflet) (s : State) : State :=
  {| globals := globals s; leaflet := f (leaflet s); dom := dom s; runtime := runtime s |}.
Definition with_dom (f : Dom -> Dom) (s : State) : State :=
  {| globals := globals s; leaflet := leaflet s; dom := f (dom s); runtime := runtime s |}.
Definition with_runtime (f : Runtime -> Runtime) (s : State) : State :=
  {| globals := globals s; leaflet := leaflet s; dom := dom s; runtime := f (runtime s) |}.

Definition set_duckDBReady (b : bool) : State -> State :=
  with_globals (fun g =>
    {| duckDBReady := b; conn := conn g; currentCountry := currentCountry g;
       currentLevel := currentLevel g; boundaryLayer := boundaryLayer g |}).
Definition set_conn (b : bool) : State -> State :=
  with_globals (fun g =>
    {| duckDBReady := duckDBReady g; conn := b; currentCountry := currentCountry g;
       currentLevel := currentLevel g; boundaryLayer := boundaryLayer g |}).
Definition set_currentCountry (c : option Country) : State -> State :=
  with_globals (fun g =>
    {| duckDBReady := duckDBReady g; conn := conn g; currentCountry := c;
       currentLevel := currentLevel g; boundaryLayer := boundaryLayer g |}).
Definition set_currentLevel (l : option Z) : State -> State :=
  with_globals (fun g =>
    {| duckDBReady := duckDBReady g; conn := conn g; currentCountry := currentCountry g;
       currentLevel := l; boundaryLayer := boundaryLayer g |}).
Definition set_boundaryLayer (b : option GeoLayer) : State -> State :=
  with_globals (fun g =>
    {| duckDBReady := duckDBReady g; conn := conn g; currentCountry := currentCountry g;
       currentLevel := currentLevel g; boundaryLayer := b |}).

Definition set_map_layers (ls : list GeoLayer) : State -> State :=
  with_leaflet (fun m => {| map_layers := ls; map_view := map_view m; next_lid := next_lid m |}).
Definition set_map_view (v : View) : State -> State :=
  with_leaflet (fun m => {| map_layers := map_layers m; map_view := v; next_lid := next_lid m |}).
Definition set_next_lid (n : nat) : State -> State :=
  with_leaflet (fun m => {| map_layers := map_layers m; map_view := map_view m; next_lid := n |}).

Definition set_loading (t : option string) : State -> State :=
  with_dom (fun d =>
    {| loading := t; errors := errors d; container_shown := container_shown d;
       buttons := buttons d; console := console d |}).
Definition set_errors (e : list string) : State -> State :=
  with_dom (fun d =>
    {| loading := loading d; errors := e; container_shown := container_shown d;
       buttons := buttons d; console := console d |}).
Definition set_container_shown (b : bool) : State -> State :=
  with_dom (fun d =>
    {| loading := loading d; errors := errors d; container_shown := b;
       buttons := buttons d; console := console d |}).
Definition set_buttons (bs : list (Z * bool)) : State -> State :=
  with_dom (fun d =>
    {| loading := loading d; errors := errors d; container_shown := container_shown d;
       buttons := bs; console := console d |}).
Definition set_console (c : list LogEntry) : State -> State :=
  with_dom (fun d =>
    {| loading := loading d; errors := errors d; container_shown := container_shown d;
       buttons := buttons d; console := c |}).

Definition set_tasks (t : gmap nat Task) : State -> State :=
  with_runtime (fun r =>
    {| baseUrl := baseUrl r; tasks := t; next_tid := next_tid r;
       issued := issued r; timers := timers r |}).
Definition set_next_tid (n : nat) : State -> State :=
  with_runtime (fun r =>
    {| baseUrl := baseUrl r; tasks := tasks r; next_tid := n;
       issued := issued r; timers := timers r |}).
Definition set_issued (q : list Query) : State -> State :=
  with_runtime (fun r =>
    {| baseUrl := baseUrl r; tasks := tasks r; next_tid := next_tid r;
       issued := q; timers := timers r |}).
Definition set_timers (t : list (nat * Z)) : State -> State :=
  with_runtime (fun r =>
    {| baseUrl := baseUrl r; tasks := tasks r; next_tid := next_tid r;
       issued := issued r; timers := t |}).

End Updates.

(** *** The functions of the client *)

Section Client.
Context `{SpatialEngine} `{!LeafletLibrary}.

Definition showLoading (text : string) (s : State) : State :=
  set_loading (Some text) s.

Definition hideLoading (s : State) : State :=
  set_loading None s.

Definition showError (message : string) (s : State) : State :=
  set_errors (errors (dom s) ++ [message]) s.

Definition console_log (es : list LogEntry) (s : State) : State :=
  set_console (console (dom s) ++ es) s.

(** [map.removeLayer(layer)] *)
Definition map_removeLayer (l : GeoLayer) (s : State) : State :=
  set_map_layers (filter (fun x => lid x <> lid l) (map_layers (leaflet s))) s.

(** Leaflet builds a layer from every feature of the collection. *)
Definition accepted (fs : list Feature) : bool :=
  forallb (fun f => L_geoJSON_accepts (f_geometry f)) fs.

(** [L.geoJSON(geojson, ...).addTo(map)]: a new layer object on the map, or
    [None] when [L.geoJSON] throws, before anything is added to the map. *)
Definition L_geoJSON_addTo (fs : list Feature) (s : State) : option (GeoLayer * State) :=
  if accepted fs then
    let layer := {| lid := next_lid (leaflet s); fc_features := fs |} in
    Some (layer,
          set_next_lid (S (next_lid (leaflet s)))
            (set_map_layers (map_layers (leaflet s) ++ [layer]) s))
  else None.

(** [map.fitBounds([[minY, minX], [maxY, maxX]], ...)] for
    [[minX, minY, maxX, maxY] = bounds]: the view the map moves to, or
    [None] when Leaflet throws. *)
Definition fitBounds_view (b : list num) : option View :=
  match b !! 0%nat, b !! 1%nat, b !! 2%nat, b !! 3%nat with
  | Some minX, Some minY, Some maxX, Some maxY =>
      if L_fitBounds_accepts (minY, minX) (maxY, maxX)
      then Some (FitBounds (minY, minX) (maxY, maxX))
      else None
  | _, _, _, _ => None
  end.

(** [duckDBReady && conn] *)
Definition engine_ready (s : State) : bool :=
  duckDBReady (globals s) && conn (globals s).

(** The bounds of [waitForDuckDB]: [for (let i = 0; i < 60; i++)] around
    [setTimeout(resolve, 500)]. *)
Definition MAX_ATTEMPTS : nat := 60.
Definition POLL_INTERVAL : Z := 500.

(** [await new Promise(resolve => setTimeout(resolve, 500))] in iteration
    [i] of the loop of [waitForDuckDB], on behalf of call [tid]. *)
Definition await_timer (tid : nat) (level : Z) (i : nat) (s : State) : State :=
  set_timers (timers (runtime s) ++ [(tid, POLL_INTERVAL)])
    (set_tasks (<[tid := Polling level i]> (tasks (runtime s))) s).

(** The [catch (error)] block of [loadBoundaries]. *)
Definition catch_error (message : string) (s : State) : State :=
  showError ("Failed to load boundaries: " +:+ message)
    (hideLoading (console_log [LogError "Failed to load boundaries:" message] s)).

(** The [try] block of [loadBoundaries] up to [await conn.query(query)].
    Reading [currentCountry.filename] of [null] throws inside the [try]. *)
Definition issue_query (tid : nat) (level : Z) (s : State) : State :=
  match currentCountry (globals s) with
  | Some c =>
      let q := {| q_url := baseUrl (runtime s) +:+ "data/" +:+ filename c;
                  q_level := level |} in
      set_issued (issued (runtime s) ++ [q])
        (set_tasks (<[tid := Querying level q]> (tasks (runtime s))) s)
  | None =>
      catch_error "currentCountry is null"
        (set_tasks (delete tid (tasks (runtime s))) s)
  end.

(** [waitForDuckDB()] on behalf of call [tid]: its result when it returns
    at once, or [None] when it suspends on a timer.  The function tests
    readiness and then enters [for (let i = 0; i < 60; i++)]. *)
Definition waitForDuckDB (tid : nat) (level : Z) (s : State) : option bool * State :=
  if engine_ready s then (Some true, s)
  else if decide (0 < MAX_ATTEMPTS) then (None, await_timer tid level 0 s)
  else (Some false, s).

(** [waitForDuckDB] resumed by the timer of iteration [i]: the readiness
    test in the loop body, then [i++] and the loop test. *)
Definition waitForDuckDB_resume (tid : nat) (level : Z) (i : nat) (s : State)
    : option bool * State :=
  if engine_ready s then (Some true, s)
  else if decide (S i < MAX_ATTEMPTS) then (None, await_timer tid level (S i) s)
  else (Some false, s).

(** [loadBoundaries] after [const ready = await waitForDuckDB()]. *)
Definition after_wait (tid : nat) (level : Z) (ready : bool) (s : State) : State :=
  if ready then issue_query tid level s
  else
    showError "Database failed to initialize. Please refresh the page."
      (hideLoading (set_tasks (delete tid (tasks (runtime s))) s)).

(** [loadBoundaries(level)] up to its first [await] (or its return). *)
Definition loadBoundaries (level : Z) (s : State) : State :=
  match currentCountry (globals s) with
  | None => s
  | Some _ =>
      let s := showLoading ("Loading Level " +:+ decimal level +:+ " boundaries...") s in
      let s := set_currentLevel (Some level) s in
      let s := set_buttons
                 (map (fun b : Z * bool => (b.1, bool_decide (b.1 = level)))
                      (buttons (dom s))) s in
      let tid := next_tid (runtime s) in
      let s := set_next_tid (S tid) s in
      if negb (duckDBReady (globals s)) || negb (conn (globals s)) then
        match waitForDuckDB tid level s with
        | (Some ready, s) => after_wait tid level ready s
        | (None, s) => s
        end
      else
        issue_query tid level s
  end.

(** [loadBoundaries(level)] of the older DuckDB client, which has no
    readiness poll and goes straight to the query.  Its [catch] block calls
    [alert], recorded here like [showError]. *)
Definition loadBoundaries_legacy (level : Z) (s : State) : State :=
  match currentCountry (globals s) with
  | None => s
  | Some _ =>
      let s := showLoading ("Loading Level " +:+ decimal level +:+ " boundaries...") s in
      let s := set_currentLevel (Some level) s in
      let s := set_buttons
                 (map (fun b : Z * bool => (b.1, bool_decide (b.1 = level)))
                      (buttons (dom s))) s in
      let tid := next_tid (runtime s) in
      let s := set_next_tid (S tid) s in
      issue_query tid level s
  end.

(** A timer of [waitForDuckDB] fires for call [tid]. *)
Definition on_timer (tid : nat) (s : State) : State :=
  match tasks (runtime s) !! tid with
  | Some (Polling level i) =>
      match waitForDuckDB_resume tid level i s with
      | (Some ready, s) => after_wait tid level ready s
      | (None, s) => s
      end
  | _ => s
  end.

(** [conn.query(query)] settles for call [tid]: the rest of the [try]
    block, or the [catch] block.  An exception of [L.geoJSON] is caught by
    the same [catch] block, after the previous layer has been taken off the
    map and with [boundaryLayer] still referring to it. *)
Definition on_query_done (tid : nat) (res : string + list Row) (s : State) : State :=
  match tasks (runtime s) !! tid with
  | Some (Querying level q) =>
      let s := set_tasks (delete tid (tasks (runtime s))) s in
      match res with
      | inr rows =>
          let (features, warnings) := build_features level rows in
          let s := console_log warnings s in
          let s := match boundaryLayer (globals s) with
                   | Some old => map_removeLayer old s
                   | None => s
                   end in
          match L_geoJSON_addTo features s with
          | Some (layer, s) =>
              let s := set_boundaryLayer (Some layer) s in
              hideLoading s
          | None => catch_error "Invalid GeoJSON object." s
          end
      | inl message => catch_error message s
      end
  | _ => s
  end.

(** [showAdminLevelButtons(levels)] *)
Definition showAdminLevelButtons (lvls : list Z) (s : State) : State :=
  set_container_shown true (set_buttons (map (fun l => (l, false)) lvls) s).

(** [handleCountryChange(event)]; [None] is the placeholder option, whose
    value is empty.  When [map.fitBounds] throws, the handler ends there
    (the promise of the async function is rejected and nobody handles it):
    [currentCountry] has been assigned and nothing else has happened. *)
Definition handleCountryChange (selected : option Country) (s : State) : State :=
  let reset s :=
    let s := set_container_shown false s in
    let s := match boundaryLayer (globals s) with
             | Some old => set_boundaryLayer None (map_removeLayer old s)
             | None => s
             end in
    set_map_view DefaultView s in
  match selected with
  | None => reset s
  | Some c =>
      if String.eqb (filename c) EmptyString then reset s
      else
        let s := set_currentCountry (Some c) s in
        match fitBounds_view (bounds c) with
        | None => s
        | Some v =>
            let s := set_map_view v s in
            let s := showAdminLevelButtons (levels c) s in
            let s := match boundaryLayer (globals s) with
                     | Some old => set_boundaryLayer None (map_removeLayer old s)
                     | None => s
                     end in
            match levels c with
            | first :: _ => loadBoundaries first s
            | [] => s
            end
        end
  end.

(** *** The event loop *)

Inductive Event :=
  | EInitConnected                      (* initDuckDB: [conn = await db.connect()] *)
  | EInitReady                          (* initDuckDB: [duckDBReady = true] *)
  | EInitFailed (message : string)      (* initDuckDB: the [catch] block *)
  | ECountryChange (selected : option Country)
  | EClickLevel (level : Z)             (* click on the button of [level] *)
  | ETimer (tid : nat)
  | EQueryDone (tid : nat) (res : string + list Row).

Definition step (e : Event) (s : State) : State :=
  match e with
  | EInitConnected => set_conn true s
  | EInitReady =>
      console_log [LogInfo "DuckDB initialized successfully"]
        (hideLoading (set_duckDBReady true s))
  | EInitFailed message =>
      showError ("Failed to initialize database: " +:+ message)
        (hideLoading (console_log [LogError "Failed to initialize DuckDB:" message] s))
  | ECountryChange selected => handleCountryChange selected s
  | EClickLevel level =>
      if decide (level ∈ (buttons (dom s)).*1) then loadBoundaries level s else s
  | ETimer tid => on_timer tid s
  | EQueryDone tid res => on_query_done tid res s
  end.

Definition run (es : list Event) (s : State) : State :=
  foldl (fun s e => step e s) s es.

(** The state when [init] has installed the listeners and [initDuckDB] has
    shown its loading text. *)
Definition init_state (base : string) : State :=
  {| globals := {| duckDBReady := false; conn := false; currentCountry := None;
                   currentLevel := None; boundaryLayer := None |};
     leaflet := {| map_layers := []; map_view := DefaultView; next_lid := 0 |};
     dom := {| loading := Some "Initializing database..."; errors := [];
               container_shown := false; buttons := []; console := [] |};
     runtime := {| baseUrl := base; tasks := ∅; next_tid := 0; issued := []; timers := [] |} |}.

Inductive reachable (base : string) : State -> Prop :=
  | reachable_init : reachable base (init_state base)
  | reachable_step e s : reachable base s -> reachable base (step e s).

(** The number of timer firings for call [tid] in a trace. *)
Definition is_timer_of (tid : nat) (e : Event) : bool :=
  match e with
  | ETimer t => bool_decide (t = tid)
  | _ => false
  end.

Definition timer_count (tid : nat) (es : list Event) : nat :=
  length (filter (fun e => is_timer_of tid e = true) es).

(** What the map shows: the feature collections of its overlay layers. *)
Definition displayed (s : State) : list (list Feature) :=
  fc_features <$> map_layers (leaflet s).

(** What the map shows once a query has settled with features [fs]: the
    collection, or nothing when [L.geoJSON] has thrown. *)
Definition drawn (fs : list Feature) : list (list Feature) :=
  if accepted fs then [fs] else [].

(** Every displayed feature belongs to [level]. *)
Definition only_level_displayed (level : Z) (s : State) : Prop :=
  forall fs f, fs ∈ displayed s -> f ∈ fs -> p_level (properties f) = level.

(** The map has no overlay layer, or its only overlay layer is the one
    [boundaryLayer] refers to. *)
Definition wf_layers (s : State) : Prop :=
  map_layers (leaflet s) = [] \/
  map_layers (leaflet s) = option_list (boundaryLayer (globals s)).

(** While call [tid] polls, it is in iteration [i0 + n] of the loop for
    [level], and the loop bound has not been reached. *)
Definition poll_inv (tid : nat) (level : Z) (i0 n : nat) (s : State) : Prop :=
  tid < next_tid (runtime s) /\
  is_Some (currentCountry (globals s)) /\
  forall l j, tasks (runtime s) !! tid = Some (Polling l j) ->
    l = level /\ j = i0 + n /\ j < MAX_ATTEMPTS.

End Client.

End OnDemand.

(** ** The MapLibre clients: map style, session state, exceptions *)

Module MapLibre.

(** Source ids: the raster basemap (['carto-light'], ['carto-dark'] in
    [src/js/app.js]) and [`gadm-level${level}`]. *)
Inductive source_id :=
  | Carto
  | GadmLevel (level : Z).

(** Layer ids: ['basemap'], [`layer-line-${level}`], [`layer-fill-${level}`]. *)
Inductive layer_id :=
  | Basemap
  | LayerLine (level : Z)
  | LayerFill (level : Z).

#[global] Instance source_id_eq_dec : EqDecision source_id.
Proof. solve_decision. Defined.
#[global] Instance layer_id_eq_dec : EqDecision layer_id.
Proof. solve_decision. Defined.

Inductive Source :=
  | RasterSource
  | VectorSource (url : string) (attribution : string).

(** Style expressions: a literal, or
    [['case', ['==', ['get', 'NAME_0'], name], selected, otherwise]]. *)
Inductive expr :=
  | Lit (v : string)
  | CaseNameEq (name : string) (selected otherwise : string).

(** The layer filter [['==', ['get', 'NAME_0'], name]]. *)
Inductive filter_expr :=
  | NameEq (name : string).

Inductive layer_type := Raster | Line | Fill.

Inductive paint_prop :=
  | line_color
  | line_width
  | fill_color
  | fill_opacity
  | fill_outline_color.

#[global] Instance expr_eq_dec : EqDecision expr.
Proof. solve_decision. Defined.
#[global] Instance filter_expr_eq_dec : EqDecision filter_expr.
Proof. solve_decision. Defined.
#[global] Instance layer_type_eq_dec : EqDecision layer_type.
Proof. solve_decision. Defined.
#[global] Instance paint_prop_eq_dec : EqDecision paint_prop.
Proof. solve_decision. Defined.

Record Layer := {
  l_id : layer_id;
  ltype : layer_type;
  source : source_id;
  source_layer : option string;
  visible : bool;                       (* layout visibility: 'visible' or 'none' *)
  paint : list (paint_prop * expr);
  l_filter : option filter_expr
}.

(** The viewport: [flyTo({center: [0, 20], zoom: 2})] or [fitBounds([sw, ne])]. *)
Inductive MView :=
  | WorldView
  | Fitted (sw ne : num * num).

(** The map.  The library rejects a second source or layer with an id that
    is in use; that rejection is left out here, [addSource] and [addLayer]
    insert unconditionally, so that the absence of duplicates is a property
    of the client's own guards. *)
Record MapState := {
  sources : list (source_id * Source);
  layers : list Layer;                  (* in drawing order *)
  handlers : list (string * layer_id * Z);   (* [map.on(event, layerId, ...)], with the level captured *)
  view : MView
}.

Record Country := {
  name : string;
  c_bounds : list num;
  admin_levels : list Z
}.

Record App := {
  mapgl : MapState;
  currentCountry : option Country;
  countriesData : list Country;
  select_value : string;                (* #country-select *)
  container_shown : bool;               (* #admin-levels-container *)
  buttons : list (Z * bool);            (* .admin-level-btn: level, has class active *)
  console : list string
}.

Definition with_map (f : MapState -> MapState) (a : App) : App :=
  {| mapgl := f (mapgl a); currentCountry := currentCountry a; countriesData := countriesData a;
     select_value := select_value a; container_shown := container_shown a;
     buttons := buttons a; console := console a |}.
Definition set_currentCountry (c : option Country) (a : App) : App :=
  {| mapgl := mapgl a; currentCountry := c; countriesData := countriesData a;
     select_value := select_value a; container_shown := container_shown a;
     buttons := buttons a; console := console a |}.
Definition set_select_value (v : string) (a : App) : App :=
  {| mapgl := mapgl a; currentCountry := currentCountry a; countriesData := countriesData a;
     select_value := v; container_shown := container_shown a;
     buttons := buttons a; console := console a |}.
Definition set_container_shown (b : bool) (a : App) : App :=
  {| mapgl := mapgl a; currentCountry := currentCountry a; countriesData := countriesData a;
     select_value := select_value a; container_shown := b;
     buttons := buttons a; console := console a |}.
Definition set_buttons (bs : list (Z * bool)) (a : App) : App :=
  {| mapgl := mapgl a; currentCountry := currentCountry a; countriesData := countriesData a;
     select_value := select_value a; container_shown := container_shown a;
     buttons := bs; console := console a |}.
Definition set_console (c : list string) (a : App) : App :=
  {| mapgl := mapgl a; currentCountry := currentCountry a; countriesData := countriesData a;
     select_value := select_value a; container_shown := container_shown a;
     buttons := buttons a; console := c |}.

Definition set_sources (x : list (source_id * Source)) (m : MapState) : MapState :=
  {| sources := x; layers := layers m; handlers := handlers m; view := view m |}.
Definition set_layers (x : list Layer) (m : MapState) : MapState :=
  {| sources := sources m; layers := x; handlers := handlers m; view := view m |}.
Definition set_handlers (x : list (string * layer_id * Z)) (m : MapState) : MapState :=
  {| sources := sources m; layers := layers m; handlers := x; view := view m |}.
Definition set_view (x : MView) (m : MapState) : MapState :=
  {| sources := sources m; layers := layers m; handlers := handlers m; view := x |}.

Definition set_visible (v : bool) (l : Layer) : Layer :=
  {| l_id := l_id l; ltype := ltype l; source := source l; source_layer := source_layer l;
     visible := v; paint := paint l; l_filter := l_filter l |}.
Definition set_paint (p : list (paint_prop * expr)) (l : Layer) : Layer :=
  {| l_id := l_id l; ltype := ltype l; source := source l; source_layer := source_layer l;
     visible := visible l; paint := p; l_filter := l_filter l |}.

(** The session with the layer list of the map replaced. *)
Definition with_layers (ls : list Layer) (a : App) : App :=
  with_map (set_layers ls) a.

(** *** Statements that may throw: a state and exception monad *)

Inductive result (A : Type) :=
  | Ok (a : A)
  | Throw (msg : string).
Arguments Ok {A} a.
Arguments Throw {A} msg.

Definition M (A : Type) : Type := App -> result A * App.

#[global] Instance M_ret : MRet M := fun A (x : A) a => (Ok x, a).
#[global] Instance M_bind : MBind M := fun A B (f : A -> M B) (c : M A) a =>
  match c a with
  | (Ok x, a') => f x a'
  | (Throw msg, a') => (Throw msg, a')
  end.

Definition throw {A : Type} (msg : string) : M A := fun a => (Throw msg, a).
Definition gets {A : Type} (f : App -> A) : M A := fun a => (Ok (f a), a).
Definition modify (f : App -> App) : M unit := fun a => (Ok tt, f a).

(** [if (c) stmt] *)
Definition when (c : bool) (stmt : M unit) : M unit :=
  if c then stmt else mret tt.

(** [for (const x of xs) body(x)] and [xs.forEach(body)] *)
Fixpoint for_each {A : Type} (xs : list A) (body : A -> M unit) : M unit :=
  match xs with
  | [] => mret tt
  | x :: xs' => body x ;; for_each xs' body
  end.

(** The state an event handler leaves behind, whether it returns or dies
    with an uncaught exception. *)
Definition exec {A : Type} (c : M A) (a : App) : App := (c a).2.

(** *** The map API *)

Definition has_source (i : source_id) (m : MapState) : bool :=
  bool_decide (i ∈ (sources m).*1).
Definition has_layer (i : layer_id) (m : MapState) : bool :=
  bool_decide (i ∈ l_id <$> layers m).

(** Insert [l] in front of the layer with id [before]; a [before] that
    names no layer leaves the list as it is. *)
Fixpoint insert_before (before : layer_id) (l : Layer) (ls : list Layer) : list Layer :=
  match ls with
  | [] => []
  | x :: rest =>
      if decide (l_id x = before) then l :: x :: rest
      else x :: insert_before before l rest
  end.

Fixpoint set_prop (p : paint_prop) (v : expr) (ps : list (paint_prop * expr))
    : list (paint_prop * expr) :=
  match ps with
  | [] => [(p, v)]
  | (q, w) :: rest =>
      if decide (q = p) then (p, v) :: rest else (q, w) :: set_prop p v rest
  end.

Definition getSource (i : source_id) : M bool :=
  gets (fun a => has_source i (mapgl a)).
Definition getLayer (i : layer_id) : M bool :=
  gets (fun a => has_layer i (mapgl a)).
Definition addSource (i : source_id) (s : Source) : M unit :=
  modify (with_map (fun m => set_sources (sources m ++ [(i, s)]) m)).
Definition addLayer (l : Layer) (before : option layer_id) : M unit :=
  modify (fun a =>
    with_layers (match before with
                 | None => layers (mapgl a) ++ [l]
                 | Some b => insert_before b l (layers (mapgl a))
                 end) a).
Definition removeLayer (i : layer_id) : M unit :=
  modify (fun a => with_layers (filter (fun l => l_id l <> i) (layers (mapgl a))) a).
Definition setLayoutProperty_visibility (i : layer_id) (v : bool) : M unit :=
  modify (fun a =>
    with_layers ((fun l => if decide (l_id l = i) then set_visible v l else l)
                   <$> layers (mapgl a)) a).
Definition setPaintProperty (i : layer_id) (p : paint_prop) (v : expr) : M unit :=
  modify (fun a =>
    with_layers ((fun l => if decide (l_id l = i)
                           then set_paint (set_prop p v (paint l)) l else l)
                   <$> layers (mapgl a)) a).
Definition map_on (event : string) (i : layer_id) (level : Z) : M unit :=
  modify (with_map (fun m => set_handlers (handlers m ++ [(event, i, level)]) m)).
Definition console_log (msg : string) : M unit :=
  modify (fun a => set_console (console a ++ [msg]) a).

(** [map.fitBounds([[b[0], b[1]], [b[2], b[3]]], ...)]: the view the map
    moves to, or [None] when the library throws. *)
Definition fitBounds_view `{MapLibreLibrary} (b : list num) : option MView :=
  match b !! 0%nat, b !! 1%nat, b !! 2%nat, b !! 3%nat with
  | Some west, Some south, Some east, Some north =>
      if fitBounds_accepts (west, south) (east, north)
      then Some (Fitted (west, south) (east, north))
      else None
  | _, _, _, _ => None
  end.

Definition fitBounds `{MapLibreLibrary} (b : list num) : M unit :=
  match fitBounds_view b with
  | Some v => modify (with_map (set_view v))
  | None => throw "Error: Invalid LngLat object"
  end.

(** One entry of a [STYLES] table. *)
Record Style := {
  color : string;
  fill : string;
  width : num;
  opacity : num
}.

(** The map [initMap] creates: the raster basemap only. *)
Definition initial_map : MapState :=
  {| sources := [(Carto, RasterSource)];
     layers := [{| l_id := Basemap; ltype := Raster; source := Carto;
                   source_layer := None; visible := true; paint := []; l_filter := None |}];
     handlers := [];
     view := WorldView |}.

(** The session once [loadCountriesMetadata] has stored the catalog. *)
Definition init_app (catalog : list Country) : App :=
  {| mapgl := initial_map; currentCountry := None; countriesData := catalog;
     select_value := EmptyString; container_shown := false; buttons := []; console := [] |}.

(** No two sources and no two layers share an id. *)
Definition uniq (m : MapState) : Prop :=
  NoDup (sources m).*1 /\ NoDup (l_id <$> layers m).

Definition uniq_app (a : App) : Prop := uniq (mapgl a).

(** [setLayerVisibility(level, isVisible)] on one layer. *)
Definition show_level (level : Z) (isVisible : bool) (l : Layer) : Layer :=
  if decide (l_id l = LayerLine level \/ l_id l = LayerFill level)
  then set_visible isVisible l else l.

(** The line and fill layers of levels 1 to 5. *)
Definition is_admin_id (i : layer_id) : Prop :=
  match i with
  | Basemap => False
  | LayerLine l | LayerFill l => (1 <= l <= 5)%Z
  end.

#[global] Instance is_admin_id_dec i : Decision (is_admin_id i).
Proof. destruct i; cbn; apply _. Defined.

(** A statement keeps a property of the session, whether it returns or
    throws. *)
Definition preserves {A : Type} (I : App -> Prop) (c : M A) : Prop :=
  forall a, I a -> I (c a).2.

End MapLibre.

(** ** The MapLibre client with country filters *)

Module Tiled.
Import MapLibre.

Definition STYLES (level : Z) : option Style :=
  match level with
  | 0 => Some {| color := "#000000"; fill := "transparent"; width := "1"; opacity := "0" |}
  | 1 => Some {| color := "#651FFF"; fill := "#651FFF"; width := "3"; opacity := "0.2" |}
  | 2 => Some {| color := "#2979FF"; fill := "#2979FF"; width := "2"; opacity := "0.2" |}
  | 3 => Some {| color := "#00B0FF"; fill := "#00B0FF"; width := "1.5"; opacity := "0.2" |}
  | 4 => Some {| color := "#00E5FF"; fill := "#00E5FF"; width := "1.5"; opacity := "0.2" |}
  | 5 => Some {| color := "#1DE9B6"; fill := "#1DE9B6"; width := "1.5"; opacity := "0.2" |}
  | _ => None
  end%Z.

(** [STYLES[level]] followed by a property read, which throws a TypeError
    when the table has no entry for [level]. *)
Definition style_of (level : Z) : M Style :=
  match STYLES level with
  | Some st => mret st
  | None => throw "TypeError: STYLES[level] is undefined"
  end.

(** [level === 0 ? 'countries' : `admin${level}`] *)
Definition source_layer_of (level : Z) : string :=
  if decide (level = 0%Z) then "countries" else "admin" +:+ decimal level.

Definition tiles_url (level : Z) : string :=
  "pmtiles://https://pub-381407fb739040e09035a4fb8219a3af.r2.dev/gadm_level"
    +:+ decimal level +:+ ".pmtiles".

(** [if (level > 0 && currentCountry) def.filter = ['==', ['get', 'NAME_0'], currentCountry.name]] *)
Definition country_filter (level : Z) (c : option Country) : option filter_expr :=
  match c with
  | Some c => if (0 <? level)%Z then Some (NameEq (name c)) else None
  | None => None
  end.

Definition line_paint (st : Style) : list (paint_prop * expr) :=
  [(line_color, Lit (color st)); (line_width, Lit (width st))].

Definition fill_paint (st : Style) : list (paint_prop * expr) :=
  [(fill_color, Lit (fill st)); (fill_opacity, Lit (opacity st));
   (fill_outline_color, Lit (color st))].

(** The three blocks of [addLevelLayer]: the source, the line layer
    ("Line layer (borders)") and the fill layer ("Fill layer (interactive)"). *)
Definition ensure_source (level : Z) : M unit :=
  let sourceId := GadmLevel level in
  hasSource ← getSource sourceId;
  when (negb hasSource)
    (addSource sourceId (VectorSource (tiles_url level) "GADM")).

(** The object [layerDef], with its filter when one applies. *)
Definition layerDef (level : Z) (isVisible : bool) (st : Style) (c : option Country)
    : Layer :=
  {| l_id := LayerLine level; ltype := Line; source := GadmLevel level;
     source_layer := Some (source_layer_of level);
     visible := isVisible;
     paint := line_paint st;
     l_filter := country_filter level c |}.

(** The object [fillDef], with its filter when one applies. *)
Definition fillDef (level : Z) (isVisible : bool) (st : Style) (c : option Country)
    : Layer :=
  {| l_id := LayerFill level; ltype := Fill; source := GadmLevel level;
     source_layer := Some (source_layer_of level);
     visible := isVisible;
     paint := fill_paint st;
     l_filter := country_filter level c |}.

Definition ensure_line_layer (level : Z) (isVisible : bool) : M unit :=
  let lineLayerId := LayerLine level in
  hasLine ← getLayer lineLayerId;
  when (negb hasLine)
    (c ← gets currentCountry;
     console_log ("Creating layer layer-line-" +:+ decimal level +:+ " for " +:+
                  match c with Some c => name c | None => "all" end);;
     st ← style_of level;
     addLayer (layerDef level isVisible st c) None).

Definition ensure_fill_layer (level : Z) (isVisible : bool) : M unit :=
  let fillLayerId := LayerFill level in
  hasFill ← getLayer fillLayerId;
  when (negb hasFill)
    (c ← gets currentCountry;
     st ← style_of level;
     addLayer (fillDef level isVisible st c) (Some (LayerLine level));;   (* place fill below line *)
     map_on "click" fillLayerId level;;
     map_on "mouseenter" fillLayerId level;;
     map_on "mouseleave" fillLayerId level).

Definition addLevelLayer (level : Z) (isVisible : bool) : M unit :=
  ensure_source level;;
  ensure_line_layer level isVisible;;
  ensure_fill_layer level isVisible.

Definition setLayerVisibility (level : Z) (isVisible : bool) : M unit :=
  let lineId := LayerLine level in
  let fillId := LayerFill level in
  hasLine ← getLayer lineId;
  when hasLine (setLayoutProperty_visibility lineId isVisible);;
  hasFill ← getLayer fillId;
  when hasFill (setLayoutProperty_visibility fillId isVisible).

(** The loop [for (let i = 1; i <= 5; i++)] that removes the fill and the
    line layer of level [i] when they exist. *)
Definition remove_level_layers (i : Z) : M unit :=
  hasFill ← getLayer (LayerFill i);
  when hasFill (removeLayer (LayerFill i));;
  hasLine ← getLayer (LayerLine i);
  when hasLine (removeLayer (LayerLine i)).

Definition remove_admin_layers : M unit :=
  for_each [1; 2; 3; 4; 5]%Z remove_level_layers.

Definition resetAdminLevels : M unit :=
  modify (set_buttons []);;
  modify (set_container_shown false);;
  remove_admin_layers.

(** The block under the comment "Reset Level 0 style". *)
Definition reset_level0_style : M unit :=
  hasLine ← getLayer (LayerLine 0);
  when hasLine
    (st ← style_of 0;
     setPaintProperty (LayerLine 0) line_color (Lit (color st));;
     setPaintProperty (LayerLine 0) line_width (Lit (width st))).

(** The click listener of #reset-view. *)
Definition reset_view_click : M unit :=
  modify (with_map (set_view WorldView));;
  modify (set_select_value EmptyString);;
  modify (set_currentCountry None);;
  resetAdminLevels;;
  reset_level0_style.

Definition createLevelButton (level : Z) (active : bool) : M unit :=
  modify (fun a => set_buttons (buttons a ++ [(level, active)]) a);;
  addLevelLayer level active;;
  setLayerVisibility level active.

(** [btn.onclick] of the button at position [idx]. *)
Definition button_click (idx : nat) : M unit :=
  bs ← gets buttons;
  match bs !! idx with
  | Some (level, active) =>
      let isActive := negb active in
      modify (set_buttons (<[idx := (level, isActive)]> bs));;
      addLevelLayer level isActive;;
      setLayerVisibility level isActive
  | None => mret tt
  end.

Definition updateAdminLevelUI (country : Country) : M unit :=
  modify (set_container_shown true);;
  modify (set_buttons []);;
  createLevelButton 0 true;;
  for_each (admin_levels country) (fun level => createLevelButton level false).

(** The block under the comment "Highlight Level 0 (Country Boundary)". *)
Definition highlight_level0 (country : Country) : M unit :=
  hasLine ← getLayer (LayerLine 0);
  when hasLine
    (st ← style_of 0;
     setPaintProperty (LayerLine 0) line_color
       (CaseNameEq (name country) "#D500F9" (color st));;
     setPaintProperty (LayerLine 0) line_width
       (CaseNameEq (name country) "4" (width st))).

Inductive Event :=
  | EMapLoad                            (* [map.on('load', ...)] *)
  | ECountryChange (value : string)     (* change of #country-select *)
  | EButtonClick (idx : nat)
  | EResetView.

Section Handlers.
Context `{MapLibreLibrary}.

Definition handleCountryChange (countryName : string) : M unit :=
  if String.eqb countryName EmptyString then
    modify (set_currentCountry None);;
    resetAdminLevels;;
    reset_level0_style
  else
    data ← gets countriesData;
    match List.find (fun c => String.eqb (name c) countryName) data with
    | Some country =>
        console_log ("Selected country: " +:+ name country);;
        modify (set_currentCountry (Some country));;
        fitBounds (c_bounds country);;
        highlight_level0 country;;
        remove_admin_layers;;
        updateAdminLevelUI country
    | None => mret tt
    end.

(** One event handler runs to its end, or to an uncaught exception.  The
    style of the map is taken as loaded whenever a handler runs. *)
Definition step (e : Event) (a : App) : App :=
  match e with
  | EMapLoad => exec (addLevelLayer 0 true) a
  | ECountryChange value => exec (handleCountryChange value) (set_select_value value a)
  | EButtonClick idx => exec (button_click idx) a
  | EResetView => exec reset_view_click a
  end.

Definition run (es : list Event) (a : App) : App :=
  foldl (fun a e => step e a) a es.

Inductive reachable (catalog : list Country) : App -> Prop :=
  | reachable_init : reachable catalog (init_app catalog)
  | reachable_step e a : reachable catalog a -> reachable catalog (step e a).

End Handlers.

(** Every line or fill layer belongs to a level of the [STYLES] table; a
    fill layer has the paint of its level, a line layer the two line
    properties, with the values of its level unless it is level 0. *)
Definition styled (l : Layer) : Prop :=
  match l_id l with
  | Basemap => True
  | LayerLine level =>
      exists st, STYLES level = Some st /\
        (paint l).*1 = [line_color; line_width] /\
        (level <> 0%Z -> paint l = line_paint st)
  | LayerFill level =>
      exists st, STYLES level = Some st /\ paint l = fill_paint st
  end.

(** A layer carries the filter of the given country selection. *)
Definition filtered (c : option Country) (l : Layer) : Prop :=
  match l_id l with
  | Basemap => True
  | LayerLine level | LayerFill level => l_filter l = country_filter level c
  end.

(** The invariant of the session: ids are unique, layers are styled, and
    the filter of every layer is that of some country selection (none on
    level 0). *)
Definition Inv (a : App) : Prop :=
  uniq (mapgl a) /\
  Forall styled (layers (mapgl a)) /\
  Forall (fun l => exists c, filtered c l) (layers (mapgl a)).

(** Every layer carries the filter of the current country selection. *)
Definition synced (a : App) : Prop :=
  Forall (filtered (currentCountry a)) (layers (mapgl a)).

(** The session after each block of [addLevelLayer] has created what was
    missing. *)
Definition with_source (level : Z) (a : App) : App :=
  with_map (fun m =>
    set_sources (sources m ++ [(GadmLevel level, VectorSource (tiles_url level) "GADM")]) m) a.

Definition line_log (level : Z) (a : App) : App :=
  set_console
    (console a ++
       ["Creating layer layer-line-" +:+ decimal level +:+ " for " +:+
        match currentCountry a with Some c => name c | None => "all" end]) a.

Definition with_line_layer (level : Z) (isVisible : bool) (st : Style) (a : App) : App :=
  with_layers (layers (mapgl a) ++ [layerDef level isVisible st (currentCountry a)])
    (line_log level a).

Definition with_fill_layer (level : Z) (isVisible : bool) (st : Style) (a : App) : App :=
  with_map (fun m =>
    set_handlers (((handlers m ++ [("click", LayerFill level, level)])
                     ++ [("mouseenter", LayerFill level, level)])
                     ++ [("mouseleave", LayerFill level, level)]) m)
    (with_layers (insert_before (LayerLine level)
                    (fillDef level isVisible st (currentCountry a))
                    (layers (mapgl a))) a).

(** What [highlight_level0] does to one layer. *)
Definition highlight0 (n : string) (l : Layer) : Layer :=
  if decide (l_id l = LayerLine 0) then
    set_paint (set_prop line_width (CaseNameEq n "4" "1")
                 (set_prop line_color (CaseNameEq n "#D500F9" "#000000") (paint l))) l
  else l.

(** What [reset_level0_style] does to one layer. *)
Definition restyle0 (l : Layer) : Layer :=
  if decide (l_id l = LayerLine 0) then
    set_paint (set_prop line_width (Lit "1")
                 (set_prop line_color (Lit "#000000") (paint l))) l
  else l.

End Tiled.

(** ** The MapLibre client of [src/js/app.js] *)

Module AppJs.
Import MapLibre.

Definition STYLES (level : Z) : option Style :=
  match level with
  | 0 => Some {| color := "#FFD700"; fill := "transparent"; width := "2"; opacity := "0" |}
  | 1 => Some {| color := "#00FFFF"; fill := "#00FFFF"; width := "1"; opacity := "0.15" |}
  | 2 => Some {| color := "#FF00FF"; fill := "#FF00FF"; width := "1"; opacity := "0.15" |}
  | 3 => Some {| color := "#FF6600"; fill := "#FF6600"; width := "1"; opacity := "0.15" |}
  | 4 => Some {| color := "#00FF00"; fill := "#00FF00"; width := "1"; opacity := "0.15" |}
  | 5 => Some {| color := "#00FF00"; fill := "#00FF00"; width := "1"; opacity := "0.15" |}
  | _ => None
  end%Z.

Definition style_of (level : Z) : M Style :=
  match STYLES level with
  | Some st => mret st
  | None => throw "TypeError: STYLES[level] is undefined"
  end.

Definition ensure_source (level : Z) : M unit :=
  let sourceId := GadmLevel level in
  hasSource ← getSource sourceId;
  when (negb hasSource)
    (addSource sourceId (VectorSource (Tiled.tiles_url level) "GADM")).

Definition ensure_line_layer (level : Z) (isVisible : bool) : M unit :=
  let lineLayerId := LayerLine level in
  hasLine ← getLayer lineLayerId;
  when (negb hasLine)
    (st ← style_of level;
     addLayer
       {| l_id := lineLayerId; ltype := Line; source := GadmLevel level;
          source_layer := Some (Tiled.source_layer_of level);
          visible := isVisible;
          paint := Tiled.line_paint st;
          l_filter := None |} None).

Definition ensure_fill_layer (level : Z) (isVisible : bool) : M unit :=
  let fillLayerId := LayerFill level in
  hasFill ← getLayer fillLayerId;
  when (negb hasFill)
    (st ← style_of level;
     addLayer
       {| l_id := fillLayerId; ltype := Fill; source := GadmLevel level;
          source_layer := Some (Tiled.source_layer_of level);
          visible := isVisible;
          paint := Tiled.fill_paint st;
          l_filter := None |} (Some (LayerLine level));;   (* place fill below line *)
     map_on "click" fillLayerId level;;
     map_on "mouseenter" fillLayerId level;;
     map_on "mouseleave" fillLayerId level).

Definition addLevelLayer (level : Z) (isVisible : bool) : M unit :=
  ensure_source level;;
  ensure_line_layer level isVisible;;
  ensure_fill_layer level isVisible.

Definition setLayerVisibility (level : Z) (isVisible : bool) : M unit :=
  hasLine ← getLayer (LayerLine level);
  when hasLine (setLayoutProperty_visibility (LayerLine level) isVisible);;
  hasFill ← getLayer (LayerFill level);
  when hasFill (setLayoutProperty_visibility (LayerFill level) isVisible).

(** "Hide all levels except 0" *)
Definition resetAdminLevels : M unit :=
  modify (set_container_shown false);;
  for_each [1; 2; 3; 4; 5]%Z (fun i => setLayerVisibility i false);;
  setLayerVisibility 0 true.

(** The click listener of #reset-view. *)
Definition reset_view_click : M unit :=
  modify (with_map (set_view WorldView));;
  modify (set_select_value EmptyString);;
  resetAdminLevels.

Definition createLevelButton (level : Z) (active : bool) : M unit :=
  modify (fun a => set_buttons (buttons a ++ [(level, active)]) a);;
  addLevelLayer level active;;
  setLayerVisibility level active.

Definition button_click (idx : nat) : M unit :=
  bs ← gets buttons;
  match bs !! idx with
  | Some (level, active) =>
      let isActive := negb active in
      modify (set_buttons (<[idx := (level, isActive)]> bs));;
      addLevelLayer level isActive;;
      setLayerVisibility level isActive
  | None => mret tt
  end.

Definition updateAdminLevelUI (country : Country) : M unit :=
  modify (set_container_shown true);;
  modify (set_buttons []);;
  createLevelButton 0 true;;
  for_each (admin_levels country) (fun level => createLevelButton level false).

Inductive Event :=
  | EMapLoad
  | ECountryChange (value : string)
  | EButtonClick (idx : nat)
  | EResetView.

Section Handlers.
Context `{MapLibreLibrary}.

Definition handleCountryChange (countryName : string) : M unit :=
  if String.eqb countryName EmptyString then mret tt
  else
    data ← gets countriesData;
    match List.find (fun c => String.eqb (name c) countryName) data with
    | Some country =>
        modify (set_currentCountry (Some country));;
        fitBounds (c_bounds country);;
        updateAdminLevelUI country
    | None => mret tt
    end.

Definition step (e : Event) (a : App) : App :=
  match e with
  | EMapLoad => exec (addLevelLayer 0 true) a
  | ECountryChange value => exec (handleCountryChange value) (set_select_value value a)
  | EButtonClick idx => exec (button_click idx) a
  | EResetView => exec reset_view_click a
  end.

Definition run (es : list Event) (a : App) : App :=
  foldl (fun a e => step e a) a es.

Inductive reachable (catalog : list Country) : App -> Prop :=
  | reachable_init : reachable catalog (init_app catalog)
  | reachable_step e a : reachable catalog a -> reachable catalog (step e a).

End Handlers.

(** The session after each block of [addLevelLayer] has created what was
    missing. *)
Definition with_line_layer (level : Z) (isVisible : bool) (st : Style) (a : App) : App :=
  with_layers (layers (mapgl a) ++ [Tiled.layerDef level isVisible st None]) a.

Definition with_fill_layer (level : Z) (isVisible : bool) (st : Style) (a : App) : App :=
  with_map (fun m =>
    set_handlers (((handlers m ++ [("click", LayerFill level, level)])
                     ++ [("mouseenter", LayerFill level, level)])
                     ++ [("mouseleave", LayerFill level, level)]) m)
    (with_layers (insert_before (LayerLine level)
                    (Tiled.fillDef level isVisible st None) (layers (mapgl a))) a).

(** What [resetAdminLevels] does to one layer: levels 1 to 5 are hidden,
    level 0 is shown, and nothing else changes. *)
Definition reset_visibility (l : Layer) : Layer :=
  if decide (is_admin_id (l_id l)) then set_visible false l
  else if decide (l_id l = LayerLine 0 \/ l_id l = LayerFill 0) then set_visible true l
  else l.

End AppJs.

(** ** What the aggregation is meant to compute *)

Module Dissolve.
Import OnDemand.

Section Spec.
Context `{SpatialEngine}.

(** The grouping-key tuple of a row of the file, as the uniqueness
    invariant lists it: (NAME_L, TYPE_L, ENGTYPE_L, GID_L, NAME_0) and
    NAME_(L-1) when L > 1.  It is written over the columns of the row and
    owes nothing to the query. *)
Definition key_tuple (level : Z) (r : RawRow) : GroupKey :=
  {| k_name := col r (NAME level);
     k_type := col r (TYPE level);
     k_eng_type := col r (ENGTYPE level);
     k_gid := col r (GID level);
     k_country := col r (NAME 0);
     k_parent := if decide (level > 1)%Z then Some (col r (NAME (level - 1))) else None |}.

(** A row takes part in the dissolve when its NAME_L is neither NULL nor
    the empty string. *)
Definition named (level : Z) (r : RawRow) : Prop :=
  exists s, col r (NAME level) = Some s /\ s <> EmptyString.

#[global] Instance named_dec level r : Decision (named level r).
Proof.
  unfold named. destruct (col r (NAME level)) as [s|].
  - destruct (decide (s = EmptyString)) as [Hs|Hs].
    + right. intros (s' & [= <-] & Hne). by apply Hne.
    + left. by exists s.
  - right. by intros (s & ? & _).
Defined.

(** The raw rows that take part and carry the grouping-key tuple [k]. *)
Definition rows_sharing (level : Z) (k : GroupKey) (table : list RawRow) : list RawRow :=
  filter (fun r => key_tuple level r = k) (filter (named level) table).

(** The geometric union of the geometries of those rows. *)
Definition dissolved (level : Z) (k : GroupKey) (table : list RawRow) : Geom :=
  ST_Union_Agg (ST_GeomFromWKB <$> (geometry <$> rows_sharing level k table)).

(** A key tuple is present in the file when some row that takes part
    carries it. *)
Definition key_present (level : Z) (k : GroupKey) (table : list RawRow) : Prop :=
  exists r, r ∈ table /\ named level r /\ key_tuple level r = k.

(** The properties of the region of key [k]: the parent is carried only
    when it is a non-empty string. *)
Definition props_of_key (level : Z) (k : GroupKey) : Props :=
  {| p_name := js_of_sql (k_name k);
     p_type := js_of_sql (k_type k);
     p_eng_type := js_of_sql (k_eng_type k);
     p_gid := js_of_sql (k_gid k);
     p_country := js_of_sql (k_country k);
     p_level := level;
     p_parent := match k_parent k with
                 | Some (Some s) => if String.eqb s EmptyString then None else Some (JStr s)
                 | _ => None
                 end |}.

(** The properties of the feature of a result row. *)
Definition props_of_row (level : Z) (row : Row) : Props :=
  {| p_name := r_name row;
     p_type := r_type row;
     p_eng_type := r_eng_type row;
     p_gid := r_gid row;
     p_country := r_country row;
     p_level := level;
     p_parent := match r_parent row with
                 | JStr s => if String.eqb s EmptyString then None else Some (JStr s)
                 | _ => None
                 end |}.

(** The geometry text of a result row parses. *)
Definition parses (row : Row) : Prop := is_Some (JSON_parse_js (r_geojson row)).

#[global] Instance parses_dec row : Decision (parses row).
Proof. unfold parses. apply _. Defined.

(** The feature of one group, if its geometry text parses. *)
Definition feature_of_group (level : Z) (g : GroupKey * list WKB) : option Feature :=
  (feature_of_row level (select_row g)).1.

End Spec.
End Dissolve.

(** ** Concrete inputs *)

Module Samples.
Import OnDemand.

(** A small engine over point sets: a geometry is a list of grid points,
    the union of a group joins the lists, and the GeoJSON text of a
    geometry is that of a MultiPoint.  A coordinate is kept as its decimal
    literal. *)
Definition Point : Type := (num * num)%type.

(** The parsed JSON values the examples need: [null], the empty object and
    a MultiPoint geometry. *)
Inductive json :=
  | JsonNull
  | JsonEmptyObject
  | JsonMultiPoint (coordinates : list Point).

(** The double quote character. *)
Definition dq : string := String (Ascii.ascii_of_nat 34) EmptyString.

(** The text of a MultiPoint up to its coordinates. *)
Definition multipoint_open : string :=
  "{" +:+ dq +:+ "type" +:+ dq +:+ ":" +:+ dq +:+ "MultiPoint" +:+ dq +:+ "," +:+
  dq +:+ "coordinates" +:+ dq +:+ ":[".

Definition point_text (p : Point) : string :=
  "[" +:+ p.1 +:+ "," +:+ p.2 +:+ "]".

Fixpoint points_text (ps : list Point) : string :=
  match ps with
  | [] => EmptyString
  | p :: rest =>
      match rest with
      | [] => point_text p
      | _ :: _ => point_text p +:+ "," +:+ points_text rest
      end
  end.

Definition geojson_text (g : list Point) : string :=
  multipoint_open +:+ points_text g +:+ "]}".

(** A parser for these texts; what is no JSON text is rejected. *)
Fixpoint strip (prefix s : string) : option string :=
  match prefix, s with
  | EmptyString, _ => Some s
  | String c p, String d s' => if Ascii.eqb c d then strip p s' else None
  | String _ _, EmptyString => None
  end.

(** The characters [0] to [9], codes 48 to 57. *)
Definition is_digit (c : Ascii.ascii) : bool :=
  match c with
  | Ascii.Ascii b0 b1 b2 b3 b4 b5 b6 b7 =>
      b4 && b5 && negb b6 && negb b7 && (negb b3 || (negb b2 && negb b1))
  end.

(** The longest run of digits at the start of a text, and the rest. *)
Fixpoint digits (s : string) : string * string :=
  match s with
  | String c s' =>
      if is_digit c then let (ds, rest) := digits s' in (String c ds, rest)
      else (EmptyString, s)
  | EmptyString => (EmptyString, s)
  end.

(** A JSON number without sign, fraction or exponent: [0], or a digit
    other than [0] followed by digits. *)
Definition number (s : string) : option (num * string) :=
  match s with
  | String c s' =>
      if Ascii.eqb c (Ascii.ascii_of_nat 48) then Some (String c EmptyString, s')
      else if is_digit c then let (ds, rest) := digits s' in Some (String c ds, rest)
      else None
  | EmptyString => None
  end.

Definition point (s : string) : option (Point * string) :=
  s ← strip "[" s;
  '(x, s) ← number s;
  s ← strip "," s;
  '(y, s) ← number s;
  s ← strip "]" s;
  Some ((x, y), s).

Fixpoint points (fuel : nat) (s : string) : option (list Point * string) :=
  match fuel with
  | 0 => None
  | S fuel =>
      '(p, s) ← point s;
      match strip "," s with
      | Some s' => '(ps, s) ← points fuel s'; Some (p :: ps, s)
      | None => Some ([p], s)
      end
  end.

Definition parse (s : string) : option json :=
  if String.eqb s "null" then Some JsonNull
  else if String.eqb s "{}" then Some JsonEmptyObject
  else
    s ← strip multipoint_open s;
    if String.eqb s "]}" then Some (JsonMultiPoint [])
    else
      '(ps, s) ← points (String.length s) s;
      if String.eqb s "]}" then Some (JsonMultiPoint ps) else None.

Definition toy : SpatialEngine :=
  {| WKB := Point;
     Geom := list Point;
     JSON := json;
     ST_GeomFromWKB := fun w => [w];
     ST_Union_Agg := fun gs => concat gs;
     ST_AsGeoJSON := geojson_text;
     JSON_parse := parse |}.

#[local] Existing Instance toy.

(** Leaflet on these values: it draws a MultiPoint, passes over a feature
    whose geometry is [null], and throws on an object without a geometry
    type.  It accepts the corners of the examples. *)
Definition is_drawable (j : json) : bool :=
  match j with
  | JsonEmptyObject => false
  | _ => true
  end.

Definition toy_leaflet : @LeafletLibrary toy :=
  {| L_fitBounds_accepts := fun _ _ => true;
     L_geoJSON_accepts := is_drawable |}.

#[local] Existing Instance toy_leaflet.

(** A level-2 row of country X. *)
Definition row2 (name1 name2 gid2 : sqlval) (geom : Point) : RawRow :=
  {| col := fun c =>
       match c with
       | NAME 0 => Some "X"
       | NAME 1 => name1
       | NAME 2 => name2
       | TYPE 2 => Some "District"
       | ENGTYPE 2 => Some "District"
       | GID 2 => gid2
       | _ => None
       end%Z;
     geometry := geom |}.

(** Two rows sharing GID_2 = X.1.1_1, one row of another district, and one
    row without a level-2 name. *)
Definition table_x : list RawRow :=
  [ row2 (Some "North") (Some "Alpha") (Some "X.1.1_1") ("1", "1");
    row2 (Some "North") (Some "Beta") (Some "X.1.2_1") ("2", "2");
    row2 (Some "North") (Some "Alpha") (Some "X.1.1_1") ("3", "1");
    row2 (Some "North") None None ("9", "9") ].

Definition key_alpha : GroupKey :=
  {| k_name := Some "Alpha"; k_type := Some "District"; k_eng_type := Some "District";
     k_gid := Some "X.1.1_1"; k_country := Some "X"; k_parent := Some (Some "North") |}.

(** The region of [key_alpha] in [table_x]. *)
Definition feature_alpha : Feature :=
  {| properties := Dissolve.props_of_key 2 key_alpha;
     f_geometry := JsonMultiPoint [("1", "1"); ("3", "1")] |}.

(** A level-2 row whose NAME_1 is NULL. *)
Definition table_orphan : list RawRow :=
  [ row2 None (Some "Gamma") (Some "X.2.1_1") ("4", "4") ].

(** Result rows, the second with a geometry text that is not JSON. *)
Definition good_row (n g : string) : Row :=
  {| r_name := JStr n; r_type := JNull; r_eng_type := JNull; r_gid := JNull;
     r_country := JStr "X"; r_parent := JUndefined; r_geojson := JStr g |}.

Definition rows_mixed : list Row :=
  [ good_row "P" (geojson_text [("1", "1")]);
    good_row "Q" EmptyString;
    good_row "R" (geojson_text [("2", "2")]) ].

(** A result row whose geometry text is JSON but no geometry. *)
Definition rows_invalid : list Row := [ good_row "Void" "{}" ].

Definition wakanda : Country :=
  {| filename := "wakanda.parquet"; c_name := "Wakanda";
     bounds := ["10"; "10"; "20"; "20"]; levels := [1; 2]%Z |}.

Definition base_url : string := "http://localhost:8000/".

(** The country is selected while the engine is still initialising. *)
Definition waiting : State :=
  run [ECountryChange (Some wakanda)] (init_state base_url).

(** The engine is ready, Wakanda is selected and its first level loaded. *)
Definition selected : State :=
  run [EInitConnected; EInitReady; ECountryChange (Some wakanda); EQueryDone 0 (inr [])]
      (init_state base_url).

(** Level 1 is clicked, then level 2, before the first query settles: calls
    1 and 2 are both pending. *)
Definition two_pending : State :=
  run [EClickLevel 1; EClickLevel 2] selected.

Definition rows_l1 : list Row := [ good_row "North" (geojson_text [("1", "1"); ("2", "2")]) ].
Definition rows_l2 : list Row := [ good_row "Alpha" (geojson_text [("1", "1")]) ].

(** A country whose metadata gives two of the four bounds. *)
Definition nowhere : Country :=
  {| filename := "nowhere.parquet"; c_name := "Nowhere";
     bounds := ["10"; "10"]; levels := [1]%Z |}.

End Samples.

Module MapSamples.
Import MapLibre.

(** MapLibre GL on the corners of the examples, whose latitudes lie
    between -90 and 90: it accepts them. *)
Definition any_corner : MapLibreLibrary :=
  {| fitBounds_accepts := fun _ _ => true |}.

#[local] Existing Instance any_corner.

Definition elbonia : Country :=
  {| name := "Elbonia"; c_bounds := ["0"; "0"; "5"; "5"]; admin_levels := [1]%Z |}.

Definition wakanda : Country :=
  {| name := "Wakanda"; c_bounds := ["10"; "10"; "20"; "20"];
     admin_levels := [1; 2]%Z |}.

Definition catalog : list Country := [elbonia; wakanda].

(** The map has loaded and Wakanda is selected: the layers of levels 1 and
    2 exist, hidden, with the filter for Wakanda. *)
Definition wakanda_selected : App :=
  Tiled.run [Tiled.EMapLoad; Tiled.ECountryChange "Wakanda"] (init_app catalog).

(** The same in the client of [src/js/app.js], with level 1 switched on. *)
Definition appjs_level1_shown : App :=
  AppJs.run [AppJs.EMapLoad; AppJs.ECountryChange "Wakanda"; AppJs.EButtonClick 1]
    (init_app catalog).

(** In the client of [src/js/app.js], Wakanda is selected and its level 2
    switched on. *)
Definition appjs_level2_shown : App :=
  AppJs.run [AppJs.EMapLoad; AppJs.ECountryChange "Wakanda"; AppJs.EButtonClick 2]
    (init_app catalog).

(** The line layer of level 2 in that session. *)
Definition appjs_line2 : Layer :=
  {| l_id := LayerLine 2; ltype := Line; source := GadmLevel 2;
     source_layer := Some "admin2"; visible := true;
     paint := [(line_color, Lit "#FF00FF"); (line_width, Lit "1")];
     l_filter := None |}.

(** A country whose metadata lists a level that has no style. *)
Definition atlantis : Country :=
  {| name := "Atlantis"; c_bounds := ["30"; "30"; "40"; "40"];
     admin_levels := [1; 6; 2]%Z |}.

(** The map has loaded in a session whose catalog holds Atlantis. *)
Definition atlantis_loaded : App :=
  Tiled.run [Tiled.EMapLoad] (init_app [atlantis]).

(** A country whose metadata gives two of the four bounds. *)
Definition lost : Country :=
  {| name := "Lost"; c_bounds := ["7"; "7"]; admin_levels := [1; 3]%Z |}.

End MapSamples.

(** ** The info panel of the DuckDB/Leaflet client *)

Module Panel.
Import OnDemand.

(** One row of the table: [<tr><td><strong>label</strong></td><td>value</td></tr>]. *)
Definition tr (label value : string) : string :=
  "<tr><td><strong>" +:+ label +:+ "</strong></td><td>" +:+ value +:+ "</td></tr>".

(** [props.parent], which reads as [undefined] when the property is absent. *)
Definition prop_parent (props : Props) : jsval :=
  default JUndefined (p_parent props).

(** [showFeatureInfo(props)]: the text assigned to [content.innerHTML]
    (the panel is then displayed). *)
Definition showFeatureInfo (props : Props) : string :=
  let html := "<h3>" +:+ js_to_string (p_name props) +:+ "</h3>" in
  let html := html +:+ "<table>" in
  let html := html +:+ tr "Country:" (js_to_string (p_country props)) in
  let html :=
    if truthy (prop_parent props)
    then html +:+ tr "Parent Region:" (js_to_string (prop_parent props))
    else html in
  let html :=
    if truthy (p_type props)
    then html +:+ tr "Type:" (js_to_string (p_type props))
    else html in
  let html :=
    if truthy (p_eng_type props) && negb (bool_decide (p_eng_type props = p_type props))
    then html +:+ tr "Type (English):" (js_to_string (p_eng_type props))
    else html in
  let html := html +:+ tr "Admin Level:" (decimal (p_level props)) in
  let html :=
    if truthy (p_gid props)
    then html +:+ tr "GID:" (js_to_string (p_gid props))
    else html in
  html +:+ "</table>".

(** The panel as a heading and a list of labelled values. *)
Definition render (heading : string) (rows : list (string * string)) : string :=
  "<h3>" +:+ heading +:+ "</h3>" +:+ "<table>" +:+
  foldr (fun r acc => tr r.1 r.2 +:+ acc) "</table>" rows.



End Panel.

(** ** The popup of the MapLibre clients *)

Module Popup.

(** The properties of the clicked feature; the GADM tiles carry text
    properties.  A missing property reads as [undefined]. *)
Definition Properties := gmap string jsval.

Definition get (props : Properties) (key : string) : jsval :=
  default JUndefined (props !! key).

(** [a || b] *)
Definition js_or (a b : jsval) : jsval := if truthy a then a else b.

(** The double quote character. *)
Definition dquote : string := String (Ascii.ascii_of_nat 34) EmptyString.

(** One row of the table: [<tr><td>label</td><td>value</td></tr>]. *)
Definition tr (label value : string) : string :=
  "<tr><td>" +:+ label +:+ "</td><td>" +:+ value +:+ "</td></tr>".

(** [props[`NAME_${level}`] || props.name || 'Unknown'] *)
Definition title (level : Z) (props : Properties) : jsval :=
  js_or (js_or (get props ("NAME_" +:+ decimal level)) (get props "name"))
        (JStr "Unknown").

(** [handleFeatureClick(e, level)] for the properties of [e.features[0]]:
    the text handed to [setHTML]. *)
Definition handleFeatureClick (level : Z) (props : Properties) : string :=
  let content :=
    "<div class=" +:+ dquote +:+ "popup-title" +:+ dquote +:+ ">" +:+
    js_to_string (title level props) +:+ "</div>" in
  let content :=
    content +:+ "<table class=" +:+ dquote +:+ "popup-table" +:+ dquote +:+ ">" in
  let content :=
    if (0 <? level)%Z
    then content +:+
         tr "Country" (js_to_string (js_or (get props "NAME_0") (get props "country")))
    else content in
  let content :=
    if (1 <? level)%Z
    then content +:+ tr "Level 1" (js_to_string (get props "NAME_1"))
    else content in
  let content :=
    if (2 <? level)%Z
    then content +:+ tr "Level 2" (js_to_string (get props "NAME_2"))
    else content in
  let type := js_or (get props ("TYPE_" +:+ decimal level)) (get props "type") in
  let engType := js_or (get props ("ENGTYPE_" +:+ decimal level)) (get props "engtype") in
  let content :=
    if truthy type then content +:+ tr "Type" (js_to_string type) else content in
  let content :=
    if truthy engType && negb (bool_decide (engType = type))
    then content +:+ tr "Type (En)" (js_to_string engType)
    else content in
  let gid := js_or (get props ("GID_" +:+ decimal level)) (get props "gid") in
  let content :=
    if truthy gid then content +:+ tr "GID" (js_to_string gid) else content in
  content +:+ "</table>".

(** The text before the title and the text after it. *)
Definition title_open : string :=
  "<div class=" +:+ dquote +:+ "popup-title" +:+ dquote +:+ ">".

End Popup.

(** ** Drawing order and listeners of the MapLibre clients *)

Module Order.
Import MapLibre.

(** "Place fill below line": every fill layer is directly followed, in
    drawing order, by the line layer of its level. *)
Fixpoint fill_below_line (ids : list layer_id) : bool :=
  match ids with
  | [] => true
  | i :: rest =>
      match i with
      | LayerFill k => bool_decide (head rest = Some (LayerLine k))
      | _ => true
      end && fill_below_line rest
  end.

Definition ordered (a : App) : Prop :=
  fill_below_line (l_id <$> layers (mapgl a)) = true.

(** The level a line or fill layer belongs to. *)
Definition level_of (i : layer_id) : option Z :=
  match i with
  | Basemap => None
  | LayerLine level | LayerFill level => Some level
  end.

(** The number of listeners for [event] that [map.on] has registered on the
    fill layer of [level]. *)
Definition listeners (event : string) (level : Z) (m : MapState) : nat :=
  length (filter (fun h => h = (event, LayerFill level, level)) (handlers m)).

(** Every layer of levels 1 to 5 is hidden and belongs to one of [lvls]. *)
Definition admin_hidden (lvls : list Z) (a : App) : Prop :=
  forall l, l ∈ layers (mapgl a) -> is_admin_id (l_id l) ->
    visible l = false /\ exists L, level_of (l_id l) = Some L /\ L ∈ lvls.

(** The buttons and the map agree: a button of a level that has a style
    has its line and fill layers on the map, and every layer of the level
    of a button has the visibility that the button shows. *)
Definition buttons_agree (a : App) : Prop :=
  forall level active, (level, active) ∈ buttons a ->
    (is_Some (Tiled.STYLES level) ->
       has_layer (LayerLine level) (mapgl a) = true /\
       has_layer (LayerFill level) (mapgl a) = true) /\
    forall l, l ∈ layers (mapgl a) ->
      l_id l = LayerLine level \/ l_id l = LayerFill level -> visible l = active.

End Order.

(** * Properties of the aggregation *)

Section AggregationFacts.
Import OnDemand Dissolve.
Context `{SpatialEngine}.

(** *** Hash aggregation *)

Lemma group_insert_keys {G : Type} (k : GroupKey) (g : G) groups :
  (group_insert k g groups).*1 =
    if decide (k ∈ groups.*1) then groups.*1 else groups.*1 ++ [k].
Proof.
  induction groups as [|[k' gs] rest IH].
  - rewrite decide_False; [done | apply not_elem_of_nil].
  - cbn [group_insert]. destruct (decide (k = k')) as [->|Hne].
    + rewrite decide_True; [done | by left].
    + rewrite fmap_cons, IH. cbn [fst]. destruct (decide (k ∈ rest.*1)) as [Hin|Hin].
      * rewrite decide_True; [done | by right].
      * rewrite decide_False; [done |].
        intros [?|?]%elem_of_cons; done.
Qed.

Lemma group_insert_elem {G : Type} (k : GroupKey) (g : G) groups k' ws :
  NoDup groups.*1 ->
  (k', ws) ∈ group_insert k g groups ->
  (k' <> k /\ (k', ws) ∈ groups) \/
  (k' = k /\ ((exists ws0, (k, ws0) ∈ groups /\ ws = ws0 ++ [g]) \/
              ((k ∉ groups.*1) /\ ws = [g]))).
Proof.
  induction groups as [|[k0 gs] rest IH]; simpl; intros Hnd.
  - intros Hin. apply list_elem_of_singleton in Hin. injection Hin as -> ->.
    right. split; [done|].
    right. split; [apply not_elem_of_nil | done].
  - apply NoDup_cons in Hnd as [Hk0 Hnd].
    destruct (decide (k = k0)) as [->|Hne].
    + intros [[= -> ->]|Hin]%elem_of_cons.
      * right. split; [done|]. left. exists gs. split; [by left | done].
      * left. split; [| by right].
        intros ->. apply Hk0. apply list_elem_of_fmap. by exists (k0, ws).
    + intros [[= -> ->]|Hin]%elem_of_cons.
      * left. split; [congruence | by left].
      * destruct (IH Hnd Hin) as [[Hk' Hin']|[-> [(ws0 & Hin' & ->)|[Hfresh ->]]]].
        -- left. split; [done | by right].
        -- right. split; [done|]. left. exists ws0. split; [by right | done].
        -- right. split; [done|]. right. split; [|done].
           intros [?|?]%elem_of_cons; simpl in *; done.
Qed.

Lemma filter_none {A : Type} (P : A -> Prop) `{forall x, Decision (P x)} (l : list A) :
  (forall x, x ∈ l -> ~ P x) -> filter P l = [].
Proof.
  induction l as [|x l IH]; intros Hall; [done|].
  rewrite filter_cons_False by (apply Hall; by left).
  apply IH. intros y Hy. apply Hall. by right.
Qed.

Lemma group_by_snoc level (rows : list RawRow) r :
  group_by level (rows ++ [r]) =
    group_insert (group_key level r) (geometry r) (group_by level rows).
Proof. unfold group_by. by rewrite foldl_app. Qed.

(** The groups of [group_by]: one per key that occurs, each holding the
    geometries of all rows with that key, in table order. *)
Lemma group_by_spec level (rows : list RawRow) :
  NoDup (group_by level rows).*1 /\
  (forall k, k ∈ (group_by level rows).*1 <-> k ∈ group_key level <$> rows) /\
  (forall k ws, (k, ws) ∈ group_by level rows ->
     ws = geometry <$> filter (fun r => group_key level r = k) rows).
Proof.
  induction rows as [|r rows IH] using rev_ind.
  - split_and!; [constructor | done | by intros k ws ?%elem_of_nil].
  - destruct IH as (Hnd & Hkeys & Hgeo).
    rewrite group_by_snoc. split_and!.
    + rewrite group_insert_keys. case_decide as Hin; [done|].
      apply NoDup_app. split_and!; [done | | apply NoDup_singleton].
      intros k Hk ->%list_elem_of_singleton. done.
    + intros k. rewrite group_insert_keys, fmap_app, elem_of_app.
      simpl. rewrite list_elem_of_singleton, <- Hkeys.
      case_decide as Hin.
      * split; [by left|]. intros [?| ->]; done.
      * rewrite elem_of_app, list_elem_of_singleton. done.
    + intros k ws Hin. rewrite filter_app, fmap_app.
      apply group_insert_elem in Hin as
        [[Hk Hin]|[-> [(ws0 & Hin & ->)|[Hfresh ->]]]]; [| | |done].
      * rewrite (Hgeo _ _ Hin), filter_cons_False, filter_nil, app_nil_r; [done|].
        congruence.
      * rewrite (Hgeo _ _ Hin), filter_cons_True by done. done.
      * rewrite filter_cons_True by done. rewrite filter_nil. simpl.
        assert (filter (fun r0 => group_key level r0 = group_key level r) rows = [])
          as ->; [|done].
        apply filter_none. intros r0 Hr0 Heq.
        apply Hfresh, Hkeys, list_elem_of_fmap. by exists r0.
Qed.

(** *** From groups to features *)

Lemma omap_fmap_compose {A B C : Type} (f : B -> option C) (g : A -> B) (l : list A) :
  omap f (g <$> l) = omap (fun x => f (g x)) l.
Proof. induction l as [|x l IH]; [done|]. cbn. by rewrite IH. Qed.

Lemma aggregate_unfold level (table : list RawRow) :
  aggregate level table =
    omap (feature_of_group level)
      (group_by level (filter (fun r => where_clause level r = true) table)).
Proof.
  unfold aggregate, build_features, query. cbn [fst].
  change (map ?f ?l) with (f <$> l). by rewrite !omap_fmap_compose.
Qed.

Lemma feature_of_group_spec level k ws :
  feature_of_group level (k, ws) =
    (fun j => {| properties := props_of_key level k; f_geometry := j |})
      <$> JSON_parse (ST_AsGeoJSON (ST_Union_Agg (ST_GeomFromWKB <$> ws))).
Proof.
  unfold feature_of_group, feature_of_row, JSON_parse_js, select_row.
  cbn [r_geojson js_to_string fst snd r_name r_type r_eng_type r_gid r_country r_parent].
  change (map ?f ?l) with (f <$> l).
  destruct (JSON_parse _) as [j|]; [|done]. cbn. do 2 f_equal.
  unfold props_of_key. f_equal.
  destruct (k_parent k) as [[s|]|]; cbn; [|done..].
  by destruct (String.eqb s EmptyString).
Qed.

(** *** The query against the dissolve *)

(** The WHERE clause keeps the rows that take part in the dissolve. *)
Lemma where_clause_true level (r : RawRow) :
  where_clause level r = true <->
  exists s, col r (NAME level) = Some s /\ s <> EmptyString.
Proof.
  unfold where_clause. destruct (col r (NAME level)) as [s|].
  - destruct (String.eqb_spec s EmptyString) as [->|Hne]; cbn.
    + split; [done|]. by intros (s & [= <-] & ?).
    + split; [|done]. intros _. by exists s.
  - split; [done|]. by intros (s & ? & _).
Qed.

Lemma kept_rows level (table : list RawRow) :
  filter (fun r => where_clause level r = true) table = filter (named level) table.
Proof. apply list_filter_iff. intros r. apply where_clause_true. Qed.

(** The GROUP BY list is the grouping-key tuple. *)
Lemma group_key_tuple level (r : RawRow) : group_key level r = key_tuple level r.
Proof.
  unfold group_key, key_tuple. f_equal.
  destruct (Z.ltb_spec 1 level); case_decide; (done || lia).
Qed.

Lemma groups_of_table level (table : list RawRow) k ws :
  (k, ws) ∈ group_by level (filter (fun r => where_clause level r = true) table) ->
  ws = geometry <$> rows_sharing level k table.
Proof.
  intros Hin. apply group_by_spec in Hin. rewrite Hin.
  unfold rows_sharing. rewrite <- kept_rows. f_equal.
  apply list_filter_iff. intros r. by rewrite group_key_tuple.
Qed.

Lemma key_present_groups level (table : list RawRow) k :
  key_present level k table <->
  k ∈ (group_by level (filter (fun r => where_clause level r = true) table)).*1.
Proof.
  destruct (group_by_spec level (filter (fun r => where_clause level r = true) table))
    as (_ & Hkeys & _).
  rewrite Hkeys, list_elem_of_fmap. unfold key_present.
  split.
  - intros (r & Hr & Hw & Hk). exists r. split; [by rewrite group_key_tuple|].
    apply list_elem_of_filter. split; [by apply where_clause_true | done].
  - intros (r & Hk & [Hw Hr]%list_elem_of_filter). exists r.
    split_and!; [done | by apply where_clause_true | by rewrite <- group_key_tuple].
Qed.

Lemma NoDup_fst_filter {A B : Type} (P : A * B -> Prop) `{forall x, Decision (P x)}
    (l : list (A * B)) :
  NoDup l.*1 -> NoDup (filter P l).*1.
Proof.
  induction l as [|x l IH]; [done|].
  rewrite fmap_cons. intros [Hx Hnd]%NoDup_cons.
  destruct (decide (P x)).
  - rewrite filter_cons_True, fmap_cons by done. apply NoDup_cons. split; [|auto].
    intros (y & Hy & [_ Hin]%list_elem_of_filter)%list_elem_of_fmap.
    apply Hx. apply list_elem_of_fmap. by exists y.
  - rewrite filter_cons_False by done. auto.
Qed.

(** ** C1 *)

(** C1. The features of [loadBoundaries] are in one-to-one correspondence
    with a duplicate-free list of grouping-key tuples
    (NAME_L, TYPE_L, ENGTYPE_L, GID_L, NAME_0 and, when L > 1, NAME_(L-1)):
    the tuples carried by the rows of the file whose NAME_L is neither NULL
    nor empty, as far as their dissolved geometry parses.  The feature of a
    tuple carries the properties of that tuple and the geometric union of
    the geometries of all those rows that share the tuple.  The tuple of a
    row, the rows that take part and the rows sharing a tuple are read off
    the columns of the file ([key_tuple], [named], [rows_sharing]), not off
    the query. *)
Theorem loadBoundaries_one_feature_per_key (level : Z) (table : list RawRow) :
  exists ks : list GroupKey,
    NoDup ks /\
    (forall k, k ∈ ks <->
       key_present level k table /\
       is_Some (JSON_parse (ST_AsGeoJSON (dissolved level k table)))) /\
    Forall2 (fun k f =>
               properties f = props_of_key level k /\
               JSON_parse (ST_AsGeoJSON (dissolved level k table)) = Some (f_geometry f))
            ks (aggregate level table).
Proof.
  set (groups := group_by level (filter (fun r => where_clause level r = true) table)).
  exists (filter (fun g => is_Some (feature_of_group level g)) groups).*1.
  assert (Hgeo : forall k ws, (k, ws) ∈ groups ->
            feature_of_group level (k, ws) =
              (fun j => {| properties := props_of_key level k; f_geometry := j |})
                <$> JSON_parse (ST_AsGeoJSON (dissolved level k table))).
  { intros k ws Hin. rewrite feature_of_group_spec.
    by rewrite (groups_of_table _ _ _ _ Hin). }
  split_and!.
  - apply NoDup_fst_filter, group_by_spec.
  - intros k. rewrite key_present_groups. fold groups. split.
    + intros ([k' ws] & -> & [Hsome Hin]%list_elem_of_filter)%list_elem_of_fmap.
      cbn [fst]. split.
      * apply list_elem_of_fmap. by exists (k', ws).
      * rewrite (Hgeo _ _ Hin) in Hsome. by apply fmap_is_Some in Hsome.
    + intros [([k' ws] & -> & Hin)%list_elem_of_fmap Hsome]. cbn [fst] in *.
      apply list_elem_of_fmap. exists (k', ws). split; [done|].
      apply list_elem_of_filter. split; [|done].
      rewrite (Hgeo _ _ Hin). by apply fmap_is_Some.
  - rewrite aggregate_unfold. fold groups.
    clearbody groups. induction groups as [|[k ws] groups IH]; [constructor|].
    assert (Hhd := Hgeo k ws ltac:(by left)).
    assert (Htl : forall k0 ws0, (k0, ws0) ∈ groups ->
              feature_of_group level (k0, ws0) =
                (fun j => {| properties := props_of_key level k0; f_geometry := j |})
                  <$> JSON_parse (ST_AsGeoJSON (dissolved level k0 table))).
    { intros k0 ws0 Hin. apply (Hgeo k0 ws0). by right. }
    specialize (IH Htl). cbn [omap list_omap].
    destruct (feature_of_group level (k, ws)) as [f|] eqn:Hf.
    + rewrite filter_cons_True by (by rewrite Hf). rewrite fmap_cons. cbn [fst].
      constructor; [|done].
      destruct (JSON_parse _) as [j|]; [|done]. injection Hhd as ->. done.
    + rewrite filter_cons_False; [done|]. rewrite Hf. by intros [? ?].
Qed.

Lemma aggregate_elem level (table : list RawRow) f :
  f ∈ aggregate level table ->
  exists r, r ∈ table /\ where_clause level r = true /\
    properties f = props_of_key level (group_key level r) /\
    JSON_parse (ST_AsGeoJSON (dissolved level (group_key level r) table))
      = Some (f_geometry f).
Proof.
  rewrite aggregate_unfold.
  intros ([k ws] & Hin & Hf)%list_elem_of_omap.
  assert (Hk : key_present level k table).
  { apply key_present_groups, list_elem_of_fmap. by exists (k, ws). }
  destruct Hk as (r & Hr & Hw & Hkr). rewrite <- group_key_tuple in Hkr. subst k.
  exists r. split_and!; [done | by apply where_clause_true | |].
  - rewrite feature_of_group_spec in Hf.
    destruct (JSON_parse _); [|done]. by injection Hf as <-.
  - rewrite feature_of_group_spec, (groups_of_table _ _ _ _ Hin) in Hf.
    unfold dissolved. destruct (JSON_parse _); [|done]. by injection Hf as <-.
Qed.

(** ** C2 *)

(** C2. Every feature of the collection has a name that is a non-empty
    string (neither null nor empty), and a row of the file whose NAME_L is
    NULL or empty takes no part in the aggregation: the collection is the
    same with the row left out. *)
Theorem loadBoundaries_name_never_empty (level : Z) (table : list RawRow) :
  (forall f, f ∈ aggregate level table ->
     exists s, p_name (properties f) = JStr s /\ s <> EmptyString) /\
  (forall t1 r t2,
     table = t1 ++ r :: t2 ->
     col r (NAME level) = None \/ col r (NAME level) = Some EmptyString ->
     aggregate level table = aggregate level (t1 ++ t2)).
Proof.
  split.
  - intros f (r & _ & Hw & -> & _)%aggregate_elem.
    apply where_clause_true in Hw as (s & Hs & Hne).
    exists s. cbn. by rewrite Hs.
  - intros t1 r t2 -> Hnull. rewrite !aggregate_unfold, !filter_app.
    rewrite filter_cons_False; [done|].
    unfold where_clause. by destruct Hnull as [-> | ->].
Qed.

(** ** C9 *)

(** C9, as the code has it.  The [parent] property of a feature is present
    exactly when the requested level is greater than 1 and NAME_(level-1)
    of the rows of its group is a non-empty string; it then equals that
    value. *)
Theorem parent_present_iff_nonempty (level : Z) (table : list RawRow) (f : Feature) :
  f ∈ aggregate level table ->
  exists r, r ∈ table /\ where_clause level r = true /\
    properties f = props_of_key level (group_key level r) /\
    forall v, p_parent (properties f) = Some v <->
      (1 < level)%Z /\
      exists s, col r (NAME (level - 1)) = Some s /\ s <> EmptyString /\ v = JStr s.
Proof.
  intros (r & Hr & Hw & Hp & _)%aggregate_elem.
  exists r. split_and!; [done..|]. intros v. rewrite Hp. cbn.
  destruct (Z.ltb_spec 1 level) as [Hlt|Hge].
  - destruct (col r (NAME (level - 1))) as [s|].
    + destruct (String.eqb_spec s EmptyString) as [->|Hne].
      * split; [done|]. by intros (_ & s & [= <-] & ? & _).
      * split.
        -- intros [= <-]. split; [done|]. by exists s.
        -- by intros (_ & s' & [= <-] & _ & ->).
    + split; [done|]. by intros (_ & s & ? & _).
  - split; [done|]. intros (? & _). lia.
Qed.

End AggregationFacts.

(** * Properties of the asynchronous control flow of [loadBoundaries] *)

Section ControlFlowFacts.
Import OnDemand Dissolve.
Context `{SpatialEngine} `{!LeafletLibrary}.

Ltac simpl_state :=
  cbn [catch_error showLoading hideLoading showError OnDemand.console_log
       await_timer map_removeLayer L_geoJSON_addTo showAdminLevelButtons
       set_duckDBReady set_conn OnDemand.set_currentCountry set_currentLevel
       set_boundaryLayer set_map_layers set_map_view set_next_lid set_loading
       set_errors OnDemand.set_container_shown OnDemand.set_buttons
       OnDemand.set_console set_tasks set_next_tid set_issued set_timers
       with_globals with_leaflet with_dom with_runtime
       globals leaflet dom runtime
       duckDBReady conn OnDemand.currentCountry currentLevel boundaryLayer
       map_layers map_view next_lid
       loading errors OnDemand.container_shown OnDemand.buttons OnDemand.console
       baseUrl tasks next_tid issued timers
       lid fc_features fst snd app fmap list_fmap option_list negb orb andb] in *.

(** *** The overlay of the map is the current boundary layer *)

Lemma issue_query_frame tid level s :
  leaflet (issue_query tid level s) = leaflet s /\
  boundaryLayer (globals (issue_query tid level s)) = boundaryLayer (globals s) /\
  currentCountry (globals (issue_query tid level s)) = currentCountry (globals s) /\
  next_tid (runtime (issue_query tid level s)) = next_tid (runtime s) /\
  forall t, t <> tid ->
    tasks (runtime (issue_query tid level s)) !! t = tasks (runtime s) !! t.
Proof.
  unfold issue_query. destruct (currentCountry (globals s)) eqn:Hc; simpl_state;
    (split_and!; [done..|]); intros t Ht.
  - by rewrite lookup_insert_ne.
  - by rewrite lookup_delete_ne.
Qed.

Lemma after_wait_frame tid level ready s :
  leaflet (after_wait tid level ready s) = leaflet s /\
  boundaryLayer (globals (after_wait tid level ready s)) = boundaryLayer (globals s) /\
  currentCountry (globals (after_wait tid level ready s)) = currentCountry (globals s) /\
  next_tid (runtime (after_wait tid level ready s)) = next_tid (runtime s) /\
  forall t, t <> tid ->
    tasks (runtime (after_wait tid level ready s)) !! t = tasks (runtime s) !! t.
Proof.
  destruct ready; cbn [after_wait]; [apply issue_query_frame|].
  simpl_state. split_and!; [done..|]. intros t Ht. by rewrite lookup_delete_ne.
Qed.

Lemma await_timer_frame tid level i s :
  leaflet (await_timer tid level i s) = leaflet s /\
  boundaryLayer (globals (await_timer tid level i s)) = boundaryLayer (globals s) /\
  currentCountry (globals (await_timer tid level i s)) = currentCountry (globals s) /\
  next_tid (runtime (await_timer tid level i s)) = next_tid (runtime s) /\
  forall t, t <> tid ->
    tasks (runtime (await_timer tid level i s)) !! t = tasks (runtime s) !! t.
Proof.
  simpl_state. split_and!; [done..|]. intros t Ht. by rewrite lookup_insert_ne.
Qed.

Lemma loadBoundaries_frame level s :
  leaflet (loadBoundaries level s) = leaflet s /\
  boundaryLayer (globals (loadBoundaries level s)) = boundaryLayer (globals s) /\
  currentCountry (globals (loadBoundaries level s)) = currentCountry (globals s) /\
  next_tid (runtime s) <= next_tid (runtime (loadBoundaries level s)) /\
  forall t, t < next_tid (runtime s) ->
    tasks (runtime (loadBoundaries level s)) !! t = tasks (runtime s) !! t.
Proof.
  unfold loadBoundaries. destruct (currentCountry (globals s)) eqn:Hc; [|by auto].
  cbv zeta.
  match goal with |- context [if ?b then _ else _] => destruct b end.
  - unfold waitForDuckDB.
    match goal with |- context [engine_ready ?s0] => destruct (engine_ready s0) end;
      [|case_decide].
    + match goal with |- context [after_wait ?t ?l ?r ?s0] =>
        destruct (after_wait_frame t l r s0) as (-> & -> & -> & -> & Htasks)
      end.
      simpl_state. split_and!; [done.. | lia |].
      intros t Ht. rewrite Htasks; [done | lia].
    + match goal with |- context [await_timer ?t ?l ?i ?s0] =>
        destruct (await_timer_frame t l i s0) as (-> & -> & -> & -> & Htasks)
      end.
      simpl_state. split_and!; [done.. | lia |].
      intros t Ht. rewrite Htasks; [done | lia].
    + match goal with |- context [after_wait ?t ?l ?r ?s0] =>
        destruct (after_wait_frame t l r s0) as (-> & -> & -> & -> & Htasks)
      end.
      simpl_state. split_and!; [done.. | lia |].
      intros t Ht. rewrite Htasks; [done | lia].
  - match goal with |- context [issue_query ?t ?l ?s0] =>
      destruct (issue_query_frame t l s0) as (-> & -> & -> & -> & Htasks)
    end.
    simpl_state. split_and!; [done.. | lia |].
    intros t Ht. rewrite Htasks; [done | lia].
Qed.

Lemma on_timer_frame tid s :
  leaflet (on_timer tid s) = leaflet s /\
  boundaryLayer (globals (on_timer tid s)) = boundaryLayer (globals s) /\
  currentCountry (globals (on_timer tid s)) = currentCountry (globals s) /\
  next_tid (runtime (on_timer tid s)) = next_tid (runtime s) /\
  forall t, t <> tid -> tasks (runtime (on_timer tid s)) !! t = tasks (runtime s) !! t.
Proof.
  unfold on_timer. destruct (tasks (runtime s) !! tid) as [[level i|level q]|] eqn:Ht;
    [|by auto..].
  unfold waitForDuckDB_resume.
  destruct (engine_ready s); [|case_decide].
  - apply after_wait_frame.
  - apply await_timer_frame.
  - apply after_wait_frame.
Qed.

(** Taking the boundary layer off the map leaves no overlay layer. *)
Lemma removeLayer_clears (s : State) :
  wf_layers s ->
  map_layers (leaflet (match boundaryLayer (globals s) with
                       | Some old => map_removeLayer old s
                       | None => s
                       end)) = [].
Proof.
  unfold wf_layers.
  intros [Hnil|Hwf]; destruct (boundaryLayer (globals s)) as [old|] eqn:Hold;
    simpl_state; rewrite ?Hnil, ?Hwf; cbn; [done | done | | done].
  rewrite decide_False by (by intros []). done.
Qed.

Lemma clear_boundary (s : State) :
  wf_layers s ->
  let s' := match boundaryLayer (globals s) with
            | Some old => set_boundaryLayer None (map_removeLayer old s)
            | None => s
            end in
  map_layers (leaflet s') = [] /\ boundaryLayer (globals s') = None /\
  dom s' = dom s /\ runtime s' = runtime s /\
  map_view (leaflet s') = map_view (leaflet s) /\
  currentCountry (globals s') = currentCountry (globals s) /\
  currentLevel (globals s') = currentLevel (globals s) /\
  duckDBReady (globals s') = duckDBReady (globals s) /\
  conn (globals s') = conn (globals s).
Proof.
  intros Hwf. pose proof (removeLayer_clears s Hwf) as Hgone. cbv zeta.
  destruct (boundaryLayer (globals s)) as [old|] eqn:Hold; simpl_state; by rewrite ?Hold.
Qed.

(** A settled query replaces the boundary layer by the features of its own
    rows, whatever was selected in the meantime; when [L.geoJSON] rejects a
    geometry, the previous layer is gone all the same and the [catch] block
    reports the error. *)
Lemma on_query_done_rows tid level q rows s :
  wf_layers s ->
  tasks (runtime s) !! tid = Some (Querying level q) ->
  let s' := on_query_done tid (inr rows) s in
  let fs := (build_features level rows).1 in
  let warnings := (build_features level rows).2 in
  displayed s' = drawn fs /\
  wf_layers s' /\
  tasks (runtime s') = delete tid (tasks (runtime s)) /\
  next_tid (runtime s') = next_tid (runtime s) /\
  currentCountry (globals s') = currentCountry (globals s) /\
  currentLevel (globals s') = currentLevel (globals s) /\
  loading (dom s') = None /\
  container_shown (dom s') = container_shown (dom s) /\
  map_view (leaflet s') = map_view (leaflet s) /\
  if accepted fs then
    (exists layer, boundaryLayer (globals s') = Some layer /\ fc_features layer = fs) /\
    errors (dom s') = errors (dom s) /\
    console (dom s') = console (dom s) ++ warnings
  else
    boundaryLayer (globals s') = boundaryLayer (globals s) /\
    errors (dom s') =
      errors (dom s) ++ ["Failed to load boundaries: Invalid GeoJSON object."] /\
    console (dom s') =
      console (dom s) ++ warnings
        ++ [LogError "Failed to load boundaries:" "Invalid GeoJSON object."].
Proof.
  intros Hwf Ht. cbv zeta. unfold on_query_done. rewrite Ht.
  destruct (build_features level rows) as [fs ws]. cbn [fst snd].
  set (s0 := OnDemand.console_log ws (set_tasks (delete tid (tasks (runtime s))) s)).
  assert (Hwf0 : wf_layers s0) by exact Hwf.
  pose proof (removeLayer_clears s0 Hwf0) as Hgone.
  assert (Hframe : forall s1 : State,
            s1 = match boundaryLayer (globals s0) with
                 | Some old => map_removeLayer old s0
                 | None => s0
                 end ->
            globals s1 = globals s0 /\ dom s1 = dom s0 /\ runtime s1 = runtime s0 /\
            map_view (leaflet s1) = map_view (leaflet s0) /\
            next_lid (leaflet s1) = next_lid (leaflet s0)).
  { intros s1 ->. by destruct (boundaryLayer (globals s0)). }
  destruct (Hframe _ eq_refl) as (Hg & Hd & Hr & Hv & Hn).
  revert Hgone Hg Hd Hr Hv Hn.
  generalize (match boundaryLayer (globals s0) with
              | Some old => map_removeLayer old s0
              | None => s0
              end).
  intros s1 Hgone Hg Hd Hr Hv Hn.
  unfold L_geoJSON_addTo, drawn, displayed, wf_layers.
  destruct (accepted fs); simpl_state.
  - rewrite Hgone, Hd, Hr, Hv, Hg. subst s0. simpl_state.
    split_and!; try done; [by right | by eexists].
  - rewrite Hgone, Hd, Hr, Hv, Hg. subst s0. simpl_state.
    split_and!; try done; [by left | by rewrite <- app_assoc].
Qed.

Lemma on_query_done_error_frame tid msg s :
  leaflet (on_query_done tid (inl msg) s) = leaflet s /\
  boundaryLayer (globals (on_query_done tid (inl msg) s)) = boundaryLayer (globals s) /\
  currentCountry (globals (on_query_done tid (inl msg) s)) = currentCountry (globals s).
Proof.
  unfold on_query_done.
  by destruct (tasks (runtime s) !! tid) as [[level i|level q]|].
Qed.

Lemma on_query_done_tasks tid res s t :
  t <> tid ->
  tasks (runtime (on_query_done tid res s)) !! t = tasks (runtime s) !! t /\
  next_tid (runtime (on_query_done tid res s)) = next_tid (runtime s).
Proof.
  intros Hne. unfold on_query_done.
  destruct (tasks (runtime s) !! tid) as [[level i|level q]|]; [done| |done].
  destruct res as [msg|rows].
  - simpl_state. by rewrite lookup_delete_ne.
  - destruct (build_features level rows) as [fs ws]. unfold L_geoJSON_addTo.
    destruct (accepted fs), (boundaryLayer _); simpl_state; by rewrite lookup_delete_ne.
Qed.

Lemma handleCountryChange_wf sel s :
  wf_layers s -> wf_layers (handleCountryChange sel s).
Proof.
  intros Hwf.
  assert (Hreset : wf_layers
            (set_map_view DefaultView
               (match boundaryLayer (globals (set_container_shown false s)) with
                | Some old =>
                    set_boundaryLayer None (map_removeLayer old (set_container_shown false s))
                | None => set_container_shown false s
                end))).
  { destruct (clear_boundary (set_container_shown false s) Hwf) as (H1 & _).
    left. revert H1. cbv zeta.
    generalize (match boundaryLayer (globals (set_container_shown false s)) with
                | Some old =>
                    set_boundaryLayer None (map_removeLayer old (set_container_shown false s))
                | None => set_container_shown false s
                end).
    by intros s1 H1. }
  unfold handleCountryChange.
  destruct sel as [c|]; [destruct (String.eqb (filename c) EmptyString)|];
    [exact Hreset | | exact Hreset].
  destruct (fitBounds_view (bounds c)) as [v|]; [|exact Hwf].
  match goal with |- context [match boundaryLayer (globals ?s0) with _ => _ end] =>
    destruct (clear_boundary s0 Hwf) as (H1 & _)
  end.
  cbv zeta in H1. left.
  destruct (levels c) as [|first rest]; [done|].
  match goal with |- context [loadBoundaries ?l ?s0] =>
    destruct (loadBoundaries_frame l s0) as (-> & _)
  end.
  done.
Qed.

Lemma step_wf_layers e s : wf_layers s -> wf_layers (step e s).
Proof.
  intros Hwf. destruct e as [| |msg|sel|level|tid|tid res]; cbn [step].
  - done.
  - done.
  - done.
  - by apply handleCountryChange_wf.
  - case_decide; [|done]. unfold wf_layers in *.
    by destruct (loadBoundaries_frame level s) as (-> & -> & _).
  - unfold wf_layers in *. by destruct (on_timer_frame tid s) as (-> & -> & _).
  - destruct res as [msg|rows].
    + unfold wf_layers in *.
      by destruct (on_query_done_error_frame tid msg s) as (-> & -> & _).
    + destruct (tasks (runtime s) !! tid) as [[level i|level q]|] eqn:Ht.
      * unfold on_query_done. by rewrite Ht.
      * by eapply on_query_done_rows.
      * unfold on_query_done. by rewrite Ht.
Qed.

Lemma reachable_wf_layers base s : reachable base s -> wf_layers s.
Proof. induction 1; [by left | by apply step_wf_layers]. Qed.

Lemma reachable_run base es s : reachable base s -> reachable base (run es s).
Proof.
  revert s. induction es as [|e es IH]; intros s Hs; [done|].
  apply IH. by constructor.
Qed.

(** *** The readiness poll *)

Lemma handleCountryChange_frame sel s :
  next_tid (runtime s) <= next_tid (runtime (handleCountryChange sel s)) /\
  (forall t, t < next_tid (runtime s) ->
     tasks (runtime (handleCountryChange sel s)) !! t = tasks (runtime s) !! t) /\
  (is_Some (currentCountry (globals s)) ->
   is_Some (currentCountry (globals (handleCountryChange sel s)))).
Proof.
  unfold handleCountryChange.
  destruct sel as [c|]; [destruct (String.eqb (filename c) EmptyString)|].
  - destruct (boundaryLayer _); simpl_state; done.
  - destruct (fitBounds_view (bounds c)) as [v|];
      [|simpl_state; split_and!; [lia | done | eauto]].
    destruct (levels c) as [|first rest].
    + destruct (boundaryLayer _); simpl_state; (split_and!; [lia | done | eauto]).
    + match goal with |- context [loadBoundaries ?l ?s0] =>
        destruct (loadBoundaries_frame l s0) as (_ & _ & Hc & Hn & Ht);
        rewrite Hc;
        assert (Hs0 : next_tid (runtime s0) = next_tid (runtime s)
                      /\ tasks (runtime s0) = tasks (runtime s)
                      /\ is_Some (currentCountry (globals s0)))
      end.
      { destruct (boundaryLayer _); simpl_state; (split_and!; [done | done | eauto]). }
      destruct Hs0 as (Hn0 & Ht0 & Hc0). rewrite Hn0 in *. rewrite Ht0 in *.
      split_and!; [done | done | by intros _].
  - destruct (boundaryLayer _); simpl_state; done.
Qed.

Lemma on_query_done_self tid res s :
  (on_query_done tid res s = s \/
   tasks (runtime (on_query_done tid res s)) !! tid = None) /\
  next_tid (runtime (on_query_done tid res s)) = next_tid (runtime s) /\
  currentCountry (globals (on_query_done tid res s)) = currentCountry (globals s).
Proof.
  unfold on_query_done.
  destruct (tasks (runtime s) !! tid) as [[level i|level q]|]; [by auto| |by auto].
  destruct res as [msg|rows].
  - simpl_state. split_and!; [right; apply lookup_delete_eq | done..].
  - destruct (build_features level rows) as [fs ws]. unfold L_geoJSON_addTo.
    destruct (accepted fs), (boundaryLayer _); simpl_state;
      (split_and!; [right; apply lookup_delete_eq | done..]).
Qed.

Lemma step_poll_inv tid level i0 n e s :
  poll_inv tid level i0 n s ->
  poll_inv tid level i0 (n + (if is_timer_of tid e then 1 else 0)) (step e s).
Proof.
  intros (Hfresh & Hc & Hpoll).
  destruct e as [| |msg|sel|lvl|t|t res]; cbn [step is_timer_of];
    rewrite ?Nat.add_0_r.
  - done.
  - done.
  - done.
  - destruct (handleCountryChange_frame sel s) as (Hn & Ht & Hc').
    split_and!; [lia | auto |]. by rewrite Ht.
  - case_decide; [|done].
    destruct (loadBoundaries_frame lvl s) as (_ & _ & Hc' & Hn & Ht).
    split_and!; [lia | by rewrite Hc' |]. by rewrite Ht.
  - destruct (on_timer_frame t s) as (_ & _ & Hc' & Hn & Ht).
    destruct (decide (t = tid)) as [->|Hne].
    + rewrite bool_decide_eq_true_2 by done.
      split_and!; [lia | by rewrite Hc' |].
      unfold on_timer.
      destruct (tasks (runtime s) !! tid) as [[l i|l q]|] eqn:Htid; [|by rewrite Htid..].
      destruct (Hpoll l i eq_refl) as (-> & -> & Hlt).
      unfold waitForDuckDB_resume.
      destruct (engine_ready s); [|case_decide as Hnext]; cbn [after_wait].
      * unfold issue_query. destruct Hc as [c Hc]. rewrite Hc. simpl_state.
        intros l j. by rewrite lookup_insert_eq.
      * simpl_state. intros l j. rewrite lookup_insert_eq. intros [= <- <-].
        split_and!; [done | lia | done].
      * simpl_state. intros l j. by rewrite lookup_delete_eq.
    + rewrite bool_decide_eq_false_2 by done. rewrite Nat.add_0_r.
      split_and!; [lia | by rewrite Hc' |]. rewrite Ht by done. done.
  - destruct (decide (t = tid)) as [->|Hne].
    + destruct (on_query_done_self tid res s) as ([->|Hnone] & Hn & Hc'); [done|].
      split_and!; [lia | by rewrite Hc' |]. by rewrite Hnone.
    + destruct (on_query_done_tasks t res s tid) as [Ht Hn]; [done|].
      destruct (on_query_done_self t res s) as (_ & _ & Hc').
      split_and!; [lia | by rewrite Hc' |]. by rewrite Ht.
Qed.

Lemma timer_count_cons tid e es :
  timer_count tid (e :: es) = (if is_timer_of tid e then 1 else 0) + timer_count tid es.
Proof.
  unfold timer_count. destruct (is_timer_of tid e) eqn:He.
  - by rewrite filter_cons_True.
  - rewrite filter_cons_False; [done|]. by rewrite He.
Qed.

Lemma run_poll_inv tid level i0 es : forall n s,
  poll_inv tid level i0 n s ->
  poll_inv tid level i0 (n + timer_count tid es) (run es s).
Proof.
  induction es as [|e es IH]; intros n s Hinv.
  - unfold timer_count. cbn. by rewrite Nat.add_0_r.
  - rewrite timer_count_cons, Nat.add_assoc. cbn [run foldl].
    apply IH. by apply step_poll_inv.
Qed.

(** ** C7 *)

(** C7. A call of [loadBoundaries] that finds the engine not ready suspends
    in the poll without handing a query to the engine, and waits on a 500 ms
    timer.  Along every continuation of the session, while the call still
    polls it has seen as many timer firings as its loop counter says, fewer
    than 60.  When a timer fires for the polling call: if the engine is
    ready the call goes on to its query; if not and attempts remain it
    waits for another 500 ms; and if that was the 60th firing (30000 ms)
    the call ends, hides the loading indicator and shows the error box,
    with no query issued. *)
Theorem waitForDuckDB_bounded (s : State) (level : Z) (c : Country) :
  currentCountry (globals s) = Some c ->
  engine_ready s = false ->
  let tid := next_tid (runtime s) in
  let s0 := loadBoundaries level s in
  tasks (runtime s0) !! tid = Some (Polling level 0) /\
  issued (runtime s0) = issued (runtime s) /\
  timers (runtime s0) = timers (runtime s) ++ [(tid, 500%Z)] /\
  forall es l i,
    let s1 := run es s0 in
    tasks (runtime s1) !! tid = Some (Polling l i) ->
    l = level /\ i = timer_count tid es /\ i < 60 /\
    let s2 := step (ETimer tid) s1 in
    if engine_ready s1 then
      exists q, tasks (runtime s2) !! tid = Some (Querying level q) /\
                issued (runtime s2) = issued (runtime s1) ++ [q] /\
                errors (dom s2) = errors (dom s1)
    else if decide (S i < 60) then
      tasks (runtime s2) !! tid = Some (Polling level (S i)) /\
      timers (runtime s2) = timers (runtime s1) ++ [(tid, 500%Z)] /\
      issued (runtime s2) = issued (runtime s1) /\
      dom s2 = dom s1
    else
      timer_count tid (es ++ [ETimer tid]) = 60 /\
      (500 * Z.of_nat (timer_count tid (es ++ [ETimer tid])) = 30000)%Z /\
      tasks (runtime s2) !! tid = None /\
      issued (runtime s2) = issued (runtime s1) /\
      loading (dom s2) = None /\
      errors (dom s2) =
        errors (dom s1) ++ ["Database failed to initialize. Please refresh the page."].
Proof.
  intros Hc Hready tid s0.
  assert (Hstart : tasks (runtime s0) !! tid = Some (Polling level 0) /\
                   issued (runtime s0) = issued (runtime s) /\
                   timers (runtime s0) = timers (runtime s) ++ [(tid, 500%Z)] /\
                   next_tid (runtime s0) = S tid /\
                   currentCountry (globals s0) = Some c).
  { subst s0 tid. unfold loadBoundaries. rewrite Hc.
    unfold waitForDuckDB, engine_ready in *. simpl_state. rewrite Hready.
    assert (negb (duckDBReady (globals s)) || negb (conn (globals s)) = true) as ->.
    { destruct (duckDBReady (globals s)), (conn (globals s)); done. }
    rewrite decide_True by (unfold MAX_ATTEMPTS; lia).
    simpl_state. by rewrite lookup_insert_eq. }
  destruct Hstart as (Htask & Hissued & Htimers & Hnext & Hc0).
  split_and!; [done..|].
  intros es l i s1 Hpoll.
  assert (Hinv : poll_inv tid level 0 (0 + timer_count tid es) s1).
  { apply run_poll_inv. unfold poll_inv.
    split_and!; [lia | rewrite Hc0; by eexists |].
    intros l' j. rewrite Htask. intros [= <- <-].
    unfold MAX_ATTEMPTS. split_and!; [done | done | lia]. }
  destruct Hinv as (_ & [c1 Hc1] & Hinv).
  destruct (Hinv l i Hpoll) as (-> & Hi & Hlt). cbn in Hi.
  unfold MAX_ATTEMPTS in Hlt.
  split_and!; [done..|].
  cbn [step]. unfold on_timer, waitForDuckDB_resume. rewrite Hpoll.
  destruct (engine_ready s1).
  - cbn [after_wait]. unfold issue_query. rewrite Hc1. eexists. simpl_state.
    by rewrite lookup_insert_eq.
  - unfold MAX_ATTEMPTS. case_decide as Hmore; cbn [after_wait].
    + simpl_state. rewrite lookup_insert_eq. by destruct (dom s1).
    + assert (Hcount : timer_count tid (es ++ [ETimer tid]) = 60).
      { unfold timer_count in *. rewrite filter_app, length_app.
        rewrite filter_cons_True by (cbn; by rewrite bool_decide_eq_true_2).
        cbn. lia. }
      rewrite Hcount. simpl_state. by rewrite lookup_delete_eq.
Qed.

(** ** C10 *)

(** C10. With no country selected, [loadBoundaries(level)] returns at once
    and leaves the whole session as it was: no query or timer is started,
    the loading indicator, the error boxes, [currentLevel], the boundary
    layer and the map are untouched.  The same holds for the older client
    without the readiness poll. *)
Theorem loadBoundaries_idle_noop (level : Z) (s : State) :
  currentCountry (globals s) = None ->
  loadBoundaries level s = s /\ loadBoundaries_legacy level s = s.
Proof.
  intros Hidle. unfold loadBoundaries, loadBoundaries_legacy. by rewrite Hidle.
Qed.

(** ** C8 *)

Lemma build_features_cons level (row : Row) rows :
  build_features level (row :: rows) =
    (match JSON_parse_js (r_geojson row) with
     | Some g => [{| properties := (props_of_row level row); f_geometry := g |}]
     | None => []
     end ++ (build_features level rows).1,
     match JSON_parse_js (r_geojson row) with
     | Some g => []
     | None => [LogWarn "Failed to parse geometry for" (r_name row)]
     end ++ (build_features level rows).2).
Proof.
  unfold build_features, feature_of_row, props_of_row. cbn.
  destruct (JSON_parse_js (r_geojson row)); [|done].
  destruct (r_parent row) as [| |sp]; cbn; [done..|].
  by destruct (String.eqb sp EmptyString).
Qed.

(** C8. The rows of a query result whose geometry text parses become the
    features, in order, each with the properties of its row; every row
    whose geometry text does not parse is left out and leaves one warning
    on the console; no row is lost otherwise.  When the query of a pending
    call settles with these rows, the call ends and the loading indicator
    is hidden; if Leaflet accepts the geometries that did parse, the
    features are put on the map, the warnings are on the console and no
    error is shown, so that a text that does not parse costs its own row
    only.  A geometry that parses but that [L.geoJSON] rejects is another
    failure, outside the [try] around [JSON.parse]: the [catch] block of
    [loadBoundaries] then shows the error box, with nothing on the map. *)
Theorem geometry_parse_failure_drops_row
    (level : Z) (rows : list Row) (s : State) (tid : nat) (q : Query) :
  wf_layers s ->
  tasks (runtime s) !! tid = Some (Querying level q) ->
  let fs := (build_features level rows).1 in
  let warnings := (build_features level rows).2 in
  Forall2 (fun row f => properties f = props_of_row level row /\
                        JSON_parse_js (r_geojson row) = Some (f_geometry f))
          (filter parses rows) fs /\
  warnings = (fun row => LogWarn "Failed to parse geometry for" (r_name row))
               <$> filter (fun row => ~ parses row) rows /\
  length fs + length warnings = length rows /\
  let s' := step (EQueryDone tid (inr rows)) s in
  loading (dom s') = None /\
  tasks (runtime s') !! tid = None /\
  if accepted fs then
    displayed s' = [fs] /\
    (exists layer, boundaryLayer (globals s') = Some layer /\ fc_features layer = fs) /\
    console (dom s') = console (dom s) ++ warnings /\
    errors (dom s') = errors (dom s)
  else
    displayed s' = [] /\
    console (dom s') =
      console (dom s) ++ warnings
        ++ [LogError "Failed to load boundaries:" "Invalid GeoJSON object."] /\
    errors (dom s') =
      errors (dom s) ++ ["Failed to load boundaries: Invalid GeoJSON object."].
Proof.
  intros Hwf Htask fs warnings. subst fs warnings.
  split_and!.
  - induction rows as [|row rows IH]; [constructor|].
    rewrite build_features_cons. cbn [fst].
    unfold parses at 1. destruct (JSON_parse_js (r_geojson row)) as [g|] eqn:Hg.
    + rewrite filter_cons_True by (unfold parses; by rewrite Hg).
      constructor; [done | apply IH].
    + rewrite filter_cons_False by (unfold parses; rewrite Hg; by intros [? ?]).
      apply IH.
  - induction rows as [|row rows IH]; [done|].
    rewrite build_features_cons. cbn [snd].
    destruct (JSON_parse_js (r_geojson row)) as [g|] eqn:Hg.
    + rewrite filter_cons_False; [done|].
      unfold parses. rewrite Hg. intros Hn. by apply Hn.
    + rewrite filter_cons_True by (unfold parses; rewrite Hg; by intros [? ?]).
      rewrite fmap_cons. cbn. by f_equal.
  - induction rows as [|row rows IH]; [done|].
    rewrite build_features_cons. cbn [fst snd]. rewrite !length_app.
    destruct (JSON_parse_js (r_geojson row)); cbn [length]; lia.
  - cbn [step].
    destruct (on_query_done_rows tid level q rows s Hwf Htask)
      as (Hd & _ & Ht & _ & _ & _ & Hl & _ & _ & Hres).
    cbv zeta in Hd, Ht, Hl, Hres. unfold drawn in Hd.
    split_and!; [done | rewrite Ht; apply lookup_delete_eq |].
    destruct (accepted (build_features level rows).1).
    + destruct Hres as (Hlayer & He & Hc). by split_and!.
    + destruct Hres as (_ & He & Hc). by split_and!.
Qed.

(** ** C3 *)

Lemma build_features_level level rows (f : Feature) :
  f ∈ (build_features level rows).1 -> p_level (properties f) = level.
Proof.
  induction rows as [|row rows IH]; [by intros ?%elem_of_nil|].
  rewrite build_features_cons. cbn [fst].
  destruct (JSON_parse_js (r_geojson row)); [|done].
  intros [->|Hin]%elem_of_cons; [done | auto].
Qed.

(** C3, as the code has it.  There is no sequence or generation check: a
    query that settles replaces the boundary layer by the features of its
    own level, whatever has been selected since (and leaves the map without
    a boundary layer when [L.geoJSON] rejects them).  With two calls
    pending, the map shows the result of the first to settle until the
    second settles, and from then on the result of the second alone; in
    particular, when the queries for level 1 and level 2 settle in the
    order they were issued, only level 2 is displayed once both have
    settled. *)
Theorem last_settled_query_is_displayed
    (base : string) (s : State) (t1 t2 : nat) (l1 l2 : Z) (q1 q2 : Query)
    (rows1 rows2 : list Row) :
  reachable base s ->
  t1 <> t2 ->
  tasks (runtime s) !! t1 = Some (Querying l1 q1) ->
  tasks (runtime s) !! t2 = Some (Querying l2 q2) ->
  let s1 := step (EQueryDone t1 (inr rows1)) s in
  let s2 := step (EQueryDone t2 (inr rows2)) s1 in
  displayed s1 = drawn (build_features l1 rows1).1 /\
  currentLevel (globals s1) = currentLevel (globals s) /\
  displayed s2 = drawn (build_features l2 rows2).1 /\
  only_level_displayed l2 s2 /\
  currentLevel (globals s2) = currentLevel (globals s) /\
  tasks (runtime s2) !! t1 = None /\
  tasks (runtime s2) !! t2 = None.
Proof.
  intros Hreach Hne Ht1 Ht2. cbn [step].
  apply reachable_wf_layers in Hreach as Hwf.
  destruct (on_query_done_rows t1 l1 q1 rows1 s Hwf Ht1)
    as (Hd1 & Hwf1 & Htasks1 & _ & _ & Hl1 & _).
  cbv zeta in Hd1, Hwf1, Htasks1, Hl1.
  assert (Ht2' : tasks (runtime (on_query_done t1 (inr rows1) s)) !! t2
                 = Some (Querying l2 q2)).
  { rewrite Htasks1, lookup_delete_ne; done. }
  destruct (on_query_done_rows t2 l2 q2 rows2 _ Hwf1 Ht2')
    as (Hd2 & _ & Htasks2 & _ & _ & Hl2 & _).
  cbv zeta in Hd2, Htasks2, Hl2.
  split_and!; [done | done | done | | congruence | |].
  - intros fs f. rewrite Hd2. unfold drawn.
    destruct (accepted _); [|by intros ?%elem_of_nil].
    intros ->%list_elem_of_singleton. apply build_features_level.
  - rewrite Htasks2, Htasks1, lookup_delete_ne, lookup_delete_eq; done.
  - rewrite Htasks2. apply lookup_delete_eq.
Qed.

End ControlFlowFacts.

(** * Worked inputs for the DuckDB/Leaflet client *)

Section OnDemandExamples.
Import OnDemand Dissolve Samples.
#[local] Existing Instance toy.
#[local] Existing Instance toy_leaflet.

(** The two rows sharing GID_2 = X.1.1_1 give one region whose geometry is
    their union; the row without a level-2 name gives none. *)
Example dissolve_shared_gid :
  aggregate 2 table_x =
    [ feature_alpha;
      {| properties :=
           {| p_name := JStr "Beta"; p_type := JStr "District";
              p_eng_type := JStr "District"; p_gid := JStr "X.1.2_1";
              p_country := JStr "X"; p_level := 2;
              p_parent := Some (JStr "North") |};
         f_geometry := JsonMultiPoint [("2", "2")] |} ].
Proof. vm_compute. reflexivity. Qed.

Lemma loadBoundaries_name_never_empty_witness :
  (exists s, p_name (properties feature_alpha) = JStr s /\ s <> EmptyString) /\
  aggregate 2 table_x = aggregate 2 (take 3 table_x).
Proof.
  destruct (loadBoundaries_name_never_empty 2 table_x) as [Hname Hrow]. split.
  - apply Hname. rewrite dissolve_shared_gid. left.
  - apply (Hrow (take 3 table_x) (row2 (Some "North") None None ("9", "9")) []).
    + reflexivity.
    + left. reflexivity.
Defined.

(** C9 fails as stated: at level 2 a region whose NAME_1 is NULL gets no
    [parent] property. *)
Lemma parent_absent_at_level_2 :
  aggregate 2 table_orphan =
    [ {| properties :=
           {| p_name := JStr "Gamma"; p_type := JStr "District";
              p_eng_type := JStr "District"; p_gid := JStr "X.2.1_1";
              p_country := JStr "X"; p_level := 2; p_parent := None |};
         f_geometry := JsonMultiPoint [("4", "4")] |} ] /\
  ~ (forall f, f ∈ aggregate 2 table_orphan ->
       (is_Some (p_parent (properties f)) <-> (1 < 2)%Z)).
Proof.
  assert (Hagg : aggregate 2 table_orphan =
    [ {| properties :=
           {| p_name := JStr "Gamma"; p_type := JStr "District";
              p_eng_type := JStr "District"; p_gid := JStr "X.2.1_1";
              p_country := JStr "X"; p_level := 2; p_parent := None |};
         f_geometry := JsonMultiPoint [("4", "4")] |} ]) by (vm_compute; reflexivity).
  split; [exact Hagg|].
  intros Hclaim. rewrite Hagg in Hclaim.
  destruct (Hclaim _ ltac:(left)) as [_ Hpresent].
  destruct Hpresent as [v Hv]; [lia | discriminate Hv].
Qed.

Lemma parent_present_iff_nonempty_witness :
  exists r, r ∈ table_x /\ where_clause 2 r = true /\
    props_of_key 2 key_alpha = props_of_key 2 (group_key 2 r) /\
    forall v, Some (JStr "North") = Some v <->
      (1 < 2)%Z /\
      exists s, col r (NAME (2 - 1)) = Some s /\ s <> EmptyString /\ v = JStr s.
Proof.
  apply (parent_present_iff_nonempty 2 table_x feature_alpha).
  rewrite dissolve_shared_gid. left.
Defined.

Lemma reachable_two_pending : reachable base_url two_pending.
Proof. unfold two_pending, selected. do 2 apply reachable_run. constructor. Qed.

(** C3 fails as stated.  Level 1 is requested, then level 2, before either
    query settles.  When the queries settle in issue order, the level-1
    result is put on the map although level 2 is the current selection;
    when the level-2 query settles first, the level-1 result is what stays
    on the map after both have settled. *)
Lemma stale_result_is_displayed :
  tasks (runtime two_pending) !! 1 =
    Some (Querying 1 {| q_url := "http://localhost:8000/data/wakanda.parquet"; q_level := 1 |}) /\
  tasks (runtime two_pending) !! 2 =
    Some (Querying 2 {| q_url := "http://localhost:8000/data/wakanda.parquet"; q_level := 2 |}) /\
  currentLevel (globals two_pending) = Some 2%Z /\
  (let s1 := step (EQueryDone 1 (inr rows_l1)) two_pending in
   currentLevel (globals s1) = Some 2%Z /\
   displayed s1 = [(build_features 1 rows_l1).1] /\
   ~ only_level_displayed 2 s1) /\
  (let s2 := run [EQueryDone 2 (inr rows_l2); EQueryDone 1 (inr rows_l1)] two_pending in
   tasks (runtime s2) = ∅ /\
   currentLevel (globals s2) = Some 2%Z /\
   displayed s2 = [(build_features 1 rows_l1).1] /\
   ~ only_level_displayed 2 s2).
Proof.
  split_and!; try (vm_compute; reflexivity).
  - split_and!; try (vm_compute; reflexivity).
    intros Hclaim.
    specialize (Hclaim (build_features 1 rows_l1).1
                  {| properties := props_of_row 1 (List.hd (good_row "North" "null") rows_l1);
                     f_geometry := JsonMultiPoint [("1", "1"); ("2", "2")] |}).
    assert (Hbad : (1 = 2)%Z); [|discriminate Hbad].
    apply Hclaim; [vm_compute; left | vm_compute; left].
  - split_and!; try (vm_compute; reflexivity).
    intros Hclaim.
    specialize (Hclaim (build_features 1 rows_l1).1
                  {| properties := props_of_row 1 (List.hd (good_row "North" "null") rows_l1);
                     f_geometry := JsonMultiPoint [("1", "1"); ("2", "2")] |}).
    assert (Hbad : (1 = 2)%Z); [|discriminate Hbad].
    apply Hclaim; [vm_compute; left | vm_compute; left].
Qed.

Lemma last_settled_query_is_displayed_witness :
  displayed (step (EQueryDone 2 (inr rows_l2))
               (step (EQueryDone 1 (inr rows_l1)) two_pending))
    = [(build_features 2 rows_l2).1].
Proof.
  refine (proj1 (proj2 (proj2
    (last_settled_query_is_displayed base_url two_pending 1 2 1 2
       {| q_url := "http://localhost:8000/data/wakanda.parquet"; q_level := 1 |}
       {| q_url := "http://localhost:8000/data/wakanda.parquet"; q_level := 2 |}
       rows_l1 rows_l2 reachable_two_pending _ _ _)))).
  - lia.
  - vm_compute. reflexivity.
  - vm_compute. reflexivity.
Defined.

Lemma waitForDuckDB_bounded_witness :
  tasks (runtime (loadBoundaries 2 waiting)) !! 1 = Some (Polling 2 0).
Proof.
  refine (proj1 (waitForDuckDB_bounded waiting 2 wakanda _ _)).
  - reflexivity.
  - reflexivity.
Defined.

(** Sixty timer firings with the engine never ready: the call gives up. *)
Example poll_gives_up_after_60 :
  let s := run (replicate 60 (ETimer 0)) waiting in
  tasks (runtime s) = ∅ /\
  issued (runtime s) = [] /\
  timers (runtime s) = replicate 60 (0, 500%Z) /\
  loading (dom s) = None /\
  errors (dom s) = ["Database failed to initialize. Please refresh the page."].
Proof. vm_compute. split_and!; reflexivity. Qed.

(** The engine becomes ready during the poll: the call issues its query. *)
Example poll_proceeds_when_ready :
  let s := run [ETimer 0; EInitConnected; ETimer 0; EInitReady; ETimer 0] waiting in
  tasks (runtime s) !! 0 =
    Some (Querying 1 {| q_url := "http://localhost:8000/data/wakanda.parquet"; q_level := 1 |}) /\
  errors (dom s) = [].
Proof. vm_compute. split; reflexivity. Qed.

Lemma loadBoundaries_idle_noop_witness :
  loadBoundaries 3 (init_state base_url) = init_state base_url /\
  loadBoundaries_legacy 3 (init_state base_url) = init_state base_url.
Proof. apply (loadBoundaries_idle_noop 3 (init_state base_url)). reflexivity. Defined.

Lemma geometry_parse_failure_drops_row_witness :
  length (build_features 2 rows_mixed).1 + length (build_features 2 rows_mixed).2
    = length rows_mixed.
Proof.
  refine (proj1 (proj2 (proj2
    (geometry_parse_failure_drops_row 2 rows_mixed two_pending 2
       {| q_url := "http://localhost:8000/data/wakanda.parquet"; q_level := 2 |} _ _)))).
  - right. vm_compute. reflexivity.
  - vm_compute. reflexivity.
Defined.

(** Of three result rows the second has a geometry text that does not
    parse: two features, one warning, no error. *)
Example one_bad_row_of_three :
  (build_features 2 rows_mixed).2 = [LogWarn "Failed to parse geometry for" (JStr "Q")] /\
  p_name ∘ properties <$> (build_features 2 rows_mixed).1 = [JStr "P"; JStr "R"] /\
  errors (dom (step (EQueryDone 2 (inr rows_mixed)) two_pending)) = [].
Proof. vm_compute. split_and!; reflexivity. Qed.

(** A result row whose geometry text is [{}]: the text parses, so the row
    becomes a feature and nothing is logged for it; [L.geoJSON] throws on
    the feature, and the [catch] block of [loadBoundaries] shows the error
    box with no boundary layer on the map. *)
Example parsed_geometry_rejected_by_leaflet :
  let s' := step (EQueryDone 2 (inr rows_invalid)) two_pending in
  f_geometry <$> (build_features 2 rows_invalid).1 = [JsonEmptyObject] /\
  (build_features 2 rows_invalid).2 = [] /\
  accepted (build_features 2 rows_invalid).1 = false /\
  displayed s' = [] /\
  errors (dom s') = ["Failed to load boundaries: Invalid GeoJSON object."] /\
  loading (dom s') = None.
Proof. vm_compute. split_and!; reflexivity. Qed.

End OnDemandExamples.

(** * Properties of the layer reconciliation *)

Ltac unfold_m :=
  unfold MapLibre.getSource, MapLibre.getLayer, MapLibre.addSource, MapLibre.addLayer,
    MapLibre.removeLayer, MapLibre.setLayoutProperty_visibility,
    MapLibre.setPaintProperty, MapLibre.map_on, MapLibre.console_log,
    MapLibre.has_source, MapLibre.has_layer,
    MapLibre.exec, MapLibre.when, MapLibre.gets, MapLibre.modify, MapLibre.throw,
    mbind, MapLibre.M_bind, mret, MapLibre.M_ret in *.

Ltac simpl_app :=
  cbn [MapLibre.with_map MapLibre.with_layers MapLibre.set_sources MapLibre.set_layers
       MapLibre.set_handlers MapLibre.set_view MapLibre.set_console
       MapLibre.set_buttons MapLibre.set_container_shown
       MapLibre.set_currentCountry MapLibre.set_select_value
       MapLibre.mapgl MapLibre.currentCountry MapLibre.countriesData
       MapLibre.select_value MapLibre.container_shown MapLibre.buttons
       MapLibre.console MapLibre.sources MapLibre.layers MapLibre.handlers
       MapLibre.view MapLibre.l_id fst snd negb] in *.

Ltac eval_m := unfold_m; simpl_app.


Section MapFacts.
Import MapLibre.
Context `{MapLibreLibrary}.

Lemma elem_ids_snoc (ls : list Layer) (l : Layer) (i : layer_id) :
  bool_decide (i ∈ l_id <$> (ls ++ [l])) =
    bool_decide (i ∈ l_id <$> ls) || bool_decide (l_id l = i).
Proof.
  rewrite fmap_app. cbn [fmap list_fmap].
  destruct (decide (i ∈ l_id <$> ls)) as [Hin|Hin],
           (decide (l_id l = i)) as [Heq|Hne].
  - rewrite !bool_decide_eq_true_2; [done..|]. apply elem_of_app. by left.
  - rewrite bool_decide_eq_true_2 by (apply elem_of_app; by left).
    by rewrite (bool_decide_eq_true_2 _ Hin).
  - rewrite bool_decide_eq_true_2.
    + by rewrite (bool_decide_eq_true_2 _ Heq), orb_true_r.
    + apply elem_of_app. right. rewrite Heq. by left.
  - rewrite !bool_decide_eq_false_2; [done..|].
    intros [?|?%list_elem_of_singleton]%elem_of_app; congruence.
Qed.

Lemma elem_sources_snoc (xs : list (source_id * Source)) j s (i : source_id) :
  bool_decide (i ∈ (xs ++ [(j, s)]).*1) =
    bool_decide (i ∈ xs.*1) || bool_decide (j = i).
Proof.
  rewrite fmap_app. cbn [fmap list_fmap fst].
  destruct (decide (i ∈ xs.*1)) as [Hin|Hin], (decide (j = i)) as [Heq|Hne].
  - rewrite !bool_decide_eq_true_2; [done..|]. apply elem_of_app. by left.
  - rewrite bool_decide_eq_true_2 by (apply elem_of_app; by left).
    by rewrite (bool_decide_eq_true_2 _ Hin).
  - rewrite bool_decide_eq_true_2.
    + by rewrite (bool_decide_eq_true_2 _ Heq), orb_true_r.
    + apply elem_of_app. right. rewrite Heq. by left.
  - rewrite !bool_decide_eq_false_2; [done..|].
    intros [?|?%list_elem_of_singleton]%elem_of_app; congruence.
Qed.

Lemma ids_insert_before (b : layer_id) (l : Layer) (ls : list Layer) :
  b ∈ l_id <$> ls ->
  l_id <$> insert_before b l ls ≡ₚ l_id l :: (l_id <$> ls).
Proof.
  induction ls as [|x ls IH]; [by intros ?%elem_of_nil|].
  cbn [insert_before]. destruct (decide (l_id x = b)) as [Hx|Hx]; [done|].
  rewrite !fmap_cons. intros [?|Hin]%elem_of_cons; [congruence|].
  rewrite (IH Hin). apply Permutation_swap.
Qed.

Lemma elem_ids_insert_before (b : layer_id) (l : Layer) (ls : list Layer) i :
  bool_decide (b ∈ l_id <$> ls) = true ->
  bool_decide (i ∈ l_id <$> insert_before b l ls) =
    bool_decide (i ∈ l_id <$> ls) || bool_decide (l_id l = i).
Proof.
  intros Hb%bool_decide_eq_true_1.
  apply ids_insert_before with (l := l) in Hb.
  destruct (decide (i ∈ l_id <$> ls)) as [Hin|Hin],
           (decide (l_id l = i)) as [Heq|Hne].
  - rewrite !bool_decide_eq_true_2; [done..|]. rewrite Hb. by right.
  - rewrite bool_decide_eq_true_2 by (rewrite Hb; by right).
    by rewrite (bool_decide_eq_true_2 _ Hin).
  - rewrite bool_decide_eq_true_2.
    + by rewrite (bool_decide_eq_true_2 _ Heq), orb_true_r.
    + rewrite Hb, Heq. by left.
  - rewrite !bool_decide_eq_false_2; [done..|].
    rewrite Hb. intros [?|?]%elem_of_cons; congruence.
Qed.

Lemma insert_before_elem (b : layer_id) (l : Layer) (ls : list Layer) x :
  x ∈ insert_before b l ls -> x = l \/ x ∈ ls.
Proof.
  induction ls as [|y ls IH]; cbn [insert_before]; [by intros ?%elem_of_nil|].
  destruct (decide (l_id y = b)).
  - intros [->|Hin]%elem_of_cons; [by left | by right].
  - intros [->|Hin]%elem_of_cons; [right; by left|].
    destruct (IH Hin) as [->|?]; [by left | right; by right].
Qed.

Lemma insert_before_absent (b : layer_id) (l : Layer) (ls : list Layer) :
  b ∉ l_id <$> ls -> insert_before b l ls = ls.
Proof.
  induction ls as [|y ls IH]; [done|]. cbn [insert_before]. rewrite fmap_cons.
  intros Hb. rewrite decide_False by (intros <-; apply Hb; by left).
  rewrite IH; [done|]. intros Hin. apply Hb. by right.
Qed.

Lemma with_layers_id (a : App) : with_layers (layers (mapgl a)) a = a.
Proof. by destruct a as [[] ? ? ? ? ? ?]. Qed.

Lemma with_layers_with_layers ls1 ls2 (a : App) :
  with_layers ls2 (with_layers ls1 a) = with_layers ls2 a.
Proof. done. Qed.

Lemma layers_with_layers ls (a : App) : layers (mapgl (with_layers ls a)) = ls.
Proof. done. Qed.

(** *** Rules for [preserves] *)

Lemma preserves_ret {A : Type} I (x : A) : preserves I (mret x).
Proof. by intros a Ha. Qed.

Lemma preserves_throw {A : Type} I msg : preserves I (throw (A := A) msg).
Proof. by intros a Ha. Qed.

Lemma preserves_gets {A : Type} I (f : App -> A) : preserves I (gets f).
Proof. by intros a Ha. Qed.

Lemma preserves_modify I (f : App -> App) :
  (forall a, I a -> I (f a)) -> preserves I (modify f).
Proof. intros Hf a Ha. by apply Hf. Qed.

Lemma preserves_bind {A B : Type} I (c : M A) (f : A -> M B) :
  preserves I c -> (forall x, preserves I (f x)) -> preserves I (c ≫= f).
Proof.
  intros Hc Hf a Ha. unfold mbind, M_bind. specialize (Hc a Ha).
  destruct (c a) as [[x|msg] a']; cbn [snd] in *; [by apply Hf | done].
Qed.

Lemma preserves_when I (b : bool) (c : M unit) :
  preserves I c -> preserves I (when b c).
Proof. intros Hc. destruct b; [done | apply preserves_ret]. Qed.

Lemma preserves_for_each {A : Type} I (xs : list A) (body : A -> M unit) :
  (forall x, preserves I (body x)) -> preserves I (for_each xs body).
Proof.
  intros Hbody. induction xs as [|x xs IH]; cbn [for_each].
  - apply preserves_ret.
  - apply preserves_bind; [apply Hbody | by intros _].
Qed.

(** [fitBounds] moves the viewport, or throws and changes nothing. *)
Lemma fitBounds_eq (b : list num) (a : App) :
  fitBounds b a =
    match fitBounds_view b with
    | Some v => (Ok tt, with_map (set_view v) a)
    | None => (Throw "Error: Invalid LngLat object", a)
    end.
Proof. unfold fitBounds. by destruct (fitBounds_view b). Qed.

Lemma preserves_fitBounds I (b : list num) :
  (forall a v, I a -> I (with_map (set_view v) a)) -> preserves I (fitBounds b).
Proof.
  intros Hview a Ha. rewrite fitBounds_eq.
  destruct (fitBounds_view b); cbn [snd]; [by apply Hview | done].
Qed.

(** *** Statements that always return, in closed form *)

Lemma bind_ok {A B : Type} (c : M A) (f : A -> M B) a x a' :
  c a = (Ok x, a') -> (c ≫= f) a = f x a'.
Proof. intros Hc. unfold mbind, M_bind. by rewrite Hc. Qed.

Lemma filter_all {A : Type} (P : A -> Prop) `{forall x, Decision (P x)} (l : list A) :
  (forall x, x ∈ l -> P x) -> filter P l = l.
Proof.
  induction l as [|x l IH]; intros Hall; [done|].
  rewrite filter_cons_True by (apply Hall; by left).
  f_equal. apply IH. intros y Hy. apply Hall. by right.
Qed.

(** [if (map.getLayer(i)) map.removeLayer(i)] *)
Lemma guarded_remove_eq (i : layer_id) (a : App) :
  (hasLayer ← getLayer i; when hasLayer (removeLayer i)) a =
    (Ok tt, with_layers (filter (fun l => l_id l <> i) (layers (mapgl a))) a).
Proof.
  unfold_m. destruct (bool_decide (i ∈ l_id <$> layers (mapgl a))) eqn:Hin; [done|].
  apply bool_decide_eq_false_1 in Hin.
  rewrite filter_all, with_layers_id; [done|].
  intros l Hl <-. apply Hin. by apply list_elem_of_fmap_2.
Qed.

Lemma fmap_unchanged {A : Type} (f : A -> A) (l : list A) :
  (forall x, x ∈ l -> f x = x) -> f <$> l = l.
Proof.
  induction l as [|x l IH]; intros Hf; [done|].
  rewrite fmap_cons, Hf by (by left). f_equal. apply IH.
  intros y Hy. apply Hf. by right.
Qed.

(** [if (map.getLayer(i)) map.setLayoutProperty(i, 'visibility', v)] *)
Lemma guarded_visibility_eq (i : layer_id) (v : bool) (a : App) :
  (hasLayer ← getLayer i; when hasLayer (setLayoutProperty_visibility i v)) a =
    (Ok tt, with_layers
              ((fun l => if decide (l_id l = i) then set_visible v l else l)
                 <$> layers (mapgl a)) a).
Proof.
  unfold_m. destruct (bool_decide (i ∈ l_id <$> layers (mapgl a))) eqn:Hin; [done|].
  apply bool_decide_eq_false_1 in Hin.
  rewrite fmap_unchanged, with_layers_id; [done|].
  intros l Hl. rewrite decide_False; [done|].
  intros <-. apply Hin. by apply list_elem_of_fmap_2.
Qed.

Lemma show_level_two_steps (level : Z) (v : bool) (ls : list Layer) :
  (fun l => if decide (l_id l = LayerFill level) then set_visible v l else l)
    <$> ((fun l => if decide (l_id l = LayerLine level) then set_visible v l else l)
           <$> ls)
  = show_level level v <$> ls.
Proof.
  rewrite <- list_fmap_compose. apply list_fmap_ext. intros _ l _.
  unfold show_level, compose.
  destruct (decide (l_id l = LayerLine level)) as [Hl|Hl]; cbn [l_id set_visible].
  - rewrite decide_False by (rewrite Hl; done).
    rewrite decide_True by (by left). done.
  - destruct (decide (l_id l = LayerFill level)) as [Hf|Hf].
    + rewrite decide_True by (by right). done.
    + rewrite decide_False by (by intros [?|?]). done.
Qed.

Lemma show_level_id level v l : l_id (show_level level v l) = l_id l.
Proof. unfold show_level. by case_decide. Qed.

Lemma uniq_with_layers_fmap (f : Layer -> Layer) (a : App) :
  (forall l, l_id (f l) = l_id l) ->
  uniq_app a -> uniq_app (with_layers (f <$> layers (mapgl a)) a).
Proof.
  intros Hid [Hsrc Hids]. unfold uniq_app, uniq. simpl_app. split; [done|].
  rewrite <- list_fmap_compose.
  by rewrite (list_fmap_ext (l_id ∘ f) l_id _ (fun _ l _ => Hid l)).
Qed.

End MapFacts.

(** Take a statement apart along its syntax, leaving the calls. *)
Ltac pres :=
  repeat lazymatch goal with
    | |- MapLibre.preserves _ (mbind _ _) => apply preserves_bind; [|intros ?]
    | |- MapLibre.preserves _ (MapLibre.gets _) => apply preserves_gets
    | |- MapLibre.preserves _ (MapLibre.getLayer _) => apply preserves_gets
    | |- MapLibre.preserves _ (MapLibre.getSource _) => apply preserves_gets
    | |- MapLibre.preserves _ (mret _) => apply preserves_ret
    | |- MapLibre.preserves _ (MapLibre.when _ _) => apply preserves_when
    | |- MapLibre.preserves _ (MapLibre.for_each _ _) =>
        apply preserves_for_each; intros ?
    end.

Section TiledFacts.
Import MapLibre Tiled.
Context `{MapLibreLibrary}.

(** *** The blocks of [addLevelLayer] in closed form *)

Lemma ensure_source_eq level a :
  ensure_source level a =
    (Ok tt, if has_source (GadmLevel level) (mapgl a) then a else with_source level a).
Proof.
  unfold ensure_source, with_source. unfold_m.
  by destruct (bool_decide _).
Qed.

Lemma ensure_line_layer_eq level isVisible a :
  ensure_line_layer level isVisible a =
    if has_layer (LayerLine level) (mapgl a) then (Ok tt, a)
    else match STYLES level with
         | Some st => (Ok tt, with_line_layer level isVisible st a)
         | None => (Throw "TypeError: STYLES[level] is undefined", line_log level a)
         end.
Proof.
  unfold ensure_line_layer, with_line_layer, line_log, style_of. unfold_m.
  destruct (bool_decide _); [done|]. cbn [negb].
  by destruct (STYLES level).
Qed.

Lemma ensure_fill_layer_eq level isVisible a :
  ensure_fill_layer level isVisible a =
    if has_layer (LayerFill level) (mapgl a) then (Ok tt, a)
    else match STYLES level with
         | Some st => (Ok tt, with_fill_layer level isVisible st a)
         | None => (Throw "TypeError: STYLES[level] is undefined", a)
         end.
Proof.
  unfold ensure_fill_layer, with_fill_layer, style_of. unfold_m.
  destruct (bool_decide _); [done|]. cbn [negb].
  by destruct (STYLES level).
Qed.

Lemma addLevelLayer_eq level isVisible a :
  addLevelLayer level isVisible a =
    let a1 := (ensure_source level a).2 in
    match ensure_line_layer level isVisible a1 with
    | (Ok _, a2) => ensure_fill_layer level isVisible a2
    | (Throw msg, a2) => (Throw msg, a2)
    end.
Proof.
  unfold addLevelLayer. unfold mbind, M_bind at 1 2.
  rewrite ensure_source_eq. cbn [snd]. done.
Qed.

(** *** Presence of ids after a block *)

Lemma has_source_with_source level a i :
  has_source i (mapgl (with_source level a)) =
    has_source i (mapgl a) || bool_decide (GadmLevel level = i).
Proof. unfold has_source, with_source. simpl_app. apply elem_sources_snoc. Qed.

Lemma has_layer_with_line_layer level isVisible st a i :
  has_layer i (mapgl (with_line_layer level isVisible st a)) =
    has_layer i (mapgl a) || bool_decide (LayerLine level = i).
Proof.
  unfold has_layer, with_line_layer, line_log. simpl_app.
  apply elem_ids_snoc.
Qed.

Lemma has_layer_with_fill_layer level isVisible st a i :
  has_layer (LayerLine level) (mapgl a) = true ->
  has_layer i (mapgl (with_fill_layer level isVisible st a)) =
    has_layer i (mapgl a) || bool_decide (LayerFill level = i).
Proof.
  unfold has_layer, with_fill_layer. simpl_app.
  apply elem_ids_insert_before.
Qed.

(** *** Idempotence of [addLevelLayer] *)

(** With the source and both layers in place, [addLevelLayer] does nothing. *)
Lemma addLevelLayer_fixed level isVisible a :
  has_source (GadmLevel level) (mapgl a) = true ->
  has_layer (LayerLine level) (mapgl a) = true ->
  has_layer (LayerFill level) (mapgl a) = true ->
  addLevelLayer level isVisible a = (Ok tt, a).
Proof.
  intros Hs Hl Hf. rewrite addLevelLayer_eq. cbv zeta.
  rewrite ensure_source_eq, Hs. cbn [snd].
  rewrite ensure_line_layer_eq, Hl, ensure_fill_layer_eq, Hf. done.
Qed.

(** What holds after a call: the source is there; if the call returned,
    both layers are there; if it threw, the level has no style and the map
    differs from the one before by the source at most. *)
Lemma addLevelLayer_post level isVisible a :
  let r := addLevelLayer level isVisible a in
  has_source (GadmLevel level) (mapgl r.2) = true /\
  match r.1 with
  | Ok _ =>
      has_layer (LayerLine level) (mapgl r.2) = true /\
      has_layer (LayerFill level) (mapgl r.2) = true
  | Throw _ =>
      STYLES level = None /\
      has_layer (LayerLine level) (mapgl r.2) = has_layer (LayerLine level) (mapgl a) /\
      has_layer (LayerFill level) (mapgl r.2) = has_layer (LayerFill level) (mapgl a) /\
      has_layer (LayerLine level) (mapgl a) && has_layer (LayerFill level) (mapgl a) = false
  end.
Proof.
  cbv zeta. rewrite addLevelLayer_eq. cbv zeta. rewrite ensure_source_eq. cbn [snd].
  set (a1 := if has_source (GadmLevel level) (mapgl a) then a else with_source level a).
  assert (Hs1 : has_source (GadmLevel level) (mapgl a1) = true).
  { subst a1. destruct (has_source (GadmLevel level) (mapgl a)) eqn:Hs; [done|].
    rewrite has_source_with_source, (bool_decide_eq_true_2 _ eq_refl).
    apply orb_true_r. }
  assert (Hl1 : forall i, has_layer i (mapgl a1) = has_layer i (mapgl a)).
  { intros i. subst a1. by destruct (has_source (GadmLevel level) (mapgl a)). }
  rewrite ensure_line_layer_eq, Hl1.
  destruct (has_layer (LayerLine level) (mapgl a)) eqn:Hl.
  - rewrite ensure_fill_layer_eq, Hl1.
    destruct (has_layer (LayerFill level) (mapgl a)) eqn:Hf.
    + cbn [fst snd]. by rewrite !Hl1.
    + destruct (STYLES level) as [st|] eqn:Hst; cbn [fst snd].
      * split; [done|].
        rewrite !has_layer_with_fill_layer by (by rewrite Hl1).
        rewrite !Hl1, Hl, (bool_decide_eq_true_2 _ eq_refl). by rewrite orb_true_r.
      * by rewrite !Hl1.
  - destruct (STYLES level) as [st|] eqn:Hst.
    + assert (Hl2 : has_layer (LayerLine level)
                      (mapgl (with_line_layer level isVisible st a1)) = true).
      { rewrite has_layer_with_line_layer, (bool_decide_eq_true_2 _ eq_refl).
        apply orb_true_r. }
      rewrite ensure_fill_layer_eq, has_layer_with_line_layer, Hl1.
      rewrite (bool_decide_eq_false_2 (LayerLine level = LayerFill level)) by done.
      rewrite orb_false_r.
      destruct (has_layer (LayerFill level) (mapgl a)) eqn:Hf.
      * cbn [fst snd]. split_and!; [done | done |].
        by rewrite has_layer_with_line_layer, Hl1, Hf.
      * rewrite Hst. cbn [fst snd]. split_and!; [done | |].
        -- rewrite has_layer_with_fill_layer by done. by rewrite Hl2.
        -- rewrite has_layer_with_fill_layer by done.
           rewrite (bool_decide_eq_true_2 _ eq_refl). apply orb_true_r.
    + cbn [fst snd]. unfold line_log. simpl_app. by rewrite !Hl1.
Qed.

Lemma addLevelLayer_throw_map level isVisible a msg :
  (addLevelLayer level isVisible a).1 = Throw msg ->
  has_source (GadmLevel level) (mapgl a) = true ->
  mapgl (addLevelLayer level isVisible a).2 = mapgl a /\
  msg = "TypeError: STYLES[level] is undefined".
Proof.
  rewrite addLevelLayer_eq. cbv zeta. rewrite ensure_source_eq. cbn [snd].
  intros Hthrow Hs. rewrite Hs in *.
  rewrite ensure_line_layer_eq in *.
  destruct (has_layer (LayerLine level) (mapgl a)) eqn:Hl.
  - rewrite ensure_fill_layer_eq in *.
    destruct (has_layer (LayerFill level) (mapgl a)) eqn:Hf; [done|].
    destruct (STYLES level); [done|]. cbn in *. by injection Hthrow as <-.
  - destruct (STYLES level) as [st|] eqn:Hst.
    + rewrite ensure_fill_layer_eq in *.
      destruct (has_layer (LayerFill level) _); [done|].
      rewrite Hst in *. done.
    + cbn in *. by injection Hthrow as <-.
Qed.

Lemma addLevelLayer_throws level isVisible a :
  STYLES level = None ->
  has_layer (LayerLine level) (mapgl a) && has_layer (LayerFill level) (mapgl a) = false ->
  (addLevelLayer level isVisible a).1 = Throw "TypeError: STYLES[level] is undefined".
Proof.
  intros Hst Hmiss. rewrite addLevelLayer_eq. cbv zeta. rewrite ensure_source_eq. cbn [snd].
  set (a1 := if has_source (GadmLevel level) (mapgl a) then a else with_source level a).
  assert (Hl1 : forall i, has_layer i (mapgl a1) = has_layer i (mapgl a)).
  { intros i. subst a1. by destruct (has_source (GadmLevel level) (mapgl a)). }
  rewrite ensure_line_layer_eq, Hl1, Hst.
  destruct (has_layer (LayerLine level) (mapgl a)); [|done].
  rewrite ensure_fill_layer_eq, Hl1, Hst.
  by destruct (has_layer (LayerFill level) (mapgl a)).
Qed.

(** Calling [addLevelLayer] a second time changes nothing on the map and
    ends the same way. *)
Lemma addLevelLayer_idem level isVisible a :
  mapgl (exec (addLevelLayer level isVisible)
           (exec (addLevelLayer level isVisible) a))
    = mapgl (exec (addLevelLayer level isVisible) a) /\
  (addLevelLayer level isVisible (exec (addLevelLayer level isVisible) a)).1
    = (addLevelLayer level isVisible a).1.
Proof.
  unfold exec.
  destruct (addLevelLayer_post level isVisible a) as [Hs Hpost].
  destruct (addLevelLayer level isVisible a) as [[[]|msg] a'] eqn:Hcall;
    cbn [fst snd] in *.
  - destruct Hpost as [Hl Hf]. by rewrite addLevelLayer_fixed.
  - destruct Hpost as (Hst & Hl & Hf & Hmiss).
    assert (Hthrow : (addLevelLayer level isVisible a').1
                       = Throw "TypeError: STYLES[level] is undefined").
    { apply addLevelLayer_throws; [done|]. by rewrite Hl, Hf. }
    destruct (addLevelLayer_throw_map level isVisible a' _ Hthrow Hs) as [Hmap _].
    split; [done|]. rewrite Hthrow. f_equal.
    assert (Hfirst := addLevelLayer_throws level isVisible a Hst Hmiss).
    rewrite Hcall in Hfirst. by injection Hfirst.
Qed.

(** *** The invariant of the session *)

Lemma Inv_ext (a a' : App) :
  sources (mapgl a') = sources (mapgl a) ->
  layers (mapgl a') = layers (mapgl a) ->
  Inv a -> Inv a'.
Proof. unfold Inv, uniq. by intros -> ->. Qed.

Lemma Inv_with_layers_fmap (f : Layer -> Layer) (a : App) :
  (forall l, l_id (f l) = l_id l) ->
  (forall l, styled l -> styled (f l)) ->
  (forall l, l_filter (f l) = l_filter l) ->
  Inv a -> Inv (with_layers (f <$> layers (mapgl a)) a).
Proof.
  intros Hid Hst Hfl ((Hsrc & Hids) & Hstyled & Hfilt).
  unfold Inv, uniq, with_layers. simpl_app. split_and!.
  - done.
  - rewrite <- list_fmap_compose.
    by rewrite (list_fmap_ext (l_id ∘ f) l_id _ (fun _ l _ => Hid l)).
  - apply Forall_fmap. eapply Forall_impl; [exact Hstyled|]. intros l. apply Hst.
  - apply Forall_fmap. eapply Forall_impl; [exact Hfilt|]. intros l [c Hc].
    exists c. unfold filtered, compose in *. by rewrite Hid, Hfl.
Qed.

Lemma Inv_with_layers_filter (P : Layer -> Prop) `{forall l, Decision (P l)} (a : App) :
  Inv a -> Inv (with_layers (filter P (layers (mapgl a))) a).
Proof.
  intros ((Hsrc & Hids) & Hstyled & Hfilt).
  unfold Inv, uniq, with_layers. simpl_app. split_and!.
  - done.
  - eapply sublist_NoDup; [exact Hids|]. apply fmap_sublist, sublist_filter.
  - apply Forall_forall. intros l [_ Hl]%list_elem_of_filter.
    by eapply Forall_forall in Hstyled.
  - apply Forall_forall. intros l [_ Hl]%list_elem_of_filter.
    by eapply Forall_forall in Hfilt.
Qed.

Lemma Inv_with_source level a :
  has_source (GadmLevel level) (mapgl a) = false ->
  Inv a -> Inv (with_source level a).
Proof.
  intros Hs%bool_decide_eq_false_1 ((Hsrc & Hids) & Hstyled & Hfilt).
  unfold Inv, uniq, with_source. simpl_app. split_and!; [|done..].
  rewrite fmap_app. apply NoDup_app. split_and!; [done | | apply NoDup_singleton].
  intros i Hi ->%list_elem_of_singleton. done.
Qed.

Lemma layerDef_ok level isVisible st c :
  STYLES level = Some st ->
  styled (layerDef level isVisible st c) /\ filtered c (layerDef level isVisible st c).
Proof. intros Hst. split; [|done]. exists st. by split_and!. Qed.

Lemma fillDef_ok level isVisible st c :
  STYLES level = Some st ->
  styled (fillDef level isVisible st c) /\ filtered c (fillDef level isVisible st c).
Proof. intros Hst. split; [|done]. by exists st. Qed.

Lemma Inv_with_line_layer level isVisible st a :
  has_layer (LayerLine level) (mapgl a) = false ->
  STYLES level = Some st ->
  Inv a -> Inv (with_line_layer level isVisible st a).
Proof.
  intros Hl%bool_decide_eq_false_1 Hst ((Hsrc & Hids) & Hstyled & Hfilt).
  destruct (layerDef_ok level isVisible st (currentCountry a) Hst) as [H1 H2].
  unfold Inv, uniq, with_line_layer, line_log. simpl_app. split_and!.
  - done.
  - rewrite fmap_app. apply NoDup_app. split_and!; [done | | apply NoDup_singleton].
    intros i Hi ->%list_elem_of_singleton. done.
  - apply Forall_app. split; [done | by constructor].
  - apply Forall_app. split; [done|]. constructor; [|constructor].
    by exists (currentCountry a).
Qed.

Lemma Inv_with_fill_layer level isVisible st a :
  has_layer (LayerFill level) (mapgl a) = false ->
  STYLES level = Some st ->
  Inv a -> Inv (with_fill_layer level isVisible st a).
Proof.
  intros Hf%bool_decide_eq_false_1 Hst ((Hsrc & Hids) & Hstyled & Hfilt).
  destruct (fillDef_ok level isVisible st (currentCountry a) Hst) as [H1 H2].
  unfold Inv, uniq, with_fill_layer. simpl_app. split_and!.
  - done.
  - destruct (decide (LayerLine level ∈ l_id <$> layers (mapgl a))) as [Hin|Hout].
    + rewrite ids_insert_before by done. by apply NoDup_cons.
    + by rewrite insert_before_absent.
  - apply Forall_forall. intros l [->|Hin]%insert_before_elem; [done|].
    by eapply Forall_forall in Hstyled.
  - apply Forall_forall. intros l [->|Hin]%insert_before_elem.
    + by exists (currentCountry a).
    + by eapply Forall_forall in Hfilt.
Qed.

Lemma addLevelLayer_Inv level isVisible : preserves Inv (addLevelLayer level isVisible).
Proof.
  unfold addLevelLayer.
  apply preserves_bind; [|intros _; apply preserves_bind; [|intros _]].
  - intros a Ha. rewrite ensure_source_eq. cbn [snd].
    destruct (has_source (GadmLevel level) (mapgl a)) eqn:Hs; [done|].
    by apply Inv_with_source.
  - intros a Ha. rewrite ensure_line_layer_eq.
    destruct (has_layer (LayerLine level) (mapgl a)) eqn:Hl; [done|].
    destruct (STYLES level) as [st|] eqn:Hst; cbn [snd].
    + by apply Inv_with_line_layer.
    + by eapply Inv_ext; [..|exact Ha].
  - intros a Ha. rewrite ensure_fill_layer_eq.
    destruct (has_layer (LayerFill level) (mapgl a)) eqn:Hf; [done|].
    destruct (STYLES level) as [st|] eqn:Hst; cbn [snd]; [|done].
    by apply Inv_with_fill_layer.
Qed.

Lemma styled_set_visible v l : styled l -> styled (set_visible v l).
Proof. done. Qed.

Lemma setLayoutProperty_visibility_Inv i v :
  preserves Inv (setLayoutProperty_visibility i v).
Proof.
  apply preserves_modify. intros a Ha.
  apply (Inv_with_layers_fmap
           (fun l => if decide (l_id l = i) then set_visible v l else l) a);
    [..|done]; intros l; by case_decide.
Qed.

Lemma setLayerVisibility_Inv level isVisible :
  preserves Inv (setLayerVisibility level isVisible).
Proof.
  unfold setLayerVisibility. pres; apply setLayoutProperty_visibility_Inv.
Qed.

Lemma set_buttons_Inv bs a : Inv a -> Inv (set_buttons bs a).
Proof. by apply Inv_ext. Qed.

Lemma createLevelButton_Inv level active : preserves Inv (createLevelButton level active).
Proof.
  unfold createLevelButton. pres.
  - apply preserves_modify. intros a. apply set_buttons_Inv.
  - apply addLevelLayer_Inv.
  - apply setLayerVisibility_Inv.
Qed.

Lemma button_click_Inv idx : preserves Inv (button_click idx).
Proof.
  unfold button_click. apply preserves_bind; [apply preserves_gets|]. intros bs.
  destruct (bs !! idx) as [[level active]|]; [|apply preserves_ret].
  pres.
  - apply preserves_modify. intros a. apply set_buttons_Inv.
  - apply addLevelLayer_Inv.
  - apply setLayerVisibility_Inv.
Qed.

Lemma updateAdminLevelUI_Inv country : preserves Inv (updateAdminLevelUI country).
Proof.
  unfold updateAdminLevelUI. pres.
  - apply preserves_modify. intros a. by apply Inv_ext.
  - apply preserves_modify. intros a. apply set_buttons_Inv.
  - apply createLevelButton_Inv.
  - apply createLevelButton_Inv.
Qed.

(** *** Layers that carry the filter of the current selection *)

Lemma synced_ext (a a' : App) :
  layers (mapgl a') = layers (mapgl a) ->
  currentCountry a' = currentCountry a ->
  synced a -> synced a'.
Proof. unfold synced. by intros -> ->. Qed.

Lemma addLevelLayer_synced level isVisible :
  preserves synced (addLevelLayer level isVisible).
Proof.
  unfold addLevelLayer.
  apply preserves_bind; [|intros _; apply preserves_bind; [|intros _]].
  - intros a Ha. rewrite ensure_source_eq. cbn [snd].
    by destruct (has_source (GadmLevel level) (mapgl a)).
  - intros a Ha. rewrite ensure_line_layer_eq.
    destruct (has_layer (LayerLine level) (mapgl a)); [done|].
    destruct (STYLES level) as [st|] eqn:Hst; cbn [snd]; [|done].
    unfold synced, with_line_layer, line_log. simpl_app.
    apply Forall_app. split; [done|]. constructor; [|constructor].
    by apply layerDef_ok.
  - intros a Ha. rewrite ensure_fill_layer_eq.
    destruct (has_layer (LayerFill level) (mapgl a)); [done|].
    destruct (STYLES level) as [st|] eqn:Hst; cbn [snd]; [|done].
    unfold synced, with_fill_layer. simpl_app.
    apply Forall_forall. intros l [->|Hin]%insert_before_elem.
    + by apply fillDef_ok.
    + unfold synced in Ha. by eapply Forall_forall in Ha.
Qed.

Lemma setLayerVisibility_synced level isVisible :
  preserves synced (setLayerVisibility level isVisible).
Proof.
  assert (Hset : forall i, preserves synced (setLayoutProperty_visibility i isVisible)).
  { intros i. apply preserves_modify. intros a Ha. unfold synced in *. simpl_app.
    apply Forall_fmap. eapply Forall_impl; [exact Ha|]. intros l Hl.
    unfold compose. by case_decide. }
  unfold setLayerVisibility. pres; apply Hset.
Qed.

Lemma createLevelButton_synced level active :
  preserves synced (createLevelButton level active).
Proof.
  unfold createLevelButton. pres.
  - by apply preserves_modify.
  - apply addLevelLayer_synced.
  - apply setLayerVisibility_synced.
Qed.

Lemma updateAdminLevelUI_synced country : preserves synced (updateAdminLevelUI country).
Proof.
  unfold updateAdminLevelUI. pres.
  - by apply preserves_modify.
  - by apply preserves_modify.
  - apply createLevelButton_synced.
  - apply createLevelButton_synced.
Qed.

Lemma button_click_synced idx : preserves synced (button_click idx).
Proof.
  unfold button_click. apply preserves_bind; [apply preserves_gets|]. intros bs.
  destruct (bs !! idx) as [[level active]|]; [|apply preserves_ret].
  pres.
  - by apply preserves_modify.
  - apply addLevelLayer_synced.
  - apply setLayerVisibility_synced.
Qed.

(** *** Removing and restyling layers, in closed form *)

Lemma remove_level_layers_eq (i : Z) (a : App) :
  remove_level_layers i a =
    (Ok tt, with_layers
              (filter (fun l => l_id l <> LayerLine i)
                 (filter (fun l => l_id l <> LayerFill i) (layers (mapgl a)))) a).
Proof.
  unfold remove_level_layers.
  change (remove_level_layers i) with (remove_level_layers i).
  unfold mbind at 1 2, M_bind at 1 2.
  pose proof (guarded_remove_eq (LayerFill i) a) as Hfill.
  unfold mbind at 1, M_bind at 1 in Hfill.
  destruct (getLayer (LayerFill i) a) as [[hasFill|msg] a0] eqn:Hget; [|done].
  rewrite Hfill.
  pose proof (guarded_remove_eq (LayerLine i)
    (with_layers (filter (fun l => l_id l <> LayerFill i) (layers (mapgl a))) a))
    as Hline.
  unfold mbind at 1, M_bind at 1 in Hline. exact Hline.
Qed.

Lemma remove_admin_layers_eq (a : App) :
  remove_admin_layers a =
    (Ok tt, with_layers
              (filter (fun l => ~ is_admin_id (l_id l)) (layers (mapgl a))) a).
Proof.
  unfold remove_admin_layers. cbn [for_each].
  do 5 (erewrite bind_ok by apply remove_level_layers_eq).
  unfold mret, M_ret.
  rewrite !layers_with_layers, !with_layers_with_layers. do 2 f_equal.
  rewrite !list_filter_filter.
  apply list_filter_iff. intros l.
  destruct (l_id l) as [|z|z]; cbn.
  - split; [by intros _ [] | intros _; by split_and!].
  - split.
    + intros Hne Hz.
      assert (z = 1 \/ z = 2 \/ z = 3 \/ z = 4 \/ z = 5)%Z as Hcases by lia.
      destruct Hcases as [ -> | [ -> | [ -> | [ -> | -> ]]]];
        decompose [and] Hne; congruence.
    + intros Hz. split_and!; try done; intros [= ->]; apply Hz; lia.
  - split.
    + intros Hne Hz.
      assert (z = 1 \/ z = 2 \/ z = 3 \/ z = 4 \/ z = 5)%Z as Hcases by lia.
      destruct Hcases as [ -> | [ -> | [ -> | [ -> | -> ]]]];
        decompose [and] Hne; congruence.
    + intros Hz. split_and!; try done; intros [= ->]; apply Hz; lia.
Qed.

Lemma reset_level0_style_eq (a : App) :
  reset_level0_style a = (Ok tt, with_layers (restyle0 <$> layers (mapgl a)) a).
Proof.
  unfold reset_level0_style, style_of. cbn [STYLES]. unfold_m. cbn [color width].
  destruct (bool_decide (LayerLine 0 ∈ l_id <$> layers (mapgl a))) eqn:Hin.
  - rewrite layers_with_layers, with_layers_with_layers. do 2 f_equal.
    rewrite <- list_fmap_compose. apply list_fmap_ext. intros _ l _.
    unfold restyle0, compose.
    destruct (decide (l_id l = LayerLine 0)) as [Heq|Hne]; cbn [l_id set_paint paint].
    + by rewrite decide_True.
    + by rewrite decide_False.
  - apply bool_decide_eq_false_1 in Hin.
    rewrite fmap_unchanged, with_layers_id; [done|].
    intros l Hl. unfold restyle0. rewrite decide_False; [done|].
    intros Heq. apply Hin. rewrite <- Heq. by apply list_elem_of_fmap_2.
Qed.

Lemma highlight_level0_eq (country : Country) (a : App) :
  highlight_level0 country a =
    (Ok tt, with_layers (highlight0 (name country) <$> layers (mapgl a)) a).
Proof.
  unfold highlight_level0, style_of. cbn [STYLES]. unfold_m. cbn [color width].
  destruct (bool_decide (LayerLine 0 ∈ l_id <$> layers (mapgl a))) eqn:Hin.
  - rewrite layers_with_layers, with_layers_with_layers. do 2 f_equal.
    rewrite <- list_fmap_compose. apply list_fmap_ext. intros _ l _.
    unfold highlight0, compose.
    destruct (decide (l_id l = LayerLine 0)) as [Heq|Hne]; cbn [l_id set_paint paint].
    + by rewrite decide_True.
    + by rewrite decide_False.
  - apply bool_decide_eq_false_1 in Hin.
    rewrite fmap_unchanged, with_layers_id; [done|].
    intros l Hl. unfold highlight0. rewrite decide_False; [done|].
    intros Heq. apply Hin. rewrite <- Heq. by apply list_elem_of_fmap_2.
Qed.

(** *** The handlers that clear the admin layers *)

Lemma resetAdminLevels_eq (a : App) :
  resetAdminLevels a =
    (Ok tt, with_layers (filter (fun l => ~ is_admin_id (l_id l)) (layers (mapgl a)))
              (set_container_shown false (set_buttons [] a))).
Proof.
  unfold resetAdminLevels.
  do 2 (erewrite bind_ok by reflexivity).
  by rewrite remove_admin_layers_eq.
Qed.

Lemma reset_view_click_eq (a : App) :
  reset_view_click a =
    (Ok tt, with_layers
              (restyle0 <$> filter (fun l => ~ is_admin_id (l_id l)) (layers (mapgl a)))
              (set_container_shown false (set_buttons []
                 (set_currentCountry None (set_select_value EmptyString
                    (with_map (set_view WorldView) a)))))).
Proof.
  unfold reset_view_click.
  do 3 (erewrite bind_ok by reflexivity).
  erewrite bind_ok by apply resetAdminLevels_eq.
  by rewrite reset_level0_style_eq.
Qed.

Lemma handleCountryChange_empty_eq (a : App) :
  handleCountryChange EmptyString a =
    (Ok tt, with_layers
              (restyle0 <$> filter (fun l => ~ is_admin_id (l_id l)) (layers (mapgl a)))
              (set_container_shown false (set_buttons [] (set_currentCountry None a)))).
Proof.
  unfold handleCountryChange. cbn [String.eqb].
  erewrite bind_ok by reflexivity.
  erewrite bind_ok by apply resetAdminLevels_eq.
  by rewrite reset_level0_style_eq.
Qed.

(** The session in which [handleCountryChange] builds the buttons of a
    country it has found, when the map accepts the bounds of the country. *)
Lemma handleCountryChange_found_eq
    (countryName : string) (country : Country) (a : App) (v : MView) :
  String.eqb countryName EmptyString = false ->
  List.find (fun c => String.eqb (name c) countryName) (countriesData a) = Some country ->
  fitBounds_view (c_bounds country) = Some v ->
  handleCountryChange countryName a =
    updateAdminLevelUI country
      (with_layers
         (filter (fun l => ~ is_admin_id (l_id l))
            (highlight0 (name country) <$> layers (mapgl a)))
         (with_map (set_view v)
            (set_currentCountry (Some country)
               (set_console (console a ++ ["Selected country: " +:+ name country]) a)))).
Proof.
  intros Hne Hfind Hfit. unfold handleCountryChange. rewrite Hne.
  erewrite bind_ok by reflexivity. cbn beta. rewrite Hfind.
  do 2 (erewrite bind_ok by reflexivity).
  erewrite bind_ok by (rewrite fitBounds_eq, Hfit; reflexivity).
  erewrite bind_ok by apply highlight_level0_eq.
  erewrite bind_ok by apply remove_admin_layers_eq.
  done.
Qed.

(** When [fitBounds] throws, [handleCountryChange] ends there: the country
    is logged and assigned to [currentCountry], and nothing else is done. *)
Lemma handleCountryChange_rejected_eq
    (countryName : string) (country : Country) (a : App) :
  String.eqb countryName EmptyString = false ->
  List.find (fun c => String.eqb (name c) countryName) (countriesData a) = Some country ->
  fitBounds_view (c_bounds country) = None ->
  handleCountryChange countryName a =
    (Throw "Error: Invalid LngLat object",
     set_currentCountry (Some country)
       (set_console (console a ++ ["Selected country: " +:+ name country]) a)).
Proof.
  intros Hne Hfind Hfit. unfold handleCountryChange. rewrite Hne.
  erewrite bind_ok by reflexivity. cbn beta. rewrite Hfind.
  do 2 (erewrite bind_ok by reflexivity).
  unfold mbind, M_bind. by rewrite fitBounds_eq, Hfit.
Qed.

Lemma handleCountryChange_unknown_eq (countryName : string) (a : App) :
  String.eqb countryName EmptyString = false ->
  List.find (fun c => String.eqb (name c) countryName) (countriesData a) = None ->
  handleCountryChange countryName a = (Ok tt, a).
Proof.
  intros Hne Hfind. unfold handleCountryChange. rewrite Hne.
  erewrite bind_ok by reflexivity. cbn beta. by rewrite Hfind.
Qed.

Lemma STYLES_range level st : STYLES level = Some st -> (0 <= level <= 5)%Z.
Proof.
  destruct level as [|p|p]; [lia | | done].
  do 3 (destruct p as [p|p|]; try done; try lia).
Qed.

Lemma country_filter_0 c : country_filter 0 c = None.
Proof. by destruct c. Qed.

(** A styled layer outside levels 1 to 5 is a level-0 layer or the
    basemap, and no country filter applies to it. *)
Lemma filtered_any c c' (l : Layer) :
  styled l -> ~ is_admin_id (l_id l) -> filtered c l -> filtered c' l.
Proof.
  unfold styled, filtered, is_admin_id.
  destruct (l_id l) as [|z|z]; [done | |].
  - intros (st & Hst%STYLES_range & _) Hz. assert (z = 0%Z) as -> by lia.
    by rewrite !country_filter_0.
  - intros (st & Hst%STYLES_range & _) Hz. assert (z = 0%Z) as -> by lia.
    by rewrite !country_filter_0.
Qed.

(** A session without layers of levels 1 to 5 is in step with any
    selection. *)
Lemma synced_non_admin c (a : App) :
  Forall (fun l => ~ is_admin_id (l_id l)) (layers (mapgl a)) ->
  Inv a -> currentCountry a = c -> synced a.
Proof.
  intros Hnon (_ & Hstyled & Hfilt) Hc. unfold synced. rewrite Hc.
  apply Forall_forall. intros l Hl.
  eapply Forall_forall in Hfilt; [|exact Hl]. destruct Hfilt as [c0 Hc0].
  eapply filtered_any; [| |exact Hc0].
  - by eapply Forall_forall in Hstyled.
  - by eapply Forall_forall in Hnon.
Qed.

Lemma styled_line0_set (l : Layer) v1 v2 :
  styled l -> l_id l = LayerLine 0 ->
  styled (set_paint (set_prop line_width v2 (set_prop line_color v1 (paint l))) l) /\
  set_prop line_width v2 (set_prop line_color v1 (paint l))
    = [(line_color, v1); (line_width, v2)].
Proof.
  unfold styled. cbn [l_id set_paint paint]. intros Hst Hid. rewrite Hid in *.
  destruct Hst as (st & Hst & Hkeys & _).
  destruct (paint l) as [|[k1 w1] [|[k2 w2] [|? ?]]]; try done.
  injection Hkeys as -> ->. cbn. split; [|done].
  exists st. split_and!; [done | done | done].
Qed.

Lemma styled_restyle0 l : styled l -> styled (restyle0 l).
Proof.
  intros Hst. unfold restyle0. case_decide as Hid; [|done].
  by apply styled_line0_set.
Qed.

Lemma styled_highlight0 n l : styled l -> styled (highlight0 n l).
Proof.
  intros Hst. unfold highlight0. case_decide as Hid; [|done].
  by apply styled_line0_set.
Qed.

Lemma Forall_non_admin_filter_fmap (f : Layer -> Layer) (ls : list Layer) :
  (forall l, l_id (f l) = l_id l) ->
  Forall (fun l => ~ is_admin_id (l_id l))
    (f <$> filter (fun l => ~ is_admin_id (l_id l)) ls) /\
  Forall (fun l => ~ is_admin_id (l_id l))
    (filter (fun l => ~ is_admin_id (l_id l)) (f <$> ls)).
Proof.
  intros Hid. split.
  - apply Forall_fmap, Forall_forall. intros l [Hl _]%list_elem_of_filter.
    unfold compose. by rewrite Hid.
  - apply Forall_forall. by intros l [Hl _]%list_elem_of_filter.
Qed.

Lemma restyle0_id l : l_id (restyle0 l) = l_id l.
Proof. unfold restyle0. by case_decide. Qed.

Lemma highlight0_id n l : l_id (highlight0 n l) = l_id l.
Proof. unfold highlight0. by case_decide. Qed.

Lemma restyle0_filter l : l_filter (restyle0 l) = l_filter l.
Proof. unfold restyle0. by case_decide. Qed.

Lemma highlight0_filter n l : l_filter (highlight0 n l) = l_filter l.
Proof. unfold highlight0. by case_decide. Qed.

(** Clearing the admin layers and restyling level 0 keeps the invariant
    and leaves the session in step with any selection. *)
Lemma Inv_cleared_restyled (a a' : App) :
  Inv a ->
  sources (mapgl a') = sources (mapgl a) ->
  layers (mapgl a') =
    restyle0 <$> filter (fun l => ~ is_admin_id (l_id l)) (layers (mapgl a)) ->
  Inv a' /\ synced a'.
Proof.
  intros Ha Hs Hl.
  pose (a1 := with_layers (filter (fun l => ~ is_admin_id (l_id l)) (layers (mapgl a))) a).
  pose (a2 := with_layers (restyle0 <$> layers (mapgl a1)) a1).
  assert (Inv a2) as H2.
  { apply Inv_with_layers_fmap;
      [apply restyle0_id | apply styled_restyle0 | apply restyle0_filter |].
    by apply Inv_with_layers_filter. }
  assert (Inv a') as Ha' by (by apply (Inv_ext a2); [rewrite Hs | rewrite Hl|]).
  split; [done|].
  apply (synced_non_admin (currentCountry a')); [|done..].
  rewrite Hl. apply (Forall_non_admin_filter_fmap restyle0), restyle0_id.
Qed.

Lemma Inv_highlighted_cleared n (a a' : App) :
  Inv a ->
  sources (mapgl a') = sources (mapgl a) ->
  layers (mapgl a') =
    filter (fun l => ~ is_admin_id (l_id l)) (highlight0 n <$> layers (mapgl a)) ->
  Inv a' /\ synced a'.
Proof.
  intros Ha Hs Hl.
  pose (a1 := with_layers (highlight0 n <$> layers (mapgl a)) a).
  pose (a2 := with_layers (filter (fun l => ~ is_admin_id (l_id l)) (layers (mapgl a1))) a1).
  assert (Inv a2) as H2.
  { apply Inv_with_layers_filter.
    by apply Inv_with_layers_fmap;
      [apply highlight0_id | apply styled_highlight0 | apply highlight0_filter |]. }
  assert (Inv a') as Ha' by (by apply (Inv_ext a2); [rewrite Hs | rewrite Hl|]).
  split; [done|].
  apply (synced_non_admin (currentCountry a')); [|done..].
  rewrite Hl. apply (Forall_non_admin_filter_fmap (highlight0 n)), highlight0_id.
Qed.

Lemma step_Inv e a : Inv a -> Inv (step e a).
Proof.
  intros Ha. destruct e as [|value|idx|]; cbn [step].
  - by apply addLevelLayer_Inv.
  - assert (Ha' : Inv (set_select_value value a)) by (by apply (Inv_ext a)).
    revert Ha'. generalize (set_select_value value a). clear a Ha. intros a Ha.
    unfold exec.
    destruct (String.eqb value EmptyString) eqn:Hv.
    + apply String.eqb_eq in Hv as ->. rewrite handleCountryChange_empty_eq.
      by eapply (Inv_cleared_restyled a).
    + destruct (List.find (fun c => String.eqb (name c) value) (countriesData a))
        as [country|] eqn:Hfind.
      * destruct (fitBounds_view (c_bounds country)) as [v|] eqn:Hfit.
        -- rewrite (handleCountryChange_found_eq _ _ _ _ Hv Hfind Hfit).
           apply updateAdminLevelUI_Inv.
           by eapply (Inv_highlighted_cleared (name country) a).
        -- rewrite (handleCountryChange_rejected_eq _ _ _ Hv Hfind Hfit).
           cbn [snd]. revert Ha. by apply Inv_ext.
      * by rewrite (handleCountryChange_unknown_eq _ _ Hv Hfind).
  - by apply button_click_Inv.
  - unfold exec. rewrite reset_view_click_eq.
    by eapply (Inv_cleared_restyled a).
Qed.

Lemma reachable_Inv catalog a : reachable catalog a -> Inv a.
Proof.
  induction 1 as [|e a _ IH]; [|by apply step_Inv].
  unfold Inv, uniq, init_app, initial_map. simpl_app. split_and!.
  - apply NoDup_singleton.
  - apply NoDup_singleton.
  - by repeat constructor.
  - repeat constructor. by exists None.
Qed.

(** A country change that the map accepts leaves every layer with the
    filter of the new selection. *)
Lemma handleCountryChange_synced
    (countryName : string) (country : Country) (a : App) (v : MView) :
  String.eqb countryName EmptyString = false ->
  List.find (fun c => String.eqb (name c) countryName) (countriesData a) = Some country ->
  fitBounds_view (c_bounds country) = Some v ->
  Inv a ->
  let a' := (handleCountryChange countryName a).2 in
  currentCountry a' = Some country /\ synced a'.
Proof.
  intros Hv Hfind Hfit Ha. cbv zeta.
  rewrite (handleCountryChange_found_eq _ _ _ _ Hv Hfind Hfit).
  match goal with |- context [updateAdminLevelUI country ?c] => set (cleared := c) end.
  assert (Hc : currentCountry cleared = Some country /\ synced cleared).
  { split; [done|]. by eapply (Inv_highlighted_cleared (name country) a). }
  assert (Hup : preserves (fun a0 => currentCountry a0 = Some country /\ synced a0)
                  (updateAdminLevelUI country)).
  { intros a0 [H1 H2]. split; [|by apply updateAdminLevelUI_synced].
    revert a0 H1 H2.
    assert (Hcc : preserves (fun a0 => currentCountry a0 = Some country)
                    (updateAdminLevelUI country)); [|by intros a0 H1 _; apply Hcc].
    assert (Hadd : forall x w, preserves (fun a0 => currentCountry a0 = Some country)
                                 (addLevelLayer x w)).
    { intros x w. unfold addLevelLayer.
      apply preserves_bind; [|intros _; apply preserves_bind; [|intros _]].
      - intros a0 H0. rewrite ensure_source_eq. cbn [snd].
        by destruct (has_source (GadmLevel x) (mapgl a0)).
      - intros a0 H0. rewrite ensure_line_layer_eq.
        destruct (has_layer (LayerLine x) (mapgl a0)); [done|].
        by destruct (STYLES x).
      - intros a0 H0. rewrite ensure_fill_layer_eq.
        destruct (has_layer (LayerFill x) (mapgl a0)); [done|].
        by destruct (STYLES x). }
    assert (Hbtn : forall x w, preserves (fun a0 => currentCountry a0 = Some country)
                                 (createLevelButton x w)).
    { intros x w. unfold createLevelButton, setLayerVisibility.
      pres; try (by apply preserves_modify); apply Hadd. }
    unfold updateAdminLevelUI. pres; try (by apply preserves_modify); apply Hbtn. }
  by apply Hup.
Qed.

End TiledFacts.

Section AppJsFacts.
Import MapLibre AppJs.
Context `{MapLibreLibrary}.

Lemma appjs_ensure_source_eq level a :
  ensure_source level a =
    (Ok tt, if has_source (GadmLevel level) (mapgl a) then a
            else Tiled.with_source level a).
Proof.
  unfold ensure_source, Tiled.with_source. unfold_m.
  by destruct (bool_decide _).
Qed.

Lemma appjs_ensure_line_layer_eq level isVisible a :
  ensure_line_layer level isVisible a =
    if has_layer (LayerLine level) (mapgl a) then (Ok tt, a)
    else match STYLES level with
         | Some st => (Ok tt, with_line_layer level isVisible st a)
         | None => (Throw "TypeError: STYLES[level] is undefined", a)
         end.
Proof.
  unfold ensure_line_layer, with_line_layer, style_of. unfold_m.
  destruct (bool_decide _); [done|]. cbn [negb].
  by destruct (STYLES level).
Qed.

Lemma appjs_ensure_fill_layer_eq level isVisible a :
  ensure_fill_layer level isVisible a =
    if has_layer (LayerFill level) (mapgl a) then (Ok tt, a)
    else match STYLES level with
         | Some st => (Ok tt, with_fill_layer level isVisible st a)
         | None => (Throw "TypeError: STYLES[level] is undefined", a)
         end.
Proof.
  unfold ensure_fill_layer, with_fill_layer, style_of. unfold_m.
  destruct (bool_decide _); [done|]. cbn [negb].
  by destruct (STYLES level).
Qed.

Lemma appjs_addLevelLayer_eq level isVisible a :
  addLevelLayer level isVisible a =
    let a1 := (ensure_source level a).2 in
    match ensure_line_layer level isVisible a1 with
    | (Ok _, a2) => ensure_fill_layer level isVisible a2
    | (Throw msg, a2) => (Throw msg, a2)
    end.
Proof.
  unfold addLevelLayer. unfold mbind, M_bind at 1 2.
  rewrite appjs_ensure_source_eq. cbn [snd]. done.
Qed.

Lemma appjs_has_layer_with_line_layer level isVisible st a i :
  has_layer i (mapgl (with_line_layer level isVisible st a)) =
    has_layer i (mapgl a) || bool_decide (LayerLine level = i).
Proof. unfold has_layer, with_line_layer. simpl_app. apply elem_ids_snoc. Qed.

Lemma appjs_has_layer_with_fill_layer level isVisible st a i :
  has_layer (LayerLine level) (mapgl a) = true ->
  has_layer i (mapgl (with_fill_layer level isVisible st a)) =
    has_layer i (mapgl a) || bool_decide (LayerFill level = i).
Proof.
  unfold has_layer, with_fill_layer. simpl_app.
  apply elem_ids_insert_before.
Qed.

Lemma appjs_addLevelLayer_fixed level isVisible a :
  has_source (GadmLevel level) (mapgl a) = true ->
  has_layer (LayerLine level) (mapgl a) = true ->
  has_layer (LayerFill level) (mapgl a) = true ->
  addLevelLayer level isVisible a = (Ok tt, a).
Proof.
  intros Hs Hl Hf. rewrite appjs_addLevelLayer_eq. cbv zeta.
  rewrite appjs_ensure_source_eq, Hs. cbn [snd].
  rewrite appjs_ensure_line_layer_eq, Hl, appjs_ensure_fill_layer_eq, Hf. done.
Qed.

Lemma appjs_addLevelLayer_post level isVisible a :
  let r := addLevelLayer level isVisible a in
  has_source (GadmLevel level) (mapgl r.2) = true /\
  match r.1 with
  | Ok _ =>
      has_layer (LayerLine level) (mapgl r.2) = true /\
      has_layer (LayerFill level) (mapgl r.2) = true
  | Throw _ =>
      STYLES level = None /\
      has_layer (LayerLine level) (mapgl r.2) = has_layer (LayerLine level) (mapgl a) /\
      has_layer (LayerFill level) (mapgl r.2) = has_layer (LayerFill level) (mapgl a) /\
      has_layer (LayerLine level) (mapgl a) && has_layer (LayerFill level) (mapgl a) = false
  end.
Proof.
  cbv zeta. rewrite appjs_addLevelLayer_eq. cbv zeta.
  rewrite appjs_ensure_source_eq. cbn [snd].
  set (a1 := if has_source (GadmLevel level) (mapgl a) then a
             else Tiled.with_source level a).
  assert (Hs1 : has_source (GadmLevel level) (mapgl a1) = true).
  { subst a1. destruct (has_source (GadmLevel level) (mapgl a)) eqn:Hs; [done|].
    rewrite has_source_with_source, (bool_decide_eq_true_2 _ eq_refl).
    apply orb_true_r. }
  assert (Hl1 : forall i, has_layer i (mapgl a1) = has_layer i (mapgl a)).
  { intros i. subst a1. by destruct (has_source (GadmLevel level) (mapgl a)). }
  rewrite appjs_ensure_line_layer_eq, Hl1.
  destruct (has_layer (LayerLine level) (mapgl a)) eqn:Hl.
  - rewrite appjs_ensure_fill_layer_eq, Hl1.
    destruct (has_layer (LayerFill level) (mapgl a)) eqn:Hf.
    + cbn [fst snd]. by rewrite !Hl1.
    + destruct (STYLES level) as [st|] eqn:Hst; cbn [fst snd].
      * split; [done|].
        rewrite !appjs_has_layer_with_fill_layer by (by rewrite Hl1).
        rewrite !Hl1, Hl, (bool_decide_eq_true_2 _ eq_refl). by rewrite orb_true_r.
      * by rewrite !Hl1.
  - destruct (STYLES level) as [st|] eqn:Hst.
    + assert (Hl2 : has_layer (LayerLine level)
                      (mapgl (with_line_layer level isVisible st a1)) = true).
      { rewrite appjs_has_layer_with_line_layer, (bool_decide_eq_true_2 _ eq_refl).
        apply orb_true_r. }
      rewrite appjs_ensure_fill_layer_eq, appjs_has_layer_with_line_layer, Hl1.
      rewrite (bool_decide_eq_false_2 (LayerLine level = LayerFill level)) by done.
      rewrite orb_false_r.
      destruct (has_layer (LayerFill level) (mapgl a)) eqn:Hf.
      * cbn [fst snd]. split_and!; [done | done |].
        by rewrite appjs_has_layer_with_line_layer, Hl1, Hf.
      * rewrite Hst. cbn [fst snd]. split_and!; [done | |].
        -- rewrite appjs_has_layer_with_fill_layer by done. by rewrite Hl2.
        -- rewrite appjs_has_layer_with_fill_layer by done.
           rewrite (bool_decide_eq_true_2 _ eq_refl). apply orb_true_r.
    + cbn [fst snd]. by rewrite !Hl1.
Qed.

Lemma appjs_addLevelLayer_throw_map level isVisible a msg :
  (addLevelLayer level isVisible a).1 = Throw msg ->
  has_source (GadmLevel level) (mapgl a) = true ->
  mapgl (addLevelLayer level isVisible a).2 = mapgl a.
Proof.
  rewrite appjs_addLevelLayer_eq. cbv zeta. rewrite appjs_ensure_source_eq. cbn [snd].
  intros Hthrow Hs. rewrite Hs in *.
  rewrite appjs_ensure_line_layer_eq in *.
  destruct (has_layer (LayerLine level) (mapgl a)) eqn:Hl.
  - rewrite appjs_ensure_fill_layer_eq in *.
    destruct (has_layer (LayerFill level) (mapgl a)) eqn:Hf; [done|].
    by destruct (STYLES level).
  - destruct (STYLES level) as [st|] eqn:Hst; [|done].
    rewrite appjs_ensure_fill_layer_eq in *.
    destruct (has_layer (LayerFill level) _); [done|].
    rewrite Hst in *. done.
Qed.

Lemma appjs_addLevelLayer_throws level isVisible a :
  STYLES level = None ->
  has_layer (LayerLine level) (mapgl a) && has_layer (LayerFill level) (mapgl a) = false ->
  (addLevelLayer level isVisible a).1 = Throw "TypeError: STYLES[level] is undefined".
Proof.
  intros Hst Hmiss. rewrite appjs_addLevelLayer_eq. cbv zeta.
  rewrite appjs_ensure_source_eq. cbn [snd].
  set (a1 := if has_source (GadmLevel level) (mapgl a) then a
             else Tiled.with_source level a).
  assert (Hl1 : forall i, has_layer i (mapgl a1) = has_layer i (mapgl a)).
  { intros i. subst a1. by destruct (has_source (GadmLevel level) (mapgl a)). }
  rewrite appjs_ensure_line_layer_eq, Hl1, Hst.
  destruct (has_layer (LayerLine level) (mapgl a)); [|done].
  rewrite appjs_ensure_fill_layer_eq, Hl1, Hst.
  by destruct (has_layer (LayerFill level) (mapgl a)).
Qed.

Lemma appjs_addLevelLayer_idem level isVisible a :
  mapgl (exec (addLevelLayer level isVisible)
           (exec (addLevelLayer level isVisible) a))
    = mapgl (exec (addLevelLayer level isVisible) a) /\
  (addLevelLayer level isVisible (exec (addLevelLayer level isVisible) a)).1
    = (addLevelLayer level isVisible a).1.
Proof.
  unfold exec.
  destruct (appjs_addLevelLayer_post level isVisible a) as [Hs Hpost].
  destruct (addLevelLayer level isVisible a) as [[[]|msg] a'] eqn:Hcall;
    cbn [fst snd] in *.
  - destruct Hpost as [Hl Hf]. by rewrite appjs_addLevelLayer_fixed.
  - destruct Hpost as (Hst & Hl & Hf & Hmiss).
    assert (Hthrow : (addLevelLayer level isVisible a').1
                       = Throw "TypeError: STYLES[level] is undefined").
    { apply appjs_addLevelLayer_throws; [done|]. by rewrite Hl, Hf. }
    split.
    + by eapply appjs_addLevelLayer_throw_map.
    + rewrite Hthrow. f_equal.
      assert (Hfirst := appjs_addLevelLayer_throws level isVisible a Hst Hmiss).
      rewrite Hcall in Hfirst. by injection Hfirst.
Qed.

(** *** Uniqueness of ids *)

Lemma appjs_addLevelLayer_uniq level isVisible :
  preserves uniq_app (addLevelLayer level isVisible).
Proof.
  unfold addLevelLayer.
  apply preserves_bind; [|intros _; apply preserves_bind; [|intros _]].
  - intros a [Hsrc Hids]. rewrite appjs_ensure_source_eq. cbn [snd].
    destruct (has_source (GadmLevel level) (mapgl a)) eqn:Hs; [done|].
    apply bool_decide_eq_false_1 in Hs.
    unfold uniq_app, uniq, Tiled.with_source. simpl_app. split; [|done].
    rewrite fmap_app. apply NoDup_app. split_and!; [done | | apply NoDup_singleton].
    intros i Hi ->%list_elem_of_singleton. done.
  - intros a [Hsrc Hids]. rewrite appjs_ensure_line_layer_eq.
    destruct (has_layer (LayerLine level) (mapgl a)) eqn:Hl; [done|].
    apply bool_decide_eq_false_1 in Hl.
    destruct (STYLES level) as [st|]; [|done]. cbn [snd].
    unfold uniq_app, uniq, with_line_layer. simpl_app. split; [done|].
    rewrite fmap_app. apply NoDup_app. split_and!; [done | | apply NoDup_singleton].
    intros i Hi ->%list_elem_of_singleton. done.
  - intros a [Hsrc Hids]. rewrite appjs_ensure_fill_layer_eq.
    destruct (has_layer (LayerFill level) (mapgl a)) eqn:Hf; [done|].
    apply bool_decide_eq_false_1 in Hf.
    destruct (STYLES level) as [st|]; [|done]. cbn [snd].
    unfold uniq_app, uniq, with_fill_layer. simpl_app. split; [done|].
    destruct (decide (LayerLine level ∈ l_id <$> layers (mapgl a))) as [Hin|Hout].
    + rewrite ids_insert_before by done. by apply NoDup_cons.
    + by rewrite insert_before_absent.
Qed.

Lemma appjs_setLayerVisibility_eq level isVisible (a : App) :
  setLayerVisibility level isVisible a =
    (Ok tt, with_layers (show_level level isVisible <$> layers (mapgl a)) a).
Proof.
  unfold setLayerVisibility.
  unfold mbind at 1 2, M_bind at 1 2.
  pose proof (guarded_visibility_eq (LayerLine level) isVisible a) as Hline.
  unfold mbind at 1, M_bind at 1 in Hline.
  destruct (getLayer (LayerLine level) a) as [[hasLine|msg] a0] eqn:Hget; [|done].
  rewrite Hline.
  pose proof (guarded_visibility_eq (LayerFill level) isVisible
    (with_layers ((fun l => if decide (l_id l = LayerLine level)
                            then set_visible isVisible l else l)
                    <$> layers (mapgl a)) a)) as Hfill.
  unfold mbind at 1, M_bind at 1 in Hfill.
  etransitivity; [exact Hfill|].
  by rewrite layers_with_layers, with_layers_with_layers, show_level_two_steps.
Qed.

Lemma appjs_setLayerVisibility_uniq level isVisible :
  preserves uniq_app (setLayerVisibility level isVisible).
Proof.
  intros a Ha. rewrite appjs_setLayerVisibility_eq. cbn [snd].
  apply uniq_with_layers_fmap; [apply show_level_id | done].
Qed.

Lemma appjs_createLevelButton_uniq level active :
  preserves uniq_app (createLevelButton level active).
Proof.
  unfold createLevelButton. pres.
  - by apply preserves_modify.
  - apply appjs_addLevelLayer_uniq.
  - apply appjs_setLayerVisibility_uniq.
Qed.

Lemma appjs_step_uniq e a : uniq_app a -> uniq_app (step e a).
Proof.
  intros Ha. destruct e as [|value|idx|]; cbn [step].
  - by apply appjs_addLevelLayer_uniq.
  - assert (Ha' : uniq_app (set_select_value value a)) by done.
    revert Ha'. generalize (set_select_value value a). clear a Ha. intros a Ha.
    revert a Ha. change (preserves uniq_app (handleCountryChange value)).
    unfold handleCountryChange. destruct (String.eqb value EmptyString).
    { apply preserves_ret. }
    apply preserves_bind; [apply preserves_gets|]. intros data.
    destruct (List.find _ data) as [country|]; [|apply preserves_ret].
    apply preserves_bind; [by apply preserves_modify | intros _].
    apply preserves_bind; [by apply preserves_fitBounds | intros _].
    unfold updateAdminLevelUI. pres; try (by apply preserves_modify);
      apply appjs_createLevelButton_uniq.
  - revert a Ha. change (preserves uniq_app (button_click idx)).
    unfold button_click. apply preserves_bind; [apply preserves_gets|]. intros bs.
    destruct (bs !! idx) as [[level active]|]; [|apply preserves_ret].
    pres.
    + by apply preserves_modify.
    + apply appjs_addLevelLayer_uniq.
    + apply appjs_setLayerVisibility_uniq.
  - revert a Ha. change (preserves uniq_app reset_view_click).
    unfold reset_view_click, resetAdminLevels. pres; try (by apply preserves_modify);
      apply appjs_setLayerVisibility_uniq.
Qed.

Lemma appjs_reachable_uniq catalog a : reachable catalog a -> uniq_app a.
Proof.
  induction 1 as [|e a _ IH]; [|by apply appjs_step_uniq].
  unfold uniq_app, uniq, init_app, initial_map. simpl_app.
  split; apply NoDup_singleton.
Qed.

(** *** [resetAdminLevels] hides and shows, and removes nothing *)

Lemma show_level_hit level v l :
  l_id l = LayerLine level \/ l_id l = LayerFill level ->
  show_level level v l = set_visible v l.
Proof. intros Hid. unfold show_level. by rewrite decide_True. Qed.

Lemma show_level_miss level v l :
  ~ (l_id l = LayerLine level \/ l_id l = LayerFill level) ->
  show_level level v l = l.
Proof. intros Hid. unfold show_level. by rewrite decide_False. Qed.

Lemma show_level_other level v l z :
  l_id l = LayerLine z \/ l_id l = LayerFill z -> z <> level ->
  show_level level v l = l.
Proof.
  intros Hid Hne. apply show_level_miss. intros [Hl|Hf]; destruct Hid; congruence.
Qed.

(** Hiding levels 1 to 5 and showing level 0, layer by layer. *)
Lemma reset_visibility_steps (l : Layer) :
  show_level 0 true (show_level 5 false (show_level 4 false (show_level 3 false
    (show_level 2 false (show_level 1 false l))))) = reset_visibility l.
Proof.
  assert (Hcases : l_id l = Basemap \/
                   exists z, l_id l = LayerLine z \/ l_id l = LayerFill z).
  { destruct (l_id l) as [|z|z]; [by left | right; exists z; by left
                                   | right; exists z; by right]. }
  destruct Hcases as [Hb|(z & Hz)].
  - rewrite !show_level_miss by (rewrite ?show_level_id, Hb; by intros [?|?]).
    unfold reset_visibility. rewrite Hb. cbn [is_admin_id].
    rewrite (decide_False (P := False)) by (by intros []).
    rewrite decide_False by (by intros [?|?]). done.
  - assert (Hadm : is_admin_id (l_id l) <-> (1 <= z <= 5)%Z).
    { by destruct Hz as [-> | ->]. }
    assert (Hzero : (l_id l = LayerLine 0 \/ l_id l = LayerFill 0) <-> z = 0%Z).
    { destruct Hz as [Hz|Hz]; rewrite Hz; split;
        try (intros [[= ->]|[= ->]]; done); intros ->; first [by left | by right]. }
    unfold reset_visibility.
    destruct (decide (z = 1%Z)) as [->|H1].
    { rewrite (show_level_hit 1) by done.
      rewrite !(show_level_other _ _ _ 1) by (rewrite ?show_level_id; done).
      rewrite decide_True by (apply Hadm; lia). done. }
    rewrite (show_level_other 1 _ _ z) by done.
    destruct (decide (z = 2%Z)) as [->|H2].
    { rewrite (show_level_hit 2) by done.
      rewrite !(show_level_other _ _ _ 2) by (rewrite ?show_level_id; done).
      rewrite decide_True by (apply Hadm; lia). done. }
    rewrite (show_level_other 2 _ _ z) by done.
    destruct (decide (z = 3%Z)) as [->|H3].
    { rewrite (show_level_hit 3) by done.
      rewrite !(show_level_other _ _ _ 3) by (rewrite ?show_level_id; done).
      rewrite decide_True by (apply Hadm; lia). done. }
    rewrite (show_level_other 3 _ _ z) by done.
    destruct (decide (z = 4%Z)) as [->|H4].
    { rewrite (show_level_hit 4) by done.
      rewrite !(show_level_other _ _ _ 4) by (rewrite ?show_level_id; done).
      rewrite decide_True by (apply Hadm; lia). done. }
    rewrite (show_level_other 4 _ _ z) by done.
    destruct (decide (z = 5%Z)) as [->|H5].
    { rewrite (show_level_hit 5) by done.
      rewrite !(show_level_other _ _ _ 5) by (rewrite ?show_level_id; done).
      rewrite decide_True by (apply Hadm; lia). done. }
    rewrite (show_level_other 5 _ _ z) by done.
    rewrite decide_False by (rewrite Hadm; lia).
    destruct (decide (z = 0%Z)) as [->|H0].
    + rewrite (show_level_hit 0) by done. rewrite decide_True by (by apply Hzero). done.
    + rewrite (show_level_other 0 _ _ z) by done.
      rewrite decide_False by (by rewrite Hzero). done.
Qed.

Lemma appjs_hide_admin_levels_eq (a : App) :
  for_each [1; 2; 3; 4; 5]%Z (fun i => setLayerVisibility i false) a =
    (Ok tt, with_layers
              ((fun l => show_level 5 false (show_level 4 false (show_level 3 false
                           (show_level 2 false (show_level 1 false l)))))
                 <$> layers (mapgl a)) a).
Proof.
  cbn [for_each].
  do 5 (erewrite bind_ok by apply appjs_setLayerVisibility_eq).
  unfold mret, M_ret.
  rewrite !layers_with_layers, !with_layers_with_layers.
  by rewrite <- !list_fmap_compose.
Qed.

Lemma appjs_reset_view_click_eq (a : App) :
  reset_view_click a =
    (Ok tt, with_layers (reset_visibility <$> layers (mapgl a))
              (set_container_shown false (set_select_value EmptyString
                 (with_map (set_view WorldView) a)))).
Proof.
  unfold reset_view_click. do 2 (erewrite bind_ok by reflexivity).
  unfold resetAdminLevels. erewrite bind_ok by reflexivity.
  erewrite bind_ok by apply appjs_hide_admin_levels_eq.
  rewrite appjs_setLayerVisibility_eq.
  rewrite layers_with_layers, with_layers_with_layers.
  do 2 f_equal. rewrite <- list_fmap_compose.
  apply list_fmap_ext. intros _ l _. apply reset_visibility_steps.
Qed.

End AppJsFacts.

(** * The claims about the layer reconciliation *)

Section ReconcilerTheorems.
Import MapLibre.
Context `{MapLibreLibrary}.

Lemma tiled_setLayerVisibility_eq level isVisible (a : App) :
  Tiled.setLayerVisibility level isVisible a =
    (Ok tt, with_layers (show_level level isVisible <$> layers (mapgl a)) a).
Proof.
  unfold Tiled.setLayerVisibility. cbv zeta.
  unfold mbind at 1 2, M_bind at 1 2.
  pose proof (guarded_visibility_eq (LayerLine level) isVisible a) as Hline.
  unfold mbind at 1, M_bind at 1 in Hline.
  destruct (getLayer (LayerLine level) a) as [[hasLine|msg] a0] eqn:Hget; [|done].
  rewrite Hline.
  pose proof (guarded_visibility_eq (LayerFill level) isVisible
    (with_layers ((fun l => if decide (l_id l = LayerLine level)
                            then set_visible isVisible l else l)
                    <$> layers (mapgl a)) a)) as Hfill.
  unfold mbind at 1, M_bind at 1 in Hfill.
  etransitivity; [exact Hfill|].
  by rewrite layers_with_layers, with_layers_with_layers, show_level_two_steps.
Qed.

Lemma tiled_addLevelLayer_uniq level isVisible :
  preserves uniq_app (Tiled.addLevelLayer level isVisible).
Proof.
  unfold Tiled.addLevelLayer.
  apply preserves_bind; [|intros _; apply preserves_bind; [|intros _]].
  - intros a [Hsrc Hids]. rewrite ensure_source_eq. cbn [snd].
    destruct (has_source (GadmLevel level) (mapgl a)) eqn:Hs; [done|].
    apply bool_decide_eq_false_1 in Hs.
    unfold uniq_app, uniq, Tiled.with_source. simpl_app. split; [|done].
    rewrite fmap_app. apply NoDup_app. split_and!; [done | | apply NoDup_singleton].
    intros i Hi ->%list_elem_of_singleton. done.
  - intros a [Hsrc Hids]. rewrite ensure_line_layer_eq.
    destruct (has_layer (LayerLine level) (mapgl a)) eqn:Hl; [done|].
    apply bool_decide_eq_false_1 in Hl.
    destruct (Tiled.STYLES level) as [st|]; [|done]. cbn [snd].
    unfold uniq_app, uniq, Tiled.with_line_layer, Tiled.line_log. simpl_app.
    split; [done|].
    rewrite fmap_app. apply NoDup_app. split_and!; [done | | apply NoDup_singleton].
    intros i Hi ->%list_elem_of_singleton. done.
  - intros a [Hsrc Hids]. rewrite ensure_fill_layer_eq.
    destruct (has_layer (LayerFill level) (mapgl a)) eqn:Hf; [done|].
    apply bool_decide_eq_false_1 in Hf.
    destruct (Tiled.STYLES level) as [st|]; [|done]. cbn [snd].
    unfold uniq_app, uniq, Tiled.with_fill_layer. simpl_app. split; [done|].
    destruct (decide (LayerLine level ∈ l_id <$> layers (mapgl a))) as [Hin|Hout].
    + rewrite ids_insert_before by done. by apply NoDup_cons.
    + by rewrite insert_before_absent.
Qed.

(** ** C4 *)

(** C4. [addLevelLayer] is idempotent in both MapLibre clients: calling it
    a second time with the same arguments leaves the map (sources, layers
    with their visibility, handlers) as the first call left it and ends the
    same way; it never duplicates a source or layer id; and in every
    reachable session no two sources and no two layers share an id, so each
    level has at most one source, one line layer and one fill layer. *)
Theorem addLevelLayer_idempotent (a : App) (level : Z) (isVisible : bool) :
  uniq (mapgl a) ->
  (let a1 := exec (Tiled.addLevelLayer level isVisible) a in
   mapgl (exec (Tiled.addLevelLayer level isVisible) a1) = mapgl a1 /\
   (Tiled.addLevelLayer level isVisible a1).1 = (Tiled.addLevelLayer level isVisible a).1 /\
   uniq (mapgl a1)) /\
  (let a1 := exec (AppJs.addLevelLayer level isVisible) a in
   mapgl (exec (AppJs.addLevelLayer level isVisible) a1) = mapgl a1 /\
   (AppJs.addLevelLayer level isVisible a1).1 = (AppJs.addLevelLayer level isVisible a).1 /\
   uniq (mapgl a1)) /\
  (forall catalog s, Tiled.reachable catalog s -> uniq (mapgl s)) /\
  (forall catalog s, AppJs.reachable catalog s -> uniq (mapgl s)).
Proof.
  intros Huniq. split; [|split; [|split]].
  - cbv zeta. destruct (addLevelLayer_idem level isVisible a) as [Hmap Hend].
    split_and!; [done | done | by apply tiled_addLevelLayer_uniq].
  - cbv zeta. destruct (appjs_addLevelLayer_idem level isVisible a) as [Hmap Hend].
    split_and!; [done | done | by apply appjs_addLevelLayer_uniq].
  - intros catalog s Hs. by apply reachable_Inv in Hs as [? _].
  - intros catalog s Hs. by apply appjs_reachable_uniq in Hs.
Qed.

(** ** C5 *)

Lemma tiled_addLevelLayer_sources level isVisible (a : App) :
  has_source (GadmLevel level) (mapgl a) = true ->
  sources (mapgl (exec (Tiled.addLevelLayer level isVisible) a)) = sources (mapgl a).
Proof.
  intros Hs. unfold exec. rewrite addLevelLayer_eq. cbv zeta.
  rewrite ensure_source_eq, Hs. cbn [snd].
  rewrite ensure_line_layer_eq.
  destruct (has_layer (LayerLine level) (mapgl a)) eqn:Hl.
  - rewrite ensure_fill_layer_eq.
    destruct (has_layer (LayerFill level) (mapgl a)); [done|].
    by destruct (Tiled.STYLES level).
  - destruct (Tiled.STYLES level) as [st|]; [|done].
    rewrite ensure_fill_layer_eq.
    destruct (has_layer (LayerFill level) _); [done|].
    by destruct (Tiled.STYLES level).
Qed.

(** C5, as the code has it.  When the source of the level exists,
    [addLevelLayer] does not create it again.  When the line and fill
    layers of the level exist as well, [addLevelLayer] changes nothing at
    all: filter, paint and visibility stay as they are.  Visibility is
    updated in place by the [setLayerVisibility] call that follows
    [addLevelLayer] in [createLevelButton] (and in the click listener of a
    button): for a level that has a style, the layers of the level then
    have the visibility asked for.  The filter is never updated in place.
    A country change that finds the country and whose [fitBounds] the map
    accepts removes the layers of levels 1 to 5 before the buttons are
    rebuilt, so that they are created again: afterwards every layer of a
    level above 0 carries the filter NAME_0 = the name of the new country.
    When [fitBounds] throws, the handler has assigned [currentCountry] and
    stops: the layers stay on the map as they are, with the filter of the
    previous country. *)
Theorem addLevelLayer_leaves_existing_layers (a : App) (level : Z) (isVisible : bool) :
  has_source (GadmLevel level) (mapgl a) = true ->
  sources (mapgl (exec (Tiled.addLevelLayer level isVisible) a)) = sources (mapgl a) /\
  (has_layer (LayerLine level) (mapgl a) = true ->
   has_layer (LayerFill level) (mapgl a) = true ->
   Tiled.addLevelLayer level isVisible a = (Ok tt, a)) /\
  (is_Some (Tiled.STYLES level) ->
   forall l, l ∈ layers (mapgl (exec (Tiled.createLevelButton level isVisible) a)) ->
     l_id l = LayerLine level \/ l_id l = LayerFill level -> visible l = isVisible) /\
  (forall catalog s countryName country v,
     Tiled.reachable catalog s ->
     String.eqb countryName EmptyString = false ->
     List.find (fun c => String.eqb (name c) countryName) (countriesData s) = Some country ->
     fitBounds_view (c_bounds country) = Some v ->
     let s' := Tiled.step (Tiled.ECountryChange countryName) s in
     currentCountry s' = Some country /\
     forall l L, l ∈ layers (mapgl s') ->
       l_id l = LayerLine L \/ l_id l = LayerFill L -> (0 < L)%Z ->
       l_filter l = Some (NameEq (name country))) /\
  (forall s countryName country,
     String.eqb countryName EmptyString = false ->
     List.find (fun c => String.eqb (name c) countryName) (countriesData s) = Some country ->
     fitBounds_view (c_bounds country) = None ->
     let s' := Tiled.step (Tiled.ECountryChange countryName) s in
     currentCountry s' = Some country /\
     layers (mapgl s') = layers (mapgl s)).
Proof.
  intros Hs. split_and!.
  - by apply tiled_addLevelLayer_sources.
  - intros Hl Hf. by apply addLevelLayer_fixed.
  - intros [st Hst] l. unfold exec, Tiled.createLevelButton.
    erewrite bind_ok by reflexivity.
    destruct (addLevelLayer_post level isVisible
                (set_buttons (buttons a ++ [(level, isVisible)]) a)) as [_ Hpost].
    unfold mbind at 1, M_bind at 1.
    destruct (Tiled.addLevelLayer level isVisible _) as [[[]|msg] a1]; cbn [fst snd] in *.
    + rewrite tiled_setLayerVisibility_eq. cbn [snd]. rewrite layers_with_layers.
      intros (l0 & -> & Hl0)%list_elem_of_fmap Hid. rewrite show_level_id in Hid.
      by rewrite show_level_hit.
    + destruct Hpost as (Hnone & _). congruence.
  - intros catalog s countryName country v Hreach Hne Hfind Hfit. cbv zeta.
    cbn [Tiled.step]. unfold exec.
    assert (Hinv : Tiled.Inv (set_select_value countryName s)).
    { apply reachable_Inv in Hreach. revert Hreach. by apply Inv_ext. }
    destruct (handleCountryChange_synced countryName country
                (set_select_value countryName s) v Hne Hfind Hfit Hinv) as [Hcc Hsync].
    split; [done|]. intros l L Hl Hid HL.
    unfold Tiled.synced in Hsync. eapply Forall_forall in Hsync; [|exact Hl].
    unfold Tiled.filtered in Hsync. rewrite Hcc in Hsync.
    destruct Hid as [Hid|Hid]; rewrite Hid in Hsync; rewrite Hsync;
      cbn [Tiled.country_filter]; by rewrite (proj2 (Z.ltb_lt 0 L)).
  - intros s countryName country Hne Hfind Hfit. cbv zeta.
    cbn [Tiled.step]. unfold exec.
    by rewrite (handleCountryChange_rejected_eq countryName country
                  (set_select_value countryName s) Hne Hfind Hfit).
Qed.

(** ** C6 *)

(** C6, as the code has it.  In the client with country filters, the
    reset-view action removes the line and fill layers of levels 1 to 5
    from the map, keeps every other layer, leaves the level-0 line layer
    with the default line colour and width and the level-0 fill layer with
    its default paint, and clears the country selection.  In the client of
    [src/js/app.js] the reset removes nothing: every layer stays on the
    map, those of levels 1 to 5 are hidden and those of level 0 are shown. *)
Theorem reset_view_removes_or_hides (catalog : list Country) (a : App) :
  Tiled.reachable catalog a ->
  (let a' := Tiled.step Tiled.EResetView a in
   (forall i, is_admin_id i -> has_layer i (mapgl a') = false) /\
   (forall i, ~ is_admin_id i -> has_layer i (mapgl a') = has_layer i (mapgl a)) /\
   (forall l, l ∈ layers (mapgl a') -> l_id l = LayerLine 0 ->
      paint l = [(line_color, Lit "#000000"); (line_width, Lit "1")]) /\
   (forall l, l ∈ layers (mapgl a') -> l_id l = LayerFill 0 ->
      paint l = [(fill_color, Lit "transparent"); (fill_opacity, Lit "0");
                 (fill_outline_color, Lit "#000000")]) /\
   currentCountry a' = None) /\
  (forall b : App,
     let b' := AppJs.step AppJs.EResetView b in
     layers (mapgl b') = AppJs.reset_visibility <$> layers (mapgl b) /\
     (forall i, has_layer i (mapgl b') = has_layer i (mapgl b)) /\
     (forall l, l ∈ layers (mapgl b') -> is_admin_id (l_id l) -> visible l = false)).
Proof.
  intros Hreach. apply reachable_Inv in Hreach as (_ & Hstyled & _). split.
  - cbn [Tiled.step]. unfold exec. rewrite reset_view_click_eq. cbn [snd].
    rewrite layers_with_layers. unfold has_layer. simpl_app.
    assert (Hids : forall ls : list Layer,
              l_id <$> (Tiled.restyle0 <$> ls) = l_id <$> ls).
    { intros ls. rewrite <- list_fmap_compose. apply list_fmap_ext.
      intros _ l _. apply restyle0_id. }
    split_and!.
    + intros i Hi. apply bool_decide_eq_false_2. rewrite Hids.
      intros (l & -> & [Hl _]%list_elem_of_filter)%list_elem_of_fmap. done.
    + intros i Hi. apply bool_decide_ext. rewrite Hids, !list_elem_of_fmap.
      split.
      * intros (l & -> & [_ Hl]%list_elem_of_filter). by exists l.
      * intros (l & -> & Hl). exists l. split; [done|].
        by apply list_elem_of_filter.
    + intros l (l0 & -> & [_ Hl0]%list_elem_of_filter)%list_elem_of_fmap Hid.
      rewrite restyle0_id in Hid. unfold Tiled.restyle0. rewrite decide_True by done.
      cbn [paint set_paint]. apply styled_line0_set; [|done].
      by eapply Forall_forall in Hstyled.
    + intros l (l0 & -> & [_ Hl0]%list_elem_of_filter)%list_elem_of_fmap Hid.
      rewrite restyle0_id in Hid. unfold Tiled.restyle0.
      rewrite decide_False by (by rewrite Hid).
      eapply Forall_forall in Hstyled; [|exact Hl0].
      unfold Tiled.styled in Hstyled. rewrite Hid in Hstyled.
      destruct Hstyled as (st & [= <-] & ->). done.
    + done.
  - intros b. cbn [AppJs.step]. unfold exec. rewrite appjs_reset_view_click_eq.
    cbn [snd]. rewrite layers_with_layers. unfold has_layer. simpl_app.
    assert (Hid : forall l, l_id (AppJs.reset_visibility l) = l_id l).
    { intros l. unfold AppJs.reset_visibility. by repeat case_decide. }
    split_and!.
    + done.
    + intros i. rewrite <- list_fmap_compose.
      by rewrite (list_fmap_ext (l_id ∘ AppJs.reset_visibility) l_id _
                    (fun _ l _ => Hid l)).
    + intros l (l0 & -> & Hl0)%list_elem_of_fmap. rewrite Hid. intros Hadm.
      unfold AppJs.reset_visibility. by rewrite decide_True.
Qed.

End ReconcilerTheorems.

(** * Worked inputs for the MapLibre clients *)

Section ReconcilerExamples.
Import MapLibre MapSamples.
#[local] Existing Instance any_corner.

Lemma tiled_reachable_run catalog es a :
  Tiled.reachable catalog a -> Tiled.reachable catalog (Tiled.run es a).
Proof.
  revert a. induction es as [|e es IH]; intros a Ha; [done|].
  apply IH. by constructor.
Qed.

Lemma reachable_wakanda_selected : Tiled.reachable catalog wakanda_selected.
Proof. apply tiled_reachable_run. constructor. Qed.

Lemma addLevelLayer_idempotent_witness :
  let a1 := exec (Tiled.addLevelLayer 1 true) (init_app catalog) in
  mapgl (exec (Tiled.addLevelLayer 1 true) a1) = mapgl a1 /\
  (Tiled.addLevelLayer 1 true a1).1 = (Tiled.addLevelLayer 1 true (init_app catalog)).1 /\
  uniq (mapgl a1).
Proof.
  refine (proj1 (addLevelLayer_idempotent (init_app catalog) 1 true _)).
  split; apply NoDup_singleton.
Defined.

(** A level outside the [STYLES] table: the call throws after adding the
    source, and a second call throws again without touching the map. *)
Example addLevelLayer_level_6 :
  let a1 := exec (Tiled.addLevelLayer 6 true) (init_app catalog) in
  (Tiled.addLevelLayer 6 true (init_app catalog)).1
    = Throw "TypeError: STYLES[level] is undefined" /\
  (sources (mapgl a1)).*1 = [Carto; GadmLevel 6] /\
  l_id <$> layers (mapgl a1) = [Basemap] /\
  mapgl (exec (Tiled.addLevelLayer 6 true) a1) = mapgl a1.
Proof. vm_compute. split_and!; reflexivity. Qed.

(** C5 fails as stated.  With Wakanda selected the layers of level 1 exist
    and are hidden; [addLevelLayer(1, true)] leaves the session exactly as
    it is, so the layers stay hidden.  And selecting another country does
    not update the filter in place: the layers of level 1 are created
    again, which registers the click handler of the fill layer a second
    time. *)
Lemma addLevelLayer_updates_nothing :
  has_layer (LayerLine 1) (mapgl wakanda_selected) = true /\
  has_layer (LayerFill 1) (mapgl wakanda_selected) = true /\
  Tiled.addLevelLayer 1 true wakanda_selected = (Ok tt, wakanda_selected) /\
  visible <$> filter (fun l => l_id l = LayerLine 1 \/ l_id l = LayerFill 1)
                (layers (mapgl (exec (Tiled.addLevelLayer 1 true) wakanda_selected)))
    = [false; false] /\
  (let s := Tiled.step (Tiled.ECountryChange "Elbonia") wakanda_selected in
   filter (fun h => h = ("click", LayerFill 1, 1%Z)) (handlers (mapgl s))
     = [("click", LayerFill 1, 1%Z); ("click", LayerFill 1, 1%Z)] /\
   l_filter <$> filter (fun l => l_id l = LayerLine 1 \/ l_id l = LayerFill 1)
                  (layers (mapgl s))
     = [Some (NameEq "Elbonia"); Some (NameEq "Elbonia")]).
Proof. vm_compute. split_and!; reflexivity. Qed.

Lemma addLevelLayer_leaves_existing_layers_witness :
  Tiled.addLevelLayer 1 true wakanda_selected = (Ok tt, wakanda_selected).
Proof.
  refine (proj1 (proj2
    (addLevelLayer_leaves_existing_layers wakanda_selected 1 true _)) _ _);
    vm_compute; reflexivity.
Defined.

(** A country whose bounds have two entries, selected after Wakanda:
    [map.fitBounds] throws.  [currentCountry] is the new country, while the
    map and the buttons are those of Wakanda, with its filter on the layers
    of level 1. *)
Example short_bounds_keep_previous_layers :
  let s := Tiled.run [Tiled.EMapLoad; Tiled.ECountryChange "Wakanda"]
             (init_app [wakanda; lost]) in
  let s' := Tiled.step (Tiled.ECountryChange "Lost") s in
  (Tiled.handleCountryChange "Lost" (set_select_value "Lost" s)).1
    = Throw "Error: Invalid LngLat object" /\
  currentCountry s' = Some lost /\
  mapgl s' = mapgl s /\
  buttons s' = buttons s /\
  l_filter <$> filter (fun l => l_id l = LayerLine 1 \/ l_id l = LayerFill 1)
                 (layers (mapgl s'))
    = [Some (NameEq "Wakanda"); Some (NameEq "Wakanda")].
Proof. vm_compute. split_and!; reflexivity. Qed.

(** The same selection in the client of [src/js/app.js]: the buttons of
    Wakanda stay. *)
Example appjs_short_bounds_keep_buttons :
  let s := AppJs.run [AppJs.EMapLoad; AppJs.ECountryChange "Wakanda"]
             (init_app [wakanda; lost]) in
  let s' := AppJs.step (AppJs.ECountryChange "Lost") s in
  (AppJs.handleCountryChange "Lost" (set_select_value "Lost" s)).1
    = Throw "Error: Invalid LngLat object" /\
  currentCountry s' = Some lost /\
  mapgl s' = mapgl s /\
  buttons s' = buttons s /\
  buttons s' = [(0%Z, true); (1%Z, false); (2%Z, false)].
Proof. vm_compute. split_and!; reflexivity. Qed.

(** C6 fails as stated in [src/js/app.js]: after the reset view action the
    line and fill layers of level 1 (and 2) are still on the map, hidden. *)
Lemma appjs_reset_only_hides :
  let b' := AppJs.step AppJs.EResetView appjs_level1_shown in
  has_layer (LayerLine 1) (mapgl b') = true /\
  has_layer (LayerFill 1) (mapgl b') = true /\
  l_id <$> layers (mapgl b') =
    [Basemap; LayerFill 0; LayerLine 0; LayerFill 1; LayerLine 1;
     LayerFill 2; LayerLine 2] /\
  visible <$> layers (mapgl appjs_level1_shown) =
    [true; true; true; true; true; false; false] /\
  visible <$> layers (mapgl b') =
    [true; true; true; false; false; false; false].
Proof. vm_compute. split_and!; reflexivity. Qed.

Lemma reset_view_removes_or_hides_witness :
  has_layer (LayerLine 1) (mapgl (Tiled.step Tiled.EResetView wakanda_selected)) = false.
Proof.
  refine (proj1 (proj1
    (reset_view_removes_or_hides catalog wakanda_selected reachable_wakanda_selected))
    (LayerLine 1) _).
  cbn. lia.
Defined.

(** In the client with country filters the reset leaves the basemap and
    the two level-0 layers, with the default line style. *)
Example tiled_reset_view :
  let a' := Tiled.step Tiled.EResetView wakanda_selected in
  l_id <$> layers (mapgl a') = [Basemap; LayerFill 0; LayerLine 0] /\
  paint <$> filter (fun l => l_id l = LayerLine 0) (layers (mapgl a'))
    = [[(line_color, Lit "#000000"); (line_width, Lit "1")]] /\
  paint <$> filter (fun l => l_id l = LayerLine 0) (layers (mapgl wakanda_selected))
    = [[(line_color, CaseNameEq "Wakanda" "#D500F9" "#000000");
        (line_width, CaseNameEq "Wakanda" "4" "1")]].
Proof. vm_compute. split_and!; reflexivity. Qed.

End ReconcilerExamples.

(** * Further properties of the MapLibre clients *)

Section OrderFacts.
Import MapLibre Order.

Lemma fill_below_line_snoc (ids : list layer_id) (x : layer_id) :
  (forall k, x <> LayerFill k) ->
  fill_below_line ids = true -> fill_below_line (ids ++ [x]) = true.
Proof.
  intros Hx. induction ids as [|i rest IH]; cbn [fill_below_line app].
  - destruct x; [done | done | by destruct (Hx level)].
  - intros [Hi Hrest]%andb_true_iff. apply andb_true_iff. split; [|by apply IH].
    destruct i as [| |k]; [done | done |].
    apply bool_decide_eq_true_1 in Hi. apply bool_decide_eq_true_2.
    destruct rest; [done|]. done.
Qed.

Lemma fill_below_line_insert (level : Z) (f : Layer) (ls : list Layer) :
  l_id f = LayerFill level ->
  LayerFill level ∉ l_id <$> ls ->
  fill_below_line (l_id <$> ls) = true ->
  fill_below_line (l_id <$> insert_before (LayerLine level) f ls) = true.
Proof.
  intros Hf. induction ls as [|x rest IH]; [done|].
  rewrite fmap_cons. intros Hout. cbn [fill_below_line insert_before].
  intros [Hx Hrest]%andb_true_iff.
  assert (Hout' : LayerFill level ∉ l_id <$> rest).
  { intros Hin. apply Hout. by right. }
  destruct (decide (l_id x = LayerLine level)) as [Heq|Hne].
  - rewrite !fmap_cons, Hf, Heq. cbn [fill_below_line head].
    rewrite bool_decide_eq_true_2 by done. cbn [andb]. exact Hrest.
  - rewrite fmap_cons. cbn [fill_below_line].
    apply andb_true_iff. split; [|by apply IH].
    destruct (l_id x) as [| |k] eqn:Hid; [done | done |].
    apply bool_decide_eq_true_1 in Hx. apply bool_decide_eq_true_2.
    destruct rest as [|y rest']; [done|].
    cbn [insert_before]. rewrite fmap_cons in Hx. cbn [head] in Hx.
    injection Hx as Hy.
    rewrite decide_False; [by rewrite fmap_cons, Hy|].
    rewrite Hy. intros [= ->]. apply Hout. by left.
Qed.

Lemma fill_below_line_filter (P : layer_id -> Prop) `{forall i, Decision (P i)}
    (ls : list Layer) :
  (forall k, P (LayerFill k) <-> P (LayerLine k)) ->
  fill_below_line (l_id <$> ls) = true ->
  fill_below_line (l_id <$> filter (fun l => P (l_id l)) ls) = true.
Proof.
  intros HP. induction ls as [|x rest IH]; [done|].
  rewrite fmap_cons. cbn [fill_below_line]. intros [Hx Hrest]%andb_true_iff.
  destruct (decide (P (l_id x))) as [Hp|Hp].
  - rewrite filter_cons_True by done. rewrite fmap_cons. cbn [fill_below_line].
    apply andb_true_iff. split; [|by apply IH].
    destruct (l_id x) as [| |k] eqn:Hid; [done | done |].
    apply bool_decide_eq_true_1 in Hx. apply bool_decide_eq_true_2.
    destruct rest as [|y rest']; [done|].
    rewrite fmap_cons in Hx. cbn [head] in Hx. injection Hx as Hy.
    rewrite filter_cons_True by (rewrite Hy; by apply HP).
    by rewrite fmap_cons, Hy.
  - rewrite filter_cons_False by done. by apply IH.
Qed.

Lemma ids_fmap_preserved (f : Layer -> Layer) (ls : list Layer) :
  (forall l, l_id (f l) = l_id l) -> l_id <$> (f <$> ls) = l_id <$> ls.
Proof.
  intros Hid. rewrite <- list_fmap_compose. apply list_fmap_ext.
  intros _ l _. apply Hid.
Qed.

(** A fill layer directly below its line layer, read as a statement about
    the list of layer ids. *)
Lemma fill_below_line_spec (ids : list layer_id) (level : Z) :
  fill_below_line ids = true ->
  LayerFill level ∈ ids ->
  exists before after, ids = before ++ LayerFill level :: LayerLine level :: after.
Proof.
  induction ids as [|i rest IH]; [by intros _ ?%elem_of_nil|].
  cbn [fill_below_line]. intros [Hi Hrest]%andb_true_iff [<-|Hin]%elem_of_cons.
  - apply bool_decide_eq_true_1 in Hi. destruct rest as [|y rest']; [done|].
    cbn [head] in Hi. injection Hi as ->. by exists [], rest'.
  - destruct (IH Hrest Hin) as (before & after & ->).
    by exists (i :: before), after.
Qed.

End OrderFacts.

Section TiledOrder.
Import MapLibre Order.
Context `{MapLibreLibrary}.

Lemma ordered_ext (a a' : App) :
  l_id <$> layers (mapgl a') = l_id <$> layers (mapgl a) -> ordered a -> ordered a'.
Proof. unfold ordered. by intros ->. Qed.

Lemma ordered_fmap (f : Layer -> Layer) (a : App) :
  (forall l, l_id (f l) = l_id l) ->
  ordered a -> ordered (with_layers (f <$> layers (mapgl a)) a).
Proof.
  intros Hid. apply ordered_ext. rewrite layers_with_layers.
  by apply ids_fmap_preserved.
Qed.

Lemma fill_below_line_non_admin (ls : list Layer) :
  fill_below_line (l_id <$> ls) = true ->
  fill_below_line (l_id <$> filter (fun l => ~ is_admin_id (l_id l)) ls) = true.
Proof.
  intros Hls.
  exact (fill_below_line_filter (fun i => ~ is_admin_id i) ls
           (fun k => reflexivity _) Hls).
Qed.

Lemma ordered_non_admin (a : App) :
  ordered a ->
  ordered (with_layers (filter (fun l => ~ is_admin_id (l_id l)) (layers (mapgl a))) a).
Proof.
  unfold ordered. rewrite layers_with_layers. apply fill_below_line_non_admin.
Qed.

Lemma ordered_snoc_line (level : Z) (l : Layer) (ls : list Layer) (a : App) :
  l_id l = LayerLine level ->
  fill_below_line (l_id <$> ls) = true ->
  fill_below_line (l_id <$> (ls ++ [l])) = true.
Proof.
  intros Hl Hls. rewrite fmap_app. cbn [fmap list_fmap].
  apply fill_below_line_snoc; [|done]. by rewrite Hl.
Qed.

Lemma tiled_addLevelLayer_ordered level isVisible :
  preserves ordered (Tiled.addLevelLayer level isVisible).
Proof.
  unfold Tiled.addLevelLayer.
  apply preserves_bind; [|intros _; apply preserves_bind; [|intros _]].
  - intros a Ha. rewrite ensure_source_eq. cbn [snd].
    by destruct (has_source (GadmLevel level) (mapgl a)).
  - intros a Ha. rewrite ensure_line_layer_eq.
    destruct (has_layer (LayerLine level) (mapgl a)); [done|].
    destruct (Tiled.STYLES level) as [st|]; cbn [snd]; [|done].
    unfold ordered, Tiled.with_line_layer, Tiled.line_log. simpl_app.
    by eapply (ordered_snoc_line level).
  - intros a Ha. rewrite ensure_fill_layer_eq.
    destruct (has_layer (LayerFill level) (mapgl a)) eqn:Hf; [done|].
    destruct (Tiled.STYLES level) as [st|]; cbn [snd]; [|done].
    apply bool_decide_eq_false_1 in Hf.
    unfold ordered, Tiled.with_fill_layer. simpl_app.
    by apply fill_below_line_insert.
Qed.

Lemma tiled_setLayerVisibility_ordered level isVisible :
  preserves ordered (Tiled.setLayerVisibility level isVisible).
Proof.
  intros a Ha. rewrite tiled_setLayerVisibility_eq. cbn [snd].
  apply ordered_fmap; [|done]. apply show_level_id.
Qed.

Lemma tiled_createLevelButton_ordered level active :
  preserves ordered (Tiled.createLevelButton level active).
Proof.
  unfold Tiled.createLevelButton. pres.
  - by apply preserves_modify.
  - apply tiled_addLevelLayer_ordered.
  - apply tiled_setLayerVisibility_ordered.
Qed.

Lemma tiled_step_ordered e a : ordered a -> ordered (Tiled.step e a).
Proof.
  intros Ha. destruct e as [|value|idx|]; cbn [Tiled.step].
  - by apply tiled_addLevelLayer_ordered.
  - assert (Ha' : ordered (set_select_value value a)) by done.
    revert Ha'. generalize (set_select_value value a). clear a Ha. intros a Ha.
    unfold exec.
    destruct (String.eqb value EmptyString) eqn:Hv.
    + apply String.eqb_eq in Hv as ->. rewrite handleCountryChange_empty_eq.
      cbn [snd]. unfold ordered. rewrite layers_with_layers.
      rewrite (ids_fmap_preserved _ _ restyle0_id).
      by apply fill_below_line_non_admin.
    + destruct (List.find (fun c => String.eqb (name c) value) (countriesData a))
        as [country|] eqn:Hfind.
      * destruct (fitBounds_view (c_bounds country)) as [v|] eqn:Hfit;
          [|rewrite (handleCountryChange_rejected_eq _ _ _ Hv Hfind Hfit); done].
        rewrite (handleCountryChange_found_eq _ _ _ _ Hv Hfind Hfit).
        assert (Hup : preserves ordered (Tiled.updateAdminLevelUI country)).
        { unfold Tiled.updateAdminLevelUI. pres;
            [by apply preserves_modify | by apply preserves_modify | ..];
            apply tiled_createLevelButton_ordered. }
        apply Hup. unfold ordered. rewrite layers_with_layers.
        apply fill_below_line_non_admin.
        by rewrite (ids_fmap_preserved _ _ (highlight0_id (name country))).
      * by rewrite (handleCountryChange_unknown_eq _ _ Hv Hfind).
  - unfold Tiled.button_click.
    assert (Hc : preserves ordered (Tiled.button_click idx)).
    { unfold Tiled.button_click. apply preserves_bind; [apply preserves_gets|].
      intros bs. destruct (bs !! idx) as [[level active]|]; [|apply preserves_ret].
      pres.
      - by apply preserves_modify.
      - apply tiled_addLevelLayer_ordered.
      - apply tiled_setLayerVisibility_ordered. }
    by apply Hc.
  - unfold exec. rewrite reset_view_click_eq. cbn [snd].
    unfold ordered. rewrite layers_with_layers.
    rewrite (ids_fmap_preserved _ _ restyle0_id).
    by apply fill_below_line_non_admin.
Qed.

End TiledOrder.

Section SessionRules.
Import MapLibre.
Context `{MapLibreLibrary}.

(** A property of the session that every block of [addLevelLayer] keeps is
    kept by [addLevelLayer], whether it returns or throws. *)
Lemma tiled_addLevelLayer_preserves (I : App -> Prop) level isVisible :
  (forall a, I a -> I (Tiled.with_source level a)) ->
  (forall a, I a -> I (Tiled.line_log level a)) ->
  (forall a st, Tiled.STYLES level = Some st ->
     has_layer (LayerLine level) (mapgl a) = false ->
     I a -> I (Tiled.with_line_layer level isVisible st a)) ->
  (forall a st, Tiled.STYLES level = Some st ->
     has_layer (LayerFill level) (mapgl a) = false ->
     I a -> I (Tiled.with_fill_layer level isVisible st a)) ->
  preserves I (Tiled.addLevelLayer level isVisible).
Proof.
  intros Hsrc Hlog Hline Hfill. unfold Tiled.addLevelLayer.
  apply preserves_bind; [|intros _; apply preserves_bind; [|intros _]].
  - intros a Ha. rewrite ensure_source_eq. cbn [snd].
    destruct (has_source (GadmLevel level) (mapgl a)); [done | by apply Hsrc].
  - intros a Ha. rewrite ensure_line_layer_eq.
    destruct (has_layer (LayerLine level) (mapgl a)) eqn:Hl; [done|].
    destruct (Tiled.STYLES level) as [st|] eqn:Hst; cbn [snd];
      [by apply Hline | by apply Hlog].
  - intros a Ha. rewrite ensure_fill_layer_eq.
    destruct (has_layer (LayerFill level) (mapgl a)) eqn:Hf; [done|].
    destruct (Tiled.STYLES level) as [st|] eqn:Hst; cbn [snd]; [by apply Hfill | done].
Qed.

Lemma appjs_addLevelLayer_preserves (I : App -> Prop) level isVisible :
  (forall a, I a -> I (Tiled.with_source level a)) ->
  (forall a st, AppJs.STYLES level = Some st ->
     has_layer (LayerLine level) (mapgl a) = false ->
     I a -> I (AppJs.with_line_layer level isVisible st a)) ->
  (forall a st, AppJs.STYLES level = Some st ->
     has_layer (LayerFill level) (mapgl a) = false ->
     I a -> I (AppJs.with_fill_layer level isVisible st a)) ->
  preserves I (AppJs.addLevelLayer level isVisible).
Proof.
  intros Hsrc Hline Hfill. unfold AppJs.addLevelLayer.
  apply preserves_bind; [|intros _; apply preserves_bind; [|intros _]].
  - intros a Ha. rewrite appjs_ensure_source_eq. cbn [snd].
    destruct (has_source (GadmLevel level) (mapgl a)); [done | by apply Hsrc].
  - intros a Ha. rewrite appjs_ensure_line_layer_eq.
    destruct (has_layer (LayerLine level) (mapgl a)) eqn:Hl; [done|].
    destruct (AppJs.STYLES level) as [st|] eqn:Hst; cbn [snd]; [by apply Hline | done].
  - intros a Ha. rewrite appjs_ensure_fill_layer_eq.
    destruct (has_layer (LayerFill level) (mapgl a)) eqn:Hf; [done|].
    destruct (AppJs.STYLES level) as [st|] eqn:Hst; cbn [snd]; [by apply Hfill | done].
Qed.

(** A property of the map that [addLevelLayer] and [setLayerVisibility]
    keep holds along every session of the client of [src/js/app.js]: its
    handlers do nothing else to the map but move the viewport. *)
Lemma appjs_step_preserves (I : App -> Prop) :
  (forall a a', sources (mapgl a') = sources (mapgl a) ->
                layers (mapgl a') = layers (mapgl a) ->
                handlers (mapgl a') = handlers (mapgl a) -> I a -> I a') ->
  (forall level v, preserves I (AppJs.addLevelLayer level v)) ->
  (forall level v, preserves I (AppJs.setLayerVisibility level v)) ->
  forall e a, I a -> I (AppJs.step e a).
Proof.
  intros Hext Hadd Hvis e a Ha.
  assert (Hmod : forall f : App -> App,
            (forall a, sources (mapgl (f a)) = sources (mapgl a) /\
                       layers (mapgl (f a)) = layers (mapgl a) /\
                       handlers (mapgl (f a)) = handlers (mapgl a)) ->
            preserves I (modify f)).
  { intros f Hf. apply preserves_modify. intros a0.
    destruct (Hf a0) as (? & ? & ?). by apply Hext. }
  assert (Hbtn : forall level v, preserves I (AppJs.createLevelButton level v)).
  { intros level v. unfold AppJs.createLevelButton. pres; [by apply Hmod | apply Hadd | apply Hvis]. }
  destruct e as [|value|idx|]; cbn [AppJs.step].
  - by apply Hadd.
  - assert (Ha' : I (set_select_value value a)) by (by apply (Hext a)).
    revert Ha'. generalize (set_select_value value a). clear a Ha. intros a Ha.
    revert a Ha. change (preserves I (AppJs.handleCountryChange value)).
    unfold AppJs.handleCountryChange. destruct (String.eqb value EmptyString).
    { apply preserves_ret. }
    apply preserves_bind; [apply preserves_gets|]. intros data.
    destruct (List.find _ data) as [country|]; [|apply preserves_ret].
    apply preserves_bind; [by apply Hmod | intros _].
    apply preserves_bind; [|intros _].
    { apply preserves_fitBounds. intros a0 v. by apply Hext. }
    unfold AppJs.updateAdminLevelUI. pres; try (by apply Hmod); apply Hbtn.
  - revert a Ha. change (preserves I (AppJs.button_click idx)).
    unfold AppJs.button_click. apply preserves_bind; [apply preserves_gets|]. intros bs.
    destruct (bs !! idx) as [[level active]|]; [|apply preserves_ret].
    pres; [by apply Hmod | apply Hadd | apply Hvis].
  - revert a Ha. change (preserves I AppJs.reset_view_click).
    unfold AppJs.reset_view_click, AppJs.resetAdminLevels.
    pres; try (by apply Hmod); apply Hvis.
Qed.

Lemma appjs_reachable_preserves (I : App -> Prop) catalog :
  I (init_app catalog) ->
  (forall e a, I a -> I (AppJs.step e a)) ->
  forall a, AppJs.reachable catalog a -> I a.
Proof.
  intros Hinit Hstep a Hreach. induction Hreach as [|e a _ IH]; [done|].
  by apply Hstep.
Qed.

End SessionRules.

Section AppJsOrder.
Import MapLibre Order.
Context `{MapLibreLibrary}.

Lemma appjs_addLevelLayer_ordered level isVisible :
  preserves ordered (AppJs.addLevelLayer level isVisible).
Proof.
  apply appjs_addLevelLayer_preserves.
  - done.
  - intros a st _ _ Ha. unfold ordered, AppJs.with_line_layer. simpl_app.
    by eapply (ordered_snoc_line level).
  - intros a st _ Hf%bool_decide_eq_false_1 Ha.
    unfold ordered, AppJs.with_fill_layer. simpl_app.
    by apply fill_below_line_insert.
Qed.

Lemma appjs_setLayerVisibility_ordered level isVisible :
  preserves ordered (AppJs.setLayerVisibility level isVisible).
Proof.
  intros a Ha. rewrite appjs_setLayerVisibility_eq. cbn [snd].
  apply ordered_fmap; [|done]. apply show_level_id.
Qed.

Lemma appjs_step_ordered e a : ordered a -> ordered (AppJs.step e a).
Proof.
  apply appjs_step_preserves.
  - intros a0 a' _ Hl _. apply ordered_ext. by rewrite Hl.
  - apply appjs_addLevelLayer_ordered.
  - apply appjs_setLayerVisibility_ordered.
Qed.

End AppJsOrder.

Section TiledSession.
Import MapLibre Order.
Context `{MapLibreLibrary}.

Lemma insert_before_keeps (b : layer_id) (l : Layer) (ls : list Layer) x :
  x ∈ ls -> x ∈ insert_before b l ls.
Proof.
  induction ls as [|y ls IH]; [done|]. cbn [insert_before].
  intros [->|Hin]%elem_of_cons.
  - destruct (decide (l_id y = b)); [right; by left | by left].
  - destruct (decide (l_id y = b)); [right; by right | right; by apply IH].
Qed.

Lemma has_layer_absorb (i b : layer_id) (m : MapState) :
  has_layer b m = true -> has_layer i m || bool_decide (b = i) = has_layer i m.
Proof.
  intros Hb. destruct (decide (b = i)) as [<-|Hne].
  - by rewrite Hb.
  - rewrite (bool_decide_eq_false_2 _ Hne). apply orb_false_r.
Qed.

(** The three listeners [addLevelLayer] registers with a new fill layer. *)
Lemma tiled_addLevelLayer_ok level isVisible st a :
  Tiled.STYLES level = Some st ->
  exists a1,
    Tiled.addLevelLayer level isVisible a = (Ok tt, a1) /\
    handlers (mapgl a1) =
      handlers (mapgl a) ++
        (if has_layer (LayerFill level) (mapgl a) then []
         else [("click", LayerFill level, level);
               ("mouseenter", LayerFill level, level);
               ("mouseleave", LayerFill level, level)]) /\
    (forall i, has_layer i (mapgl a1) =
                 has_layer i (mapgl a) || bool_decide (LayerLine level = i)
                   || bool_decide (LayerFill level = i)) /\
    buttons a1 = buttons a /\ container_shown a1 = container_shown a /\
    currentCountry a1 = currentCountry a /\ select_value a1 = select_value a /\
    countriesData a1 = countriesData a /\ view (mapgl a1) = view (mapgl a).
Proof.
  intros Hst. rewrite addLevelLayer_eq. cbv zeta. rewrite ensure_source_eq. cbn [snd].
  set (a1 := if has_source (GadmLevel level) (mapgl a) then a
             else Tiled.with_source level a).
  assert (H1 : layers (mapgl a1) = layers (mapgl a) /\
               handlers (mapgl a1) = handlers (mapgl a) /\
               buttons a1 = buttons a /\ container_shown a1 = container_shown a /\
               currentCountry a1 = currentCountry a /\ select_value a1 = select_value a /\
               countriesData a1 = countriesData a /\ view (mapgl a1) = view (mapgl a)).
  { subst a1. by destruct (has_source (GadmLevel level) (mapgl a)). }
  destruct H1 as (Hl1 & Hh1 & Hb1 & Hc1 & Hcc1 & Hs1 & Hd1 & Hv1).
  assert (Hhas1 : forall i, has_layer i (mapgl a1) = has_layer i (mapgl a)).
  { intros i. unfold has_layer. by rewrite Hl1. }
  rewrite ensure_line_layer_eq, Hhas1, Hst.
  destruct (has_layer (LayerLine level) (mapgl a)) eqn:Hline.
  - rewrite ensure_fill_layer_eq, Hhas1, Hst.
    destruct (has_layer (LayerFill level) (mapgl a)) eqn:Hfill.
    + exists a1. split_and!; try done.
      * by rewrite app_nil_r.
      * intros i. by rewrite Hhas1, !has_layer_absorb.
    + eexists. split; [reflexivity|]. split_and!; try done.
      * unfold Tiled.with_fill_layer. simpl_app. by rewrite Hh1, <- !app_assoc.
      * intros i. rewrite has_layer_with_fill_layer by (by rewrite Hhas1).
        by rewrite Hhas1, (has_layer_absorb i (LayerLine level)).
  - set (a2 := Tiled.with_line_layer level isVisible st a1).
    assert (Hhas2 : forall i, has_layer i (mapgl a2) =
                      has_layer i (mapgl a) || bool_decide (LayerLine level = i)).
    { intros i. subst a2. by rewrite has_layer_with_line_layer, Hhas1. }
    rewrite ensure_fill_layer_eq, Hhas2, Hst.
    rewrite (bool_decide_eq_false_2 (LayerLine level = LayerFill level)) by done.
    rewrite orb_false_r.
    destruct (has_layer (LayerFill level) (mapgl a)) eqn:Hfill.
    + exists a2. split_and!; try done.
      * by rewrite app_nil_r.
      * intros i. rewrite Hhas2.
        destruct (decide (LayerFill level = i)) as [<-|Hne].
        -- by rewrite Hfill.
        -- by rewrite (bool_decide_eq_false_2 _ Hne), orb_false_r.
    + eexists. split; [reflexivity|]. split_and!; try done.
      * unfold Tiled.with_fill_layer. simpl_app. subst a2.
        unfold Tiled.with_line_layer, Tiled.line_log. simpl_app.
        by rewrite Hh1, <- !app_assoc.
      * intros i. rewrite has_layer_with_fill_layer.
        -- by rewrite Hhas2.
        -- rewrite Hhas2, (bool_decide_eq_true_2 _ eq_refl). apply orb_true_r.
Qed.

Lemma has_layer_fmap (f : Layer -> Layer) (a : App) i :
  (forall l, l_id (f l) = l_id l) ->
  has_layer i (mapgl (with_layers (f <$> layers (mapgl a)) a)) = has_layer i (mapgl a).
Proof.
  intros Hid. unfold has_layer. rewrite layers_with_layers.
  by rewrite ids_fmap_preserved.
Qed.

Lemma tiled_createLevelButton_ok level active st a :
  Tiled.STYLES level = Some st ->
  exists a',
    Tiled.createLevelButton level active a = (Ok tt, a') /\
    handlers (mapgl a') =
      handlers (mapgl a) ++
        (if has_layer (LayerFill level) (mapgl a) then []
         else [("click", LayerFill level, level);
               ("mouseenter", LayerFill level, level);
               ("mouseleave", LayerFill level, level)]) /\
    (forall i, has_layer i (mapgl a') =
                 has_layer i (mapgl a) || bool_decide (LayerLine level = i)
                   || bool_decide (LayerFill level = i)) /\
    buttons a' = buttons a ++ [(level, active)] /\
    container_shown a' = container_shown a /\
    currentCountry a' = currentCountry a /\ select_value a' = select_value a /\
    countriesData a' = countriesData a /\ view (mapgl a') = view (mapgl a).
Proof.
  intros Hst. unfold Tiled.createLevelButton.
  erewrite bind_ok by reflexivity.
  destruct (tiled_addLevelLayer_ok level active st
              (set_buttons (buttons a ++ [(level, active)]) a) Hst)
    as (a1 & Hadd & Hh & Hhas & Hb & Hc & Hcc & Hs & Hd & Hv).
  erewrite bind_ok by exact Hadd.
  rewrite tiled_setLayerVisibility_eq. eexists. split; [reflexivity|].
  split_and!; try done.
  intros i. rewrite has_layer_fmap by apply show_level_id. apply Hhas.
Qed.

Lemma elem_of_cons_ne (L x : Z) (xs : list Z) :
  x <> L -> L ∈ x :: xs <-> L ∈ xs.
Proof.
  intros Hne. rewrite elem_of_cons. split; [|by right].
  intros [Heq|Hin]; [congruence | done].
Qed.

Lemma listeners_app ev L (m : MapState) hs :
  length (filter (fun h => h = (ev, LayerFill L, L)) (handlers m ++ hs)) =
    listeners ev L m + length (filter (fun h => h = (ev, LayerFill L, L)) hs).
Proof. unfold listeners. by rewrite filter_app, length_app. Qed.

Lemma listeners_of_new_fill ev (L x : Z) :
  ev ∈ ["click"; "mouseenter"; "mouseleave"] ->
  length (filter (fun h => h = (ev, LayerFill L, L))
            [("click", LayerFill x, x); ("mouseenter", LayerFill x, x);
             ("mouseleave", LayerFill x, x)])
    = if bool_decide (x = L) then 1 else 0.
Proof.
  intros Hev. cbn [filter list_filter].
  destruct (decide (x = L)) as [->|Hne].
  - rewrite bool_decide_eq_true_2 by done.
    repeat (apply elem_of_cons in Hev as [->|Hev]); [..|by apply elem_of_nil in Hev];
      repeat case_decide; simplify_eq; done.
  - rewrite bool_decide_eq_false_2 by done.
    repeat case_decide; simplify_eq; done.
Qed.

(** The loop of [updateAdminLevelUI] over levels that all have a style. *)
Lemma tiled_level_buttons_ok (xs : list Z) : forall a,
  Forall (fun L => is_Some (Tiled.STYLES L)) xs ->
  exists a',
    for_each xs (fun level => Tiled.createLevelButton level false) a = (Ok tt, a') /\
    buttons a' = buttons a ++ ((fun L => (L, false)) <$> xs) /\
    (forall i, has_layer i (mapgl a') =
                 has_layer i (mapgl a) ||
                 match level_of i with
                 | Some L => bool_decide (L ∈ xs)
                 | None => false
                 end) /\
    (forall ev L, ev ∈ ["click"; "mouseenter"; "mouseleave"] ->
       listeners ev L (mapgl a') =
         listeners ev L (mapgl a) +
         (if bool_decide (L ∈ xs) && negb (has_layer (LayerFill L) (mapgl a))
          then 1 else 0)) /\
    container_shown a' = container_shown a /\
    currentCountry a' = currentCountry a /\ select_value a' = select_value a.
Proof.
  induction xs as [|x xs IH]; intros a Hxs.
  - exists a. cbn [for_each]. split_and!; [done | | | | done..].
    + by rewrite app_nil_r.
    + intros i. destruct (level_of i); [|by rewrite orb_false_r].
      rewrite bool_decide_eq_false_2 by apply not_elem_of_nil. by rewrite orb_false_r.
    + intros ev L _. rewrite bool_decide_eq_false_2 by apply not_elem_of_nil. cbn. lia.
  - apply Forall_cons in Hxs as [[st Hst] Hxs].
    destruct (tiled_createLevelButton_ok x false st a Hst)
      as (a1 & Hbtn & Hh1 & Hhas1 & Hb1 & Hc1 & Hcc1 & Hs1 & _).
    destruct (IH a1 Hxs) as (a' & Hloop & Hb & Hhas & Hlis & Hc & Hcc & Hs).
    exists a'. cbn [for_each]. erewrite bind_ok by exact Hbtn.
    split_and!.
    + done.
    + by rewrite Hb, Hb1, fmap_cons, <- app_assoc.
    + intros i. rewrite Hhas, Hhas1.
      destruct i as [|L|L]; cbn [level_of].
      * rewrite !(bool_decide_eq_false_2 (_ = Basemap)) by done. by rewrite !orb_false_r.
      * rewrite (bool_decide_eq_false_2 (LayerFill x = LayerLine L)) by done.
        rewrite orb_false_r, <- orb_assoc. f_equal.
        destruct (decide (x = L)) as [->|Hne].
        -- rewrite (bool_decide_eq_true_2 (LayerLine L = LayerLine L)) by done.
           by rewrite (bool_decide_eq_true_2 (L ∈ L :: xs)) by (by left).
        -- rewrite (bool_decide_eq_false_2 (LayerLine x = LayerLine L)) by congruence.
           cbn [orb]. apply bool_decide_ext. symmetry. by apply elem_of_cons_ne.
      * rewrite (bool_decide_eq_false_2 (LayerLine x = LayerFill L)) by done.
        rewrite orb_false_r, <- orb_assoc. f_equal.
        destruct (decide (x = L)) as [->|Hne].
        -- rewrite (bool_decide_eq_true_2 (LayerFill L = LayerFill L)) by done.
           by rewrite (bool_decide_eq_true_2 (L ∈ L :: xs)) by (by left).
        -- rewrite (bool_decide_eq_false_2 (LayerFill x = LayerFill L)) by congruence.
           cbn [orb]. apply bool_decide_ext. symmetry. by apply elem_of_cons_ne.
    + intros ev L Hev. rewrite (Hlis ev L Hev). unfold listeners at 1. rewrite Hh1.
      rewrite listeners_app, Hhas1.
      rewrite (bool_decide_eq_false_2 (LayerLine x = LayerFill L)) by done.
      rewrite orb_false_r.
      destruct (has_layer (LayerFill x) (mapgl a)) eqn:Hfx.
      * cbn [filter list_filter length].
        destruct (decide (x = L)) as [->|Hne].
        -- rewrite Hfx. cbn [orb negb]. rewrite !andb_false_r. lia.
        -- rewrite (bool_decide_eq_false_2 (LayerFill x = LayerFill L)) by congruence.
           rewrite orb_false_r.
           rewrite (bool_decide_ext (L ∈ x :: xs) (L ∈ xs)); [lia|].
           by apply elem_of_cons_ne.
      * rewrite (listeners_of_new_fill ev L x Hev).
        destruct (decide (x = L)) as [->|Hne].
        -- rewrite Hfx.
           rewrite (bool_decide_eq_true_2 (L = L)) by done.
           rewrite (bool_decide_eq_true_2 (LayerFill L = LayerFill L)) by done.
           rewrite (bool_decide_eq_true_2 (L ∈ L :: xs)) by (by left).
           rewrite orb_true_r. cbn [negb andb orb]. rewrite andb_false_r. lia.
        -- rewrite (bool_decide_eq_false_2 (x = L)) by done.
           rewrite (bool_decide_eq_false_2 (LayerFill x = LayerFill L)) by congruence.
           rewrite orb_false_r.
           rewrite (bool_decide_ext (L ∈ x :: xs) (L ∈ xs)); [lia|].
           by apply elem_of_cons_ne.
    + by rewrite Hc, Hc1.
    + by rewrite Hcc, Hcc1.
    + by rewrite Hs, Hs1.
Qed.

End TiledSession.

Section SessionInvariants.
Import MapLibre Order.
Context `{MapLibreLibrary}.

Lemma preserves_for_each_elem {A : Type} I (xs : list A) (body : A -> M unit) :
  (forall x, x ∈ xs -> preserves I (body x)) -> preserves I (for_each xs body).
Proof.
  induction xs as [|x xs IH]; intros Hbody; cbn [for_each].
  - apply preserves_ret.
  - apply preserves_bind; [apply Hbody; by left|]. intros _.
    apply IH. intros y Hy. apply Hbody. by right.
Qed.

(** A property of the map that the layer operations of the client with
    country filters keep holds after each of its event handlers. *)
Lemma tiled_step_preserves (I : App -> Prop) :
  (forall a a', sources (mapgl a') = sources (mapgl a) ->
                layers (mapgl a') = layers (mapgl a) ->
                handlers (mapgl a') = handlers (mapgl a) -> I a -> I a') ->
  (forall level v, preserves I (Tiled.addLevelLayer level v)) ->
  (forall f a, (forall l, l_id (f l) = l_id l) ->
     I a -> I (with_layers (f <$> layers (mapgl a)) a)) ->
  (forall a, I a ->
     I (with_layers (filter (fun l => ~ is_admin_id (l_id l)) (layers (mapgl a))) a)) ->
  forall e a, I a -> I (Tiled.step e a).
Proof.
  intros Hext Hadd Hfmap Hrem e a Ha.
  assert (Hvis : forall level v, preserves I (Tiled.setLayerVisibility level v)).
  { intros level v a0 Ha0. rewrite tiled_setLayerVisibility_eq. cbn [snd].
    apply Hfmap; [apply show_level_id | done]. }
  assert (Hbtn : forall level v, preserves I (Tiled.createLevelButton level v)).
  { intros level v. unfold Tiled.createLevelButton.
    pres; [apply preserves_modify; intros a0; by apply Hext | apply Hadd | apply Hvis]. }
  assert (Hcleared : forall a0, I a0 ->
            I (with_layers (Tiled.restyle0 <$> filter (fun l => ~ is_admin_id (l_id l))
                                               (layers (mapgl a0))) a0)).
  { intros a0 Ha0. apply Hrem in Ha0.
    apply (Hfmap Tiled.restyle0 _ restyle0_id) in Ha0. revert Ha0. by apply Hext. }
  destruct e as [|value|idx|]; cbn [Tiled.step].
  - by apply Hadd.
  - assert (Ha' : I (set_select_value value a)) by (by apply (Hext a)).
    revert Ha'. generalize (set_select_value value a). clear a Ha. intros a Ha.
    unfold exec.
    destruct (String.eqb value EmptyString) eqn:Hv.
    + apply String.eqb_eq in Hv as ->. rewrite handleCountryChange_empty_eq.
      cbn [snd]. apply Hcleared in Ha. revert Ha. by apply Hext.
    + destruct (List.find (fun c => String.eqb (name c) value) (countriesData a))
        as [country|] eqn:Hfind.
      * destruct (fitBounds_view (c_bounds country)) as [v|] eqn:Hfit;
          [|rewrite (handleCountryChange_rejected_eq _ _ _ Hv Hfind Hfit); cbn [snd]; revert Ha; by apply Hext].
        rewrite (handleCountryChange_found_eq _ _ _ _ Hv Hfind Hfit).
        assert (Hup : preserves I (Tiled.updateAdminLevelUI country)).
        { unfold Tiled.updateAdminLevelUI.
          pres; [apply preserves_modify; intros a0; by apply Hext
                | apply preserves_modify; intros a0; by apply Hext | ..];
            apply Hbtn. }
        apply Hup.
        apply (Hfmap (Tiled.highlight0 (name country)) _ (highlight0_id _)) in Ha.
        apply Hrem in Ha. revert Ha. by apply Hext.
      * by rewrite (handleCountryChange_unknown_eq _ _ Hv Hfind).
  - revert a Ha. change (preserves I (Tiled.button_click idx)).
    unfold Tiled.button_click. apply preserves_bind; [apply preserves_gets|].
    intros bs. destruct (bs !! idx) as [[level active]|]; [|apply preserves_ret].
    pres; [apply preserves_modify; intros a0; by apply Hext | apply Hadd | apply Hvis].
  - unfold exec. rewrite reset_view_click_eq. cbn [snd].
    apply Hcleared in Ha. revert Ha. by apply Hext.
Qed.

(** Sources and listeners only grow. *)
Lemma tiled_addLevelLayer_grows (a0 : App) level v :
  preserves (fun a => sources (mapgl a0) `prefix_of` sources (mapgl a) /\
                      handlers (mapgl a0) `prefix_of` handlers (mapgl a))
    (Tiled.addLevelLayer level v).
Proof.
  apply tiled_addLevelLayer_preserves.
  - intros a [Hs Hh]. unfold Tiled.with_source. simpl_app.
    split; [by apply prefix_app_r | done].
  - by intros a [Hs Hh].
  - by intros a st _ _ [Hs Hh].
  - intros a st _ _ [Hs Hh]. unfold Tiled.with_fill_layer. simpl_app.
    split; [done|]. by do 3 apply prefix_app_r.
Qed.

Lemma appjs_addLevelLayer_grows (a0 : App) level v :
  preserves (fun a => sources (mapgl a0) `prefix_of` sources (mapgl a) /\
                      handlers (mapgl a0) `prefix_of` handlers (mapgl a))
    (AppJs.addLevelLayer level v).
Proof.
  apply appjs_addLevelLayer_preserves.
  - intros a [Hs Hh]. unfold Tiled.with_source. simpl_app.
    split; [by apply prefix_app_r | done].
  - by intros a st _ _ [Hs Hh].
  - intros a st _ _ [Hs Hh]. unfold AppJs.with_fill_layer. simpl_app.
    split; [done|]. by do 3 apply prefix_app_r.
Qed.

End SessionInvariants.

(** * The MapLibre clients along a session *)

Section MapLibreSession.
Import MapLibre Order MapSamples.
Context `{MapLibreLibrary}.

(** X1. "Place fill below line" holds throughout: in every session of
    either MapLibre client, a fill layer that is on the map is directly
    followed in drawing order by the line layer of its level, so no other
    layer is ever drawn between a fill and its outline. *)
Theorem fill_layer_below_line (catalog : list Country) (a : App) (level : Z) :
  Tiled.reachable catalog a \/ AppJs.reachable catalog a ->
  has_layer (LayerFill level) (mapgl a) = true ->
  exists before after,
    l_id <$> layers (mapgl a) = before ++ LayerFill level :: LayerLine level :: after.
Proof.
  intros Hreach Hfill%bool_decide_eq_true_1.
  apply fill_below_line_spec; [|done]. clear Hfill.
  change (ordered a).
  destruct Hreach as [Hreach|Hreach].
  - induction Hreach as [|e a _ IH]; [reflexivity|]. by apply tiled_step_ordered.
  - induction Hreach as [|e a _ IH]; [reflexivity|]. by apply appjs_step_ordered.
Qed.

(** X2. Neither MapLibre client ever removes a source or a listener: after
    any event the sources and the listeners registered with [map.on] before
    it are still there, in the same order, also when the handler removes
    layers or stops with an exception. *)
Theorem sources_and_listeners_never_removed (a : App) :
  (forall e, sources (mapgl a) `prefix_of` sources (mapgl (Tiled.step e a)) /\
             handlers (mapgl a) `prefix_of` handlers (mapgl (Tiled.step e a))) /\
  (forall e, sources (mapgl a) `prefix_of` sources (mapgl (AppJs.step e a)) /\
             handlers (mapgl a) `prefix_of` handlers (mapgl (AppJs.step e a))).
Proof.
  split; intros e.
  - apply (tiled_step_preserves
             (fun a' => sources (mapgl a) `prefix_of` sources (mapgl a') /\
                        handlers (mapgl a) `prefix_of` handlers (mapgl a'))).
    + by intros a1 a2 -> _ ->.
    + apply tiled_addLevelLayer_grows.
    + by intros f a1 _.
    + by intros a1.
    + done.
  - apply (appjs_step_preserves
             (fun a' => sources (mapgl a) `prefix_of` sources (mapgl a') /\
                        handlers (mapgl a) `prefix_of` handlers (mapgl a'))).
    + by intros a1 a2 -> _ ->.
    + apply appjs_addLevelLayer_grows.
    + intros level v a1 Ha1. rewrite appjs_setLayerVisibility_eq. by cbn [snd].
    + done.
Qed.

Lemma tiled_STYLES_some (level : Z) :
  (0 <= level <= 5)%Z -> is_Some (Tiled.STYLES level).
Proof.
  intros Hl.
  assert (level = 0 \/ level = 1 \/ level = 2 \/ level = 3 \/ level = 4 \/ level = 5)%Z
    as Hcases by lia.
  destruct Hcases as [ -> | [ -> | [ -> | [ -> | [ -> | -> ]]]]]; by eexists.
Qed.


(** [updateAdminLevelUI] for a country whose levels all have a style. *)
Lemma tiled_updateAdminLevelUI_ok (country : Country) (a : App) :
  Forall (fun l => (0 <= l <= 5)%Z) (admin_levels country) ->
  exists a',
    Tiled.updateAdminLevelUI country a = (Ok tt, a') /\
    buttons a' = (0%Z, true) :: ((fun L => (L, false)) <$> admin_levels country) /\
    container_shown a' = true /\
    currentCountry a' = currentCountry a /\ select_value a' = select_value a /\
    (forall L, (1 <= L <= 5)%Z ->
       has_layer (LayerLine L) (mapgl a') =
         has_layer (LayerLine L) (mapgl a) || bool_decide (L ∈ admin_levels country) /\
       has_layer (LayerFill L) (mapgl a') =
         has_layer (LayerFill L) (mapgl a) || bool_decide (L ∈ admin_levels country)) /\
    (forall ev L, (1 <= L <= 5)%Z -> ev ∈ ["click"; "mouseenter"; "mouseleave"] ->
       listeners ev L (mapgl a') =
         listeners ev L (mapgl a) +
         (if bool_decide (L ∈ admin_levels country)
             && negb (has_layer (LayerFill L) (mapgl a))
          then 1 else 0)).
Proof.
  intros Hrange. unfold Tiled.updateAdminLevelUI.
  do 2 (erewrite bind_ok by reflexivity).
  destruct (tiled_STYLES_some 0) as [st0 Hst0]; [lia|].
  destruct (tiled_createLevelButton_ok 0 true st0
              (set_buttons [] (set_container_shown true a)) Hst0)
    as (a1 & Hbtn & Hh1 & Hhas1 & Hb1 & Hc1 & Hcc1 & Hs1 & _).
  erewrite bind_ok by exact Hbtn.
  destruct (tiled_level_buttons_ok (admin_levels country) a1)
    as (a' & Hloop & Hb & Hhas & Hlis & Hc & Hcc & Hs).
  { eapply Forall_impl; [exact Hrange|]. intros l. apply tiled_STYLES_some. }
  exists a'. split; [done|].
  assert (Hadm : forall L i, (1 <= L <= 5)%Z -> i = LayerLine L \/ i = LayerFill L ->
            has_layer i (mapgl a1) = has_layer i (mapgl a)).
  { intros L i HL Hi. rewrite Hhas1. simpl_app.
    rewrite (bool_decide_eq_false_2 (LayerLine 0 = i)),
            (bool_decide_eq_false_2 (LayerFill 0 = i));
      [by rewrite !orb_false_r|..];
      destruct Hi as [ -> | -> ]; intros [= <-]; lia. }
  split_and!.
  - by rewrite Hb, Hb1.
  - by rewrite Hc, Hc1.
  - by rewrite Hcc, Hcc1.
  - by rewrite Hs, Hs1.
  - intros L HL. rewrite !Hhas. cbn [level_of].
    by rewrite (Hadm L (LayerLine L)), (Hadm L (LayerFill L)); auto.
  - intros ev L HL Hev. rewrite (Hlis ev L Hev).
    rewrite (Hadm L (LayerFill L)) by auto. f_equal.
    unfold listeners. rewrite Hh1. simpl_app.
    rewrite filter_app, length_app.
    destruct (has_layer (LayerFill 0) _); [cbn; lia|].
    rewrite (listeners_of_new_fill ev L 0 Hev).
    rewrite bool_decide_eq_false_2 by lia. lia.
Qed.


Lemma tiled_createLevelButton_hidden c lvls (L : Z) (v : bool) :
  ((1 <= L <= 5)%Z -> v = false /\ L ∈ lvls) ->
  preserves (fun a => currentCountry a = c /\ admin_hidden lvls a)
    (Tiled.createLevelButton L v).
Proof.
  intros Hc.
  assert (Hnew : forall l, l_id l = LayerLine L \/ l_id l = LayerFill L ->
            visible l = v -> is_admin_id (l_id l) ->
            visible l = false /\ exists L0, level_of (l_id l) = Some L0 /\ L0 ∈ lvls).
  { intros l Hid Hvis Hadm.
    assert (HL : (1 <= L <= 5)%Z) by (destruct Hid as [Hid|Hid]; by rewrite Hid in Hadm).
    destruct (Hc HL) as [Hv Hin]. split; [congruence|].
    exists L. by destruct Hid as [ -> | -> ]. }
  unfold Tiled.createLevelButton. pres.
  - apply preserves_modify. by intros a [? ?].
  - apply tiled_addLevelLayer_preserves.
    + by intros a [? ?].
    + by intros a [? ?].
    + intros a st _ _ [Hcc Hk]. split; [done|]. intros l Hl Hadm.
      unfold Tiled.with_line_layer in Hl. rewrite layers_with_layers in Hl.
      apply elem_of_app in Hl as [Hl| ->%list_elem_of_singleton]; [by apply Hk|].
      apply Hnew; [by left | done | done].
    + intros a st _ _ [Hcc Hk]. split; [done|]. intros l Hl Hadm.
      unfold Tiled.with_fill_layer in Hl. simpl_app.
      apply insert_before_elem in Hl as [ -> |Hl]; [|by apply Hk].
      apply Hnew; [by right | done | done].
  - intros a [Hcc Hk]. rewrite tiled_setLayerVisibility_eq. cbn [snd].
    split; [done|]. intros l' Hl' Hadm. rewrite layers_with_layers in Hl'.
    apply list_elem_of_fmap in Hl' as (l & -> & Hl).
    rewrite show_level_id in *. unfold show_level.
    case_decide as Hid; [|by apply Hk].
    destruct (Hk l Hl Hadm) as [_ Hlvl].
    destruct (Hnew (set_visible v l) Hid eq_refl Hadm) as [Hvis _]. done.
Qed.

(** X4. What selecting a country whose bounds the map accepts leaves on
    the map, in the client with country filters: the country is current;
    every layer of levels 1 to 5 on the map is hidden, belongs to a level
    of the country and is filtered to the country; and when all levels of
    the country have a style, the handler returns with one button per level
    after the active "Country Boundary" button, and the line and fill
    layers of each level of the country exist. *)
Theorem country_change_builds_levels
    (catalog : list Country) (a : App) (value : string) (country : Country) :
  Tiled.reachable catalog a ->
  String.eqb value EmptyString = false ->
  List.find (fun c => String.eqb (name c) value) (countriesData a) = Some country ->
  is_Some (fitBounds_view (c_bounds country)) ->
  let a' := Tiled.step (Tiled.ECountryChange value) a in
  currentCountry a' = Some country /\
  (forall l, l ∈ layers (mapgl a') -> is_admin_id (l_id l) ->
     visible l = false /\
     l_filter l = Some (NameEq (name country)) /\
     exists L, level_of (l_id l) = Some L /\ L ∈ admin_levels country) /\
  (Forall (fun l => (0 <= l <= 5)%Z) (admin_levels country) ->
     (Tiled.handleCountryChange value (set_select_value value a)).1 = Ok tt /\
     buttons a' = (0%Z, true) :: ((fun L => (L, false)) <$> admin_levels country) /\
     container_shown a' = true /\
     forall L, (1 <= L <= 5)%Z -> L ∈ admin_levels country ->
       has_layer (LayerLine L) (mapgl a') = true /\
       has_layer (LayerFill L) (mapgl a') = true).
Proof.
  intros Hreach Hv Hfind [v Hfit] a'.
  assert (Hinv : Tiled.Inv (set_select_value value a)).
  { apply reachable_Inv in Hreach. revert Hreach. by apply Inv_ext. }
  destruct (handleCountryChange_synced value country (set_select_value value a) v
              Hv Hfind Hfit Hinv) as [_ Hsync].
  subst a'. cbn [Tiled.step] in *. unfold exec in *.
  rewrite (handleCountryChange_found_eq value country (set_select_value value a) v
             Hv Hfind Hfit) in *.
  match goal with |- context [Tiled.updateAdminLevelUI country ?c] => set (cleared := c) in * end.
  assert (Hk : currentCountry (Tiled.updateAdminLevelUI country cleared).2 = Some country /\
               admin_hidden (admin_levels country)
                 (Tiled.updateAdminLevelUI country cleared).2).
  { assert (Hup : preserves (fun a => currentCountry a = Some country /\
                                      admin_hidden (admin_levels country) a)
                    (Tiled.updateAdminLevelUI country)).
    { unfold Tiled.updateAdminLevelUI.
      apply preserves_bind; [apply preserves_modify; by intros a0 [? ?] | intros _].
      apply preserves_bind; [apply preserves_modify; by intros a0 [? ?] | intros _].
      apply preserves_bind; [apply tiled_createLevelButton_hidden; lia | intros _].
      apply preserves_for_each_elem. intros L HL.
      by apply tiled_createLevelButton_hidden. }
    apply Hup. split; [done|]. intros l Hl Hadm. subst cleared.
    rewrite layers_with_layers in Hl.
    by apply list_elem_of_filter in Hl as [Hl _]. }
  destruct Hk as [Hcc Hk]. split_and!.
  - done.
  - intros l Hl Hadm. destruct (Hk l Hl Hadm) as [Hvis Hlvl].
    split_and!; [done | | done].
    unfold Tiled.synced in Hsync. eapply Forall_forall in Hsync; [|exact Hl].
    unfold Tiled.filtered in Hsync. rewrite Hcc in Hsync.
    destruct (l_id l) as [|z|z]; [done | |]; cbn in Hadm; rewrite Hsync;
      cbn [Tiled.country_filter]; by rewrite (proj2 (Z.ltb_lt 0 z)) by lia.
  - intros Hrange.
    destruct (tiled_updateAdminLevelUI_ok country cleared Hrange)
      as (a1 & Heq & Hb & Hc & _ & _ & Hhas & _).
    rewrite Heq. cbn [fst snd]. split_and!; [done..|].
    intros L HL Hin. destruct (Hhas L HL) as [-> ->].
    by rewrite (bool_decide_eq_true_2 _ Hin), !orb_true_r.
Qed.

(** [addLevelLayer] keeps the layers it finds and adds layers of its own
    level only. *)
Lemma tiled_addLevelLayer_layers (a0 : App) level isVisible :
  let a1 := (Tiled.addLevelLayer level isVisible a0).2 in
  (forall l, l ∈ layers (mapgl a0) -> l ∈ layers (mapgl a1)) /\
  (forall l, l ∈ layers (mapgl a1) ->
     l ∈ layers (mapgl a0) \/ l_id l = LayerLine level \/ l_id l = LayerFill level).
Proof.
  cbv zeta.
  apply (tiled_addLevelLayer_preserves
           (fun a1 =>
              (forall l, l ∈ layers (mapgl a0) -> l ∈ layers (mapgl a1)) /\
              (forall l, l ∈ layers (mapgl a1) ->
                 l ∈ layers (mapgl a0) \/ l_id l = LayerLine level
                 \/ l_id l = LayerFill level))).
  - by intros a [? ?].
  - by intros a [? ?].
  - intros a st _ _ [Hold Hnew]. unfold Tiled.with_line_layer.
    rewrite layers_with_layers. split.
    + intros l Hl. apply elem_of_app. left. by apply Hold.
    + intros l [Hl| ->%list_elem_of_singleton]%elem_of_app; [by apply Hnew|].
      right. by left.
  - intros a st _ _ [Hold Hnew]. unfold Tiled.with_fill_layer. simpl_app. split.
    + intros l Hl. by apply insert_before_keeps, Hold.
    + intros l [ -> |Hl]%insert_before_elem; [|by apply Hnew]. right. by right.
  - split; intros l Hl; [done | by left].
Qed.

(** X5. A click on a level button of the client with country filters, for
    a level that has a style: the handler returns, the button changes its
    active state, the line and fill layers of the level are on the map with
    the visibility the button now shows, and every layer of another level
    is on the map exactly as before. *)
Theorem button_click_toggles_level
    (a : App) (idx : nat) (level : Z) (active : bool) (st : Style) :
  buttons a !! idx = Some (level, active) ->
  Tiled.STYLES level = Some st ->
  let r := Tiled.button_click idx a in
  r.1 = Ok tt /\
  buttons r.2 = <[idx := (level, negb active)]> (buttons a) /\
  has_layer (LayerLine level) (mapgl r.2) = true /\
  has_layer (LayerFill level) (mapgl r.2) = true /\
  (forall l, l ∈ layers (mapgl r.2) ->
     l_id l = LayerLine level \/ l_id l = LayerFill level ->
     visible l = negb active) /\
  (forall l, l_id l <> LayerLine level -> l_id l <> LayerFill level ->
     l ∈ layers (mapgl r.2) <-> l ∈ layers (mapgl a)).
Proof.
  intros Hb Hst. cbv zeta. unfold Tiled.button_click.
  erewrite bind_ok by reflexivity. cbn beta. rewrite Hb.
  erewrite bind_ok by reflexivity.
  set (a0 := set_buttons (<[idx:=(level, negb active)]> (buttons a)) a).
  destruct (tiled_addLevelLayer_layers a0 level (negb active)) as [Hold Hnew].
  destruct (tiled_addLevelLayer_ok level (negb active) st a0 Hst)
    as (a1 & Hadd & _ & Hhas & Hbtn & _).
  rewrite Hadd in Hold, Hnew. cbn [snd] in Hold, Hnew.
  erewrite bind_ok by exact Hadd.
  rewrite tiled_setLayerVisibility_eq. cbn [fst snd].
  split_and!.
  - done.
  - simpl_app. by rewrite Hbtn.
  - rewrite has_layer_fmap by apply show_level_id. rewrite Hhas.
    by rewrite (bool_decide_eq_true_2 _ eq_refl), orb_true_r.
  - rewrite has_layer_fmap by apply show_level_id. rewrite Hhas.
    by rewrite (bool_decide_eq_true_2 (LayerFill level = LayerFill level)), orb_true_r.
  - intros l' Hl' Hid. rewrite layers_with_layers in Hl'.
    apply list_elem_of_fmap in Hl' as (l & -> & Hl).
    rewrite show_level_id in Hid. by rewrite show_level_hit.
  - intros l Hline Hfill. rewrite layers_with_layers. split.
    + intros (l1 & -> & Hl1)%list_elem_of_fmap. rewrite show_level_id in *.
      rewrite show_level_miss by (by intros [?|?]).
      by destruct (Hnew l1 Hl1) as [?|[?|?]].
    + intros Hl. apply list_elem_of_fmap. exists l. split; [|by apply Hold].
      by rewrite show_level_miss by (by intros [?|?]).
Qed.

(** X6. A level that has no entry in [STYLES]: in every session of the
    client with country filters [addLevelLayer] stops with a TypeError when
    it reads the style of the line layer.  By then it has added the source
    of the level if that was missing and written its log line; it has
    added no layer and no listener. *)
Theorem addLevelLayer_without_style_throws
    (catalog : list Country) (a : App) (level : Z) (isVisible : bool) :
  Tiled.reachable catalog a ->
  Tiled.STYLES level = None ->
  let r := Tiled.addLevelLayer level isVisible a in
  r.1 = Throw "TypeError: STYLES[level] is undefined" /\
  layers (mapgl r.2) = layers (mapgl a) /\
  handlers (mapgl r.2) = handlers (mapgl a) /\
  sources (mapgl r.2) =
    sources (mapgl a) ++
      (if has_source (GadmLevel level) (mapgl a) then []
       else [(GadmLevel level, VectorSource (Tiled.tiles_url level) "GADM")]) /\
  console r.2 =
    console a ++
      ["Creating layer layer-line-" +:+ decimal level +:+ " for " +:+
       match currentCountry a with Some c => name c | None => "all" end] /\
  buttons r.2 = buttons a.
Proof.
  intros Hreach Hst. cbv zeta.
  assert (Hline : has_layer (LayerLine level) (mapgl a) = false).
  { apply bool_decide_eq_false_2.
    intros (l & Hid & Hl)%list_elem_of_fmap.
    apply reachable_Inv in Hreach as (_ & Hstyled & _).
    eapply Forall_forall in Hstyled; [|exact Hl].
    unfold Tiled.styled in Hstyled. rewrite <- Hid in Hstyled.
    destruct Hstyled as (st & Hsome & _). congruence. }
  rewrite addLevelLayer_eq. cbv zeta. rewrite ensure_source_eq. cbn [snd].
  rewrite ensure_line_layer_eq.
  destruct (has_source (GadmLevel level) (mapgl a)) eqn:Hs.
  - rewrite Hline, Hst. cbn [fst snd]. unfold Tiled.line_log. simpl_app.
    by rewrite app_nil_r.
  - assert (Hline' : has_layer (LayerLine level) (mapgl (Tiled.with_source level a)) = false)
      by done.
    rewrite Hline', Hst. cbn [fst snd].
    unfold Tiled.line_log, Tiled.with_source. simpl_app. done.
Qed.

(** *** Resetting twice *)

Lemma set_prop_same p v ps : set_prop p v (set_prop p v ps) = set_prop p v ps.
Proof.
  induction ps as [|[q w] ps IH]; cbn [set_prop].
  - by rewrite decide_True.
  - destruct (decide (q = p)) as [Hq|Hq]; cbn [set_prop].
    + by rewrite decide_True.
    + rewrite decide_False by done. by rewrite IH.
Qed.

Lemma set_prop_absorb p q v w ps :
  p <> q ->
  set_prop p v (set_prop q w (set_prop p v ps)) = set_prop q w (set_prop p v ps).
Proof.
  intros Hne. induction ps as [|[r u] ps IH]; cbn [set_prop].
  - rewrite decide_False by done. cbn [set_prop]. by rewrite decide_True.
  - destruct (decide (r = p)) as [Hr|Hr]; cbn [set_prop].
    + rewrite decide_False by done. cbn [set_prop]. by rewrite decide_True.
    + destruct (decide (r = q)) as [Hq|Hq]; cbn [set_prop].
      * rewrite decide_False by congruence. by rewrite set_prop_same.
      * rewrite decide_False by done. by rewrite IH.
Qed.

Lemma restyle0_idem l : Tiled.restyle0 (Tiled.restyle0 l) = Tiled.restyle0 l.
Proof.
  unfold Tiled.restyle0. destruct (decide (l_id l = LayerLine 0)) as [Hid|Hid].
  - cbn [l_id set_paint paint]. rewrite decide_True by done.
    unfold set_paint. cbn [l_id ltype source source_layer visible paint l_filter].
    f_equal. rewrite (set_prop_absorb line_color line_width) by done.
    apply set_prop_same.
  - by rewrite decide_False.
Qed.

Lemma restyled_fixed (ls : list Layer) :
  Tiled.restyle0 <$> filter (fun l => ~ is_admin_id (l_id l))
                       (Tiled.restyle0 <$> filter (fun l => ~ is_admin_id (l_id l)) ls)
    = Tiled.restyle0 <$> filter (fun l => ~ is_admin_id (l_id l)) ls.
Proof.
  rewrite (filter_all _ (Tiled.restyle0 <$> _)).
  - rewrite <- list_fmap_compose. apply list_fmap_ext. intros _ l _.
    apply restyle0_idem.
  - intros l' (l & -> & [Hl _]%list_elem_of_filter)%list_elem_of_fmap.
    by rewrite restyle0_id.
Qed.

Lemma reset_visibility_idem l :
  AppJs.reset_visibility (AppJs.reset_visibility l) = AppJs.reset_visibility l.
Proof.
  unfold AppJs.reset_visibility.
  destruct (decide (is_admin_id (l_id l))) as [Hadm|Hadm].
  - cbn [l_id set_visible]. by rewrite decide_True.
  - destruct (decide (l_id l = LayerLine 0 \/ l_id l = LayerFill 0)) as [Hz|Hz].
    + cbn [l_id set_visible]. rewrite decide_False by done. by rewrite decide_True.
    + rewrite decide_False by done. by rewrite decide_False.
Qed.

(** X7. Reset View is idempotent in both MapLibre clients: a second click
    on the button leaves the whole session, map included, as the first
    click left it. *)
Theorem reset_view_idempotent (a : App) :
  Tiled.step Tiled.EResetView (Tiled.step Tiled.EResetView a)
    = Tiled.step Tiled.EResetView a /\
  AppJs.step AppJs.EResetView (AppJs.step AppJs.EResetView a)
    = AppJs.step AppJs.EResetView a.
Proof.
  split.
  - cbn [Tiled.step]. unfold exec. rewrite !reset_view_click_eq. cbn [snd].
    rewrite layers_with_layers. simpl_app. rewrite restyled_fixed.
    generalize (Tiled.restyle0 <$> filter (fun l => ~ is_admin_id (l_id l))
                                    (layers (mapgl a))).
    intros ls. by destruct a as [[] ? ? ? ? ? ?].
  - cbn [AppJs.step]. unfold exec. rewrite !appjs_reset_view_click_eq. cbn [snd].
    rewrite layers_with_layers. simpl_app.
    rewrite <- list_fmap_compose.
    rewrite (list_fmap_ext (AppJs.reset_visibility ∘ AppJs.reset_visibility)
               AppJs.reset_visibility _ (fun _ l _ => reset_visibility_idem l)).
    generalize (AppJs.reset_visibility <$> layers (mapgl a)).
    intros ls. by destruct a as [[] ? ? ? ? ? ?].
Qed.

(** X8. In the client with country filters, Reset View is the move of the
    viewport followed by what selecting the placeholder option does; and
    neither touches the visibility of a layer that stays: a level-0 layer
    that its button has hidden is still hidden after the reset. *)
Theorem reset_view_keeps_visibility (a : App) :
  Tiled.step Tiled.EResetView a =
    Tiled.step (Tiled.ECountryChange EmptyString) (with_map (set_view WorldView) a) /\
  (l_id <$> layers (mapgl (Tiled.step Tiled.EResetView a)) =
     l_id <$> filter (fun l => ~ is_admin_id (l_id l)) (layers (mapgl a))) /\
  (visible <$> layers (mapgl (Tiled.step Tiled.EResetView a)) =
     visible <$> filter (fun l => ~ is_admin_id (l_id l)) (layers (mapgl a))).
Proof.
  cbn [Tiled.step]. unfold exec.
  rewrite reset_view_click_eq, handleCountryChange_empty_eq. cbn [snd].
  split_and!.
  - done.
  - rewrite layers_with_layers. apply ids_fmap_preserved, restyle0_id.
  - rewrite layers_with_layers, <- list_fmap_compose. apply list_fmap_ext.
    intros _ l _. unfold compose, Tiled.restyle0. by case_decide.
Qed.

(** *** The client of [src/js/app.js] keeps what it has created *)

Lemma appjs_addLevelLayer_keeps (P : list Layer -> Prop) level isVisible :
  (forall ls l, P ls -> P (ls ++ [l])) ->
  (forall ls b l, P ls -> P (insert_before b l ls)) ->
  preserves (fun a => P (layers (mapgl a))) (AppJs.addLevelLayer level isVisible).
Proof.
  intros Hsnoc Hins. apply appjs_addLevelLayer_preserves.
  - done.
  - intros a st _ _ Ha. unfold AppJs.with_line_layer. rewrite layers_with_layers.
    by apply Hsnoc.
  - intros a st _ _ Ha. unfold AppJs.with_fill_layer. simpl_app. by apply Hins.
Qed.

Lemma Forall_insert_before (P : Layer -> Prop) b l ls :
  P l -> Forall P ls -> Forall P (insert_before b l ls).
Proof.
  intros Hl Hls. apply Forall_forall.
  intros x [ -> |Hx]%insert_before_elem; [done|].
  by eapply Forall_forall in Hls.
Qed.

(** X9. The client of [src/js/app.js] never filters a layer by country and
    never takes a layer off the map: in every session no layer carries a
    filter, so the layers of levels 1 to 5 draw the boundaries of every
    country, and a layer that is on the map is still there after any
    event. *)
Theorem appjs_never_filters_nor_removes (catalog : list Country) (a : App) :
  AppJs.reachable catalog a ->
  Forall (fun l => l_filter l = None) (layers (mapgl a)) /\
  forall e i, has_layer i (mapgl a) = true ->
              has_layer i (mapgl (AppJs.step e a)) = true.
Proof.
  intros Hreach. split.
  - revert a Hreach.
    apply (appjs_reachable_preserves
             (fun a => Forall (fun l => l_filter l = None) (layers (mapgl a)))).
    { by repeat constructor. }
    apply (appjs_step_preserves
             (fun a => Forall (fun l => l_filter l = None) (layers (mapgl a)))).
    + by intros a a' _ -> _.
    + intros level v. apply appjs_addLevelLayer_preserves.
      * done.
      * intros a0 st _ _ Ha0. unfold AppJs.with_line_layer.
        rewrite layers_with_layers. apply Forall_app. split; [done|].
        by constructor.
      * intros a0 st _ _ Ha0. unfold AppJs.with_fill_layer. simpl_app.
        by apply Forall_insert_before.
    + intros level v a0 Ha0. rewrite appjs_setLayerVisibility_eq. cbn [snd].
      rewrite layers_with_layers. apply Forall_fmap.
      eapply Forall_impl; [exact Ha0|]. intros l Hl.
      unfold compose, show_level. by case_decide.
  - intros e i Hi. apply bool_decide_eq_true_2. revert i Hi.
    apply (appjs_step_preserves
             (fun a' => forall i, has_layer i (mapgl a) = true ->
                                  i ∈ l_id <$> layers (mapgl a'))).
    + intros a1 a2 _ Hl _ H1 i Hi. rewrite Hl. by apply H1.
    + intros level v.
      apply (appjs_addLevelLayer_keeps
               (fun ls => forall i, has_layer i (mapgl a) = true -> i ∈ l_id <$> ls)).
      * intros ls l Hls i Hi. rewrite fmap_app. apply elem_of_app. left. by apply Hls.
      * intros ls b l Hls i Hi.
        destruct (proj1 (list_elem_of_fmap _ _ _) (Hls i Hi)) as (x & -> & Hx).
        apply list_elem_of_fmap_2. by apply insert_before_keeps.
    + intros level v a0 Ha0 i Hi. rewrite appjs_setLayerVisibility_eq. cbn [snd].
      rewrite layers_with_layers, (ids_fmap_preserved _ _ (show_level_id level v)).
      by apply Ha0.
    + intros i Hi. by apply bool_decide_eq_true_1 in Hi.
Qed.

Lemma appjs_reachable_run catalog es a :
  AppJs.reachable catalog a -> AppJs.reachable catalog (AppJs.run es a).
Proof.
  revert a. induction es as [|e es IH]; intros a Ha; [done|].
  apply IH. by constructor.
Qed.

Lemma appjs_createLevelButton_keeps_layer (l : Layer) (L x : Z) (v : bool) :
  level_of (l_id l) = Some L -> x <> L ->
  preserves (fun a => l ∈ layers (mapgl a)) (AppJs.createLevelButton x v).
Proof.
  intros HL Hne. unfold AppJs.createLevelButton. pres.
  - by apply preserves_modify.
  - apply (appjs_addLevelLayer_keeps (fun ls => l ∈ ls)).
    + intros ls l0 Hl. apply elem_of_app. by left.
    + intros ls b l0 Hl. by apply insert_before_keeps.
  - intros a Ha. rewrite appjs_setLayerVisibility_eq. cbn [snd].
    rewrite layers_with_layers. apply list_elem_of_fmap. exists l. split; [|done].
    symmetry. apply (show_level_other x v l L); [|done].
    destruct (l_id l) as [|z|z]; cbn in HL; [done | |]; injection HL as ->; auto.
Qed.

Lemma appjs_createLevelButton_buttons (lvls : list Z) (x : Z) (v : bool) :
  x = 0%Z \/ x ∈ lvls ->
  preserves (fun a => forall b, b ∈ buttons a -> b.1 = 0%Z \/ b.1 ∈ lvls)
    (AppJs.createLevelButton x v).
Proof.
  intros Hx. unfold AppJs.createLevelButton. pres.
  - apply preserves_modify. intros a Ha b. simpl_app.
    intros [Hb| ->%list_elem_of_singleton]%elem_of_app; [by apply Ha | done].
  - apply appjs_addLevelLayer_preserves;
      [intros a0 H0 | intros a0 st _ _ H0 | intros a0 st _ _ H0]; exact H0.
  - intros a Ha. rewrite appjs_setLayerVisibility_eq. exact Ha.
Qed.

(** X10. In the client of [src/js/app.js], selecting a country whose bounds
    the map accepts leaves the layers of the levels that the country does
    not have as they are, with their visibility: a layer of such a level
    that was visible is still drawn, and no button of the rebuilt list
    belongs to that level. *)
Theorem appjs_country_change_keeps_other_levels
    (a : App) (value : string) (country : Country) (l : Layer) (L : Z) :
  String.eqb value EmptyString = false ->
  List.find (fun c => String.eqb (name c) value) (countriesData a) = Some country ->
  is_Some (fitBounds_view (c_bounds country)) ->
  l ∈ layers (mapgl a) ->
  level_of (l_id l) = Some L ->
  L <> 0%Z ->
  L ∉ admin_levels country ->
  let a' := AppJs.step (AppJs.ECountryChange value) a in
  l ∈ layers (mapgl a') /\
  forall b, b ∈ buttons a' -> b.1 <> L.
Proof.
  intros Hv Hfind [view Hfit] Hl HL H0 Hout. cbv zeta. cbn [AppJs.step]. unfold exec.
  unfold AppJs.handleCountryChange. rewrite Hv.
  erewrite bind_ok by reflexivity. cbn beta. simpl_app. rewrite Hfind.
  erewrite bind_ok by reflexivity.
  erewrite bind_ok by (rewrite fitBounds_eq, Hfit; reflexivity).
  unfold AppJs.updateAdminLevelUI.
  do 2 (erewrite bind_ok by reflexivity).
  match goal with |- context [(?c ?s).2] =>
    assert (Hpres : preserves
              (fun a0 => l ∈ layers (mapgl a0) /\
                         forall b, b ∈ buttons a0 ->
                           b.1 = 0%Z \/ b.1 ∈ admin_levels country) c);
    [|destruct (Hpres s) as [Hin Hbtn]]
  end.
  - assert (Hboth : forall x v, x <> L -> x = 0%Z \/ x ∈ admin_levels country ->
              preserves
                (fun a0 => l ∈ layers (mapgl a0) /\
                           forall b, b ∈ buttons a0 ->
                             b.1 = 0%Z \/ b.1 ∈ admin_levels country)
                (AppJs.createLevelButton x v)).
    { intros x v Hne Hx a0 [H1 H2]. split.
      - by apply (appjs_createLevelButton_keeps_layer l L x v).
      - by apply (appjs_createLevelButton_buttons (admin_levels country) x v). }
    apply preserves_bind; [apply Hboth; [done | by left] | intros _].
    apply preserves_for_each_elem. intros x Hx.
    apply Hboth; [|by right]. by intros ->.
  - split; [done|]. simpl_app. by intros b ?%elem_of_nil.
  - split; [done|]. intros b Hb Heq.
    destruct (Hbtn b Hb) as [Hz|Hin']; [congruence|].
    rewrite Heq in Hin'. done.
Qed.

End MapLibreSession.

Section MapLibreSessionExamples.
Import MapLibre Order MapSamples.
#[local] Existing Instance any_corner.

Lemma fill_layer_below_line_witness :
  exists before after,
    l_id <$> layers (mapgl wakanda_selected)
      = before ++ LayerFill 1 :: LayerLine 1 :: after.
Proof.
  apply (fill_layer_below_line catalog wakanda_selected 1).
  - left. apply reachable_wakanda_selected.
  - vm_compute. reflexivity.
Defined.


Lemma country_change_builds_levels_witness :
  currentCountry (Tiled.step (Tiled.ECountryChange "Elbonia") wakanda_selected)
    = Some elbonia.
Proof.
  refine (proj1 (country_change_builds_levels catalog wakanda_selected "Elbonia" elbonia
                   reachable_wakanda_selected _ _ _)); [reflexivity | reflexivity | by eexists].
Defined.

Lemma button_click_toggles_level_witness :
  buttons (Tiled.button_click 1 wakanda_selected).2
    = <[1%nat := (1%Z, true)]> (buttons wakanda_selected).
Proof.
  refine (proj1 (proj2
    (button_click_toggles_level wakanda_selected 1 1 false _ _ _))); reflexivity.
Defined.

Lemma addLevelLayer_without_style_throws_witness :
  (Tiled.addLevelLayer 6 false wakanda_selected).1
    = Throw "TypeError: STYLES[level] is undefined".
Proof.
  refine (proj1 (addLevelLayer_without_style_throws catalog wakanda_selected 6 false
                   reachable_wakanda_selected _)).
  reflexivity.
Defined.

Lemma reachable_appjs_level1_shown : AppJs.reachable catalog appjs_level1_shown.
Proof. apply appjs_reachable_run. constructor. Qed.

Lemma appjs_never_filters_nor_removes_witness :
  Forall (fun l => l_filter l = None) (layers (mapgl appjs_level1_shown)).
Proof.
  exact (proj1 (appjs_never_filters_nor_removes catalog appjs_level1_shown
                  reachable_appjs_level1_shown)).
Defined.

Lemma appjs_country_change_keeps_other_levels_witness :
  appjs_line2 ∈ layers (mapgl (AppJs.step (AppJs.ECountryChange "Elbonia")
                                 appjs_level2_shown)).
Proof.
  refine (proj1 (appjs_country_change_keeps_other_levels
                   appjs_level2_shown "Elbonia" elbonia appjs_line2 2 _ _ _ _ _ _ _)).
  - reflexivity.
  - reflexivity.
  - by eexists.
  - apply (list_elem_of_lookup_2 _ 6). vm_compute. reflexivity.
  - reflexivity.
  - lia.
  - intros H%list_elem_of_singleton. lia.
Defined.

End MapLibreSessionExamples.

(** * Further properties of the DuckDB/Leaflet client *)

Ltac simpl_session :=
  cbn [OnDemand.catch_error OnDemand.showLoading OnDemand.hideLoading
       OnDemand.showError OnDemand.console_log OnDemand.await_timer
       OnDemand.map_removeLayer OnDemand.L_geoJSON_addTo
       OnDemand.showAdminLevelButtons
       OnDemand.set_duckDBReady OnDemand.set_conn OnDemand.set_currentCountry
       OnDemand.set_currentLevel OnDemand.set_boundaryLayer
       OnDemand.set_map_layers OnDemand.set_map_view OnDemand.set_next_lid
       OnDemand.set_loading OnDemand.set_errors OnDemand.set_container_shown
       OnDemand.set_buttons OnDemand.set_console OnDemand.set_tasks
       OnDemand.set_next_tid OnDemand.set_issued OnDemand.set_timers
       OnDemand.with_globals OnDemand.with_leaflet OnDemand.with_dom
       OnDemand.with_runtime
       OnDemand.globals OnDemand.leaflet OnDemand.dom OnDemand.runtime
       OnDemand.duckDBReady OnDemand.conn OnDemand.currentCountry
       OnDemand.currentLevel OnDemand.boundaryLayer
       OnDemand.map_layers OnDemand.map_view OnDemand.next_lid
       OnDemand.loading OnDemand.errors OnDemand.container_shown
       OnDemand.buttons OnDemand.console
       OnDemand.baseUrl OnDemand.tasks OnDemand.next_tid OnDemand.issued
       OnDemand.timers
       OnDemand.lid OnDemand.fc_features fst snd app fmap list_fmap option_list
       negb orb andb] in *.

Section OnDemandSession.
Import OnDemand Dissolve.
Context `{SpatialEngine} `{!LeafletLibrary}.

(** X11. The map never holds more than one boundary layer: in every
    session the map has no overlay layer, or its only overlay layer is the
    one that [boundaryLayer] refers to, because every place that adds a
    layer removes the previous one first.  ([boundaryLayer] itself may
    refer to a layer that is no longer on the map: when [L.geoJSON] throws,
    the previous layer has been removed and the variable keeps it.) *)
Theorem one_boundary_layer_at_a_time (base : string) (s : State) :
  reachable base s ->
  (map_layers (leaflet s) = [] \/
   exists layer, boundaryLayer (globals s) = Some layer /\
                 map_layers (leaflet s) = [layer]) /\
  length (displayed s) <= 1.
Proof.
  intros Hreach. apply reachable_wf_layers in Hreach. unfold wf_layers in Hreach.
  assert (Hcases : map_layers (leaflet s) = [] \/
                   exists layer, boundaryLayer (globals s) = Some layer /\
                                 map_layers (leaflet s) = [layer]).
  { destruct Hreach as [Hnil|Hone]; [by left|].
    destruct (boundaryLayer (globals s)) as [layer|]; [right; by exists layer | by left]. }
  split; [done|]. unfold displayed. rewrite length_fmap.
  destruct Hcases as [->|(layer & _ & ->)]; cbn; lia.
Qed.

(** X12. When the query of a pending call fails, the [catch] block hides
    the loading indicator, logs the error and shows one error box with the
    message; the map keeps the boundary layer it had.  [currentLevel] and
    the active button stay those of the level that failed to load. *)
Theorem query_failure_keeps_layer
    (s : State) (tid : nat) (level : Z) (q : Query) (msg : string) :
  tasks (runtime s) !! tid = Some (Querying level q) ->
  let s' := step (EQueryDone tid (inl msg)) s in
  leaflet s' = leaflet s /\
  globals s' = globals s /\
  displayed s' = displayed s /\
  loading (dom s') = None /\
  errors (dom s') = errors (dom s) ++ ["Failed to load boundaries: " +:+ msg] /\
  console (dom s') = console (dom s) ++ [LogError "Failed to load boundaries:" msg] /\
  buttons (dom s') = buttons (dom s) /\
  tasks (runtime s') = delete tid (tasks (runtime s)) /\
  issued (runtime s') = issued (runtime s).
Proof.
  intros Ht. cbv zeta. cbn [step]. unfold on_query_done, displayed. rewrite Ht.
  simpl_session. by destruct s as [? ? [] []].
Qed.

(** X13. Selecting the placeholder option does not cancel a load that is
    pending: the handler takes the boundary layer off the map, hides the
    level buttons and resets the view, but keeps [currentCountry]; when the
    pending query then settles, its features are put on the map although
    nothing is selected (all of them, or none when [L.geoJSON] rejects a
    geometry), and the buttons stay hidden. *)
Theorem placeholder_does_not_cancel_query
    (s : State) (tid : nat) (level : Z) (q : Query) (rows : list Row) :
  wf_layers s ->
  tasks (runtime s) !! tid = Some (Querying level q) ->
  let s1 := step (ECountryChange None) s in
  let s2 := step (EQueryDone tid (inr rows)) s1 in
  displayed s1 = [] /\
  container_shown (dom s1) = false /\
  map_view (leaflet s1) = DefaultView /\
  currentCountry (globals s1) = currentCountry (globals s) /\
  displayed s2 = drawn (build_features level rows).1 /\
  container_shown (dom s2) = false /\
  map_view (leaflet s2) = DefaultView.
Proof.
  intros Hwf Ht. cbv zeta. cbn [step].
  set (s1 := handleCountryChange None s).
  assert (H1 : displayed s1 = [] /\ container_shown (dom s1) = false /\
               map_view (leaflet s1) = DefaultView /\
               currentCountry (globals s1) = currentCountry (globals s) /\
               tasks (runtime s1) = tasks (runtime s)).
  { assert (Hwf0 : wf_layers (set_container_shown false s)) by exact Hwf.
    destruct (clear_boundary (set_container_shown false s) Hwf0)
      as (Hm & _ & Hdom & Hrt & _ & Hcc & _).
    subst s1. unfold handleCountryChange, displayed. cbv zeta in *.
    revert Hm Hdom Hrt Hcc.
    generalize (match boundaryLayer (globals (set_container_shown false s)) with
                | Some old =>
                    set_boundaryLayer None (map_removeLayer old (set_container_shown false s))
                | None => set_container_shown false s
                end).
    intros s0 Hm Hdom Hrt Hcc. simpl_session.
    rewrite Hm, Hdom, Hrt, Hcc. by destruct s as [? ? [] []]. }
  destruct H1 as (Hd1 & Hc1 & Hv1 & Hcc1 & Ht1).
  assert (Hwf1 : wf_layers s1) by (by apply handleCountryChange_wf).
  clearbody s1.
  assert (Ht' : tasks (runtime s1) !! tid = Some (Querying level q)) by (by rewrite Ht1).
  destruct (on_query_done_rows tid level q rows s1 Hwf1 Ht')
    as (Hd2 & _ & _ & _ & _ & _ & _ & Hc2 & Hv2 & _).
  split_and!; [done.. | by rewrite Hc2 | by rewrite Hv2].
Qed.

(** X14. Selecting a country while the engine is ready, when the bounds of
    the country have their four entries and Leaflet accepts the two
    corners, and the levels of the country are safe integers: the previous
    boundary layer is taken off the map, the view is fitted to the corners
    [(minY, minX)] and [(maxY, maxX)], one button per level is shown, and
    exactly one query is handed to the engine, for the first level of the
    country and the file [data/<filename>] under the base URL, with that
    level's button active and the loading text shown.  A country without
    levels starts no query and leaves the loading indicator and
    [currentLevel] as they were. *)
Theorem country_change_loads_first_level
    (s : State) (c : Country) (minX minY maxX maxY : num) (rest : list num) :
  wf_layers s ->
  engine_ready s = true ->
  String.eqb (filename c) EmptyString = false ->
  bounds c = minX :: minY :: maxX :: maxY :: rest ->
  L_fitBounds_accepts (minY, minX) (maxY, maxX) = true ->
  Forall safe_integer (levels c) ->
  let s' := step (ECountryChange (Some c)) s in
  displayed s' = [] /\
  currentCountry (globals s') = Some c /\
  container_shown (dom s') = true /\
  map_view (leaflet s') = FitBounds (minY, minX) (maxY, maxX) /\
  timers (runtime s') = timers (runtime s) /\
  match levels c with
  | [] =>
      issued (runtime s') = issued (runtime s) /\
      buttons (dom s') = [] /\
      loading (dom s') = loading (dom s) /\
      currentLevel (globals s') = currentLevel (globals s)
  | first :: _ =>
      let q := {| q_url := baseUrl (runtime s) +:+ "data/" +:+ filename c;
                  q_level := first |} in
      issued (runtime s') = issued (runtime s) ++ [q] /\
      tasks (runtime s') !! next_tid (runtime s) = Some (Querying first q) /\
      buttons (dom s') = (fun l => (l, bool_decide (l = first))) <$> levels c /\
      loading (dom s') = Some ("Loading Level " +:+ decimal first +:+ " boundaries...") /\
      currentLevel (globals s') = Some first
  end.
Proof.
  intros Hwf Hready Hfile Hb Hacc _. cbv zeta. cbn [step].
  assert (Hfit : fitBounds_view (bounds c)
                 = Some (FitBounds (minY, minX) (maxY, maxX))).
  { rewrite Hb. unfold fitBounds_view. cbn. by rewrite Hacc. }
  unfold handleCountryChange. rewrite Hfile, Hfit.
  unfold engine_ready in Hready. apply andb_true_iff in Hready as [Hr Hc].
  assert (Hbtn : forall (first : Z) (rest : list Z),
            map (fun b : Z * bool => (b.1, bool_decide (b.1 = first)))
                (map (fun l : Z => (l, false)) rest)
              = (fun l : Z => (l, bool_decide (l = first))) <$> rest).
  { intros first rest0. induction rest0 as [|x xs IH]; [done|]. cbn. by rewrite IH. }
  set (s0 := showAdminLevelButtons (levels c)
               (set_map_view (FitBounds (minY, minX) (maxY, maxX))
                  (set_currentCountry (Some c) s))).
  assert (Hwf0 : wf_layers s0) by exact Hwf.
  destruct (clear_boundary s0 Hwf0)
    as (Hm & Hbl & Hdom & Hrt & Hview & Hcc & Hcl & Hdr & Hcn).
  cbv zeta in Hm, Hbl, Hdom, Hrt, Hview, Hcc, Hcl, Hdr, Hcn.
  revert Hm Hbl Hdom Hrt Hview Hcc Hcl Hdr Hcn.
  generalize (match boundaryLayer (globals s0) with
              | Some old => set_boundaryLayer None (map_removeLayer old s0)
              | None => s0
              end).
  intros s1 Hm Hbl Hdom Hrt Hview Hcc Hcl Hdr Hcn.
  assert (Hdom0 : dom s0 = dom (set_container_shown true
                                  (set_buttons (map (fun l => (l, false)) (levels c)) s)))
    by (subst s0; by destruct s as [? ? [] []]).
  assert (Hrt0 : runtime s0 = runtime s) by (subst s0; by destruct s as [? ? [] []]).
  assert (Hcc0 : currentCountry (globals s0) = Some c)
    by (subst s0; by destruct s as [[] ? [] []]).
  assert (Hcl0 : currentLevel (globals s0) = currentLevel (globals s))
    by (subst s0; by destruct s as [[] ? [] []]).
  assert (Hdr0 : duckDBReady (globals s0) = true)
    by (subst s0; by destruct s as [[] ? [] []]).
  assert (Hcn0 : conn (globals s0) = true)
    by (subst s0; by destruct s as [[] ? [] []]).
  assert (Hview0 : map_view (leaflet s0) = FitBounds (minY, minX) (maxY, maxX))
    by (subst s0; by destruct s as [? [] [] []]).
  rewrite Hdom0 in Hdom. rewrite Hrt0 in Hrt. rewrite Hcc0 in Hcc.
  rewrite Hcl0 in Hcl. rewrite Hdr0 in Hdr. rewrite Hcn0 in Hcn. rewrite Hview0 in Hview.
  clearbody s0. clear Hwf0 Hdom0 Hrt0 Hcc0 Hcl0 Hdr0 Hcn0 Hview0.
  unfold displayed.
  destruct (levels c) as [|first others] eqn:Hlv.
  - rewrite Hm, Hdom, Hrt, Hcc, Hcl, Hview. by destruct s as [? ? [] []].
  - unfold loadBoundaries. rewrite Hcc. unfold issue_query.
    destruct s1 as [[] [] [] []]. destruct s as [[] [] [] []].
    simpl_session. cbn in Hm, Hdom, Hrt, Hcc, Hcl, Hdr, Hcn, Hview.
    subst. simplify_eq. simpl_session. cbn.
    by rewrite lookup_insert_eq, Hbtn.
Qed.

(** *** The grouping neither loses nor duplicates a row *)

Lemma group_insert_conserves {G : Type} (k : GroupKey) (g : G) groups :
  concat (snd <$> group_insert k g groups) ≡ₚ g :: concat (snd <$> groups).
Proof.
  induction groups as [|[k' gs] rest IH]; cbn [group_insert]; [done|].
  destruct (decide (k = k')) as [Hk|Hk]; rewrite !fmap_cons; cbn [concat snd].
  - rewrite <- app_assoc. cbn [app]. by rewrite <- Permutation_middle.
  - rewrite IH. by rewrite <- Permutation_middle.
Qed.

Lemma group_insert_length {G : Type} (k : GroupKey) (g : G) groups :
  0 < length (group_insert k g groups) <= S (length groups).
Proof.
  induction groups as [|[k' gs] rest IH]; cbn [group_insert]; [cbn; lia|].
  destruct (decide (k = k')); cbn [length]; lia.
Qed.

(** X15. The GROUP BY of the aggregation query neither loses nor
    duplicates a row: the geometries of the rows that pass the WHERE
    clause are spread over the groups, each in exactly one group.  So the
    result has no more rows than pass the filter, and it is empty exactly
    when no row passes it. *)
Theorem query_conserves_rows (level : Z) (table : list RawRow) :
  let kept := filter (fun r => where_clause level r = true) table in
  concat (snd <$> group_by level kept) ≡ₚ geometry <$> kept /\
  length (query level table) <= length kept /\
  (query level table = [] <-> kept = []).
Proof.
  cbv zeta. unfold query. rewrite length_map.
  generalize (filter (fun r => where_clause level r = true) table). intros rows.
  induction rows as [|r rows IH] using rev_ind.
  - split_and!; [done | cbn; lia | done].
  - destruct IH as (Hperm & Hlen & Hnil). rewrite group_by_snoc.
    pose proof (group_insert_length (group_key level r) (geometry r)
                  (group_by level rows)) as Hins.
    split_and!.
    + rewrite group_insert_conserves, Hperm, fmap_app. cbn [fmap list_fmap].
      by rewrite <- Permutation_cons_append.
    + rewrite length_app. cbn [length]. lia.
    + split.
      * intros Hmap. apply (f_equal length) in Hmap. rewrite length_map in Hmap.
        cbn in Hmap. lia.
      * intros Hnone. apply (f_equal length) in Hnone. rewrite length_app in Hnone.
        cbn in Hnone. lia.
Qed.

End OnDemandSession.

Section OnDemandSessionExamples.
Import OnDemand Samples.
#[local] Existing Instance toy.
#[local] Existing Instance toy_leaflet.

Lemma one_boundary_layer_at_a_time_witness : length (displayed two_pending) <= 1.
Proof.
  exact (proj2 (one_boundary_layer_at_a_time base_url two_pending reachable_two_pending)).
Defined.

(** Call 1 draws its region; call 2 then brings a row whose geometry is
    [{}]: the layer of call 1 is taken off the map, [L.geoJSON] throws, the
    error box is shown, and [boundaryLayer] still refers to the layer of
    call 1. *)
Example stale_boundaryLayer_after_throw :
  let s := run [EQueryDone 1 (inr rows_l1); EQueryDone 2 (inr rows_invalid)] two_pending in
  reachable base_url s /\
  map_layers (leaflet s) = [] /\
  (fc_features <$> boundaryLayer (globals s)) = Some (build_features 1 rows_l1).1 /\
  errors (dom s) = ["Failed to load boundaries: Invalid GeoJSON object."] /\
  loading (dom s) = None.
Proof.
  split; [apply reachable_run, reachable_two_pending|].
  vm_compute. repeat split; reflexivity.
Qed.

Lemma query_failure_keeps_layer_witness :
  displayed (step (EQueryDone 1 (inl "HTTP 404")) two_pending) = displayed two_pending.
Proof.
  refine (proj1 (proj2 (proj2
    (query_failure_keeps_layer two_pending 1 1
       {| q_url := "http://localhost:8000/data/wakanda.parquet"; q_level := 1 |}
       "HTTP 404" _)))).
  vm_compute. reflexivity.
Defined.

Lemma placeholder_does_not_cancel_query_witness :
  displayed (step (EQueryDone 1 (inr rows_l1)) (step (ECountryChange None) two_pending))
    = drawn (build_features 1 rows_l1).1.
Proof.
  refine (proj1 (proj2 (proj2 (proj2 (proj2
    (placeholder_does_not_cancel_query two_pending 1 1
       {| q_url := "http://localhost:8000/data/wakanda.parquet"; q_level := 1 |}
       rows_l1 _ _)))))).
  - right. vm_compute. reflexivity.
  - vm_compute. reflexivity.
Defined.

(** The features of [rows_l1] are drawn; those of [rows_invalid] are not. *)
Example drawn_samples :
  drawn (build_features 1 rows_l1).1 = [(build_features 1 rows_l1).1] /\
  drawn (build_features 1 rows_invalid).1 = [].
Proof. vm_compute. split; reflexivity. Qed.

Lemma country_change_loads_first_level_witness :
  map_view (leaflet (step (ECountryChange (Some wakanda)) selected))
    = FitBounds ("10", "10") ("20", "20").
Proof.
  refine (proj1 (proj2 (proj2 (proj2
    (country_change_loads_first_level selected wakanda "10" "10" "20" "20" [] _ _ _ _ _ _))))).
  - right. vm_compute. reflexivity.
  - vm_compute. reflexivity.
  - reflexivity.
  - reflexivity.
  - reflexivity.
  - repeat constructor.
Defined.

(** A country whose bounds have two entries: [map.fitBounds] throws, so the
    handler leaves everything but [currentCountry] as it was: the view, the
    buttons and the layer of the previous country stay, and no query is
    issued. *)
Example short_bounds_stop_the_handler :
  let s := run [EQueryDone 1 (inr rows_l1)] two_pending in
  let s' := step (ECountryChange (Some nowhere)) s in
  currentCountry (globals s') = Some nowhere /\
  leaflet s' = leaflet s /\ dom s' = dom s /\ runtime s' = runtime s /\
  displayed s' = [(build_features 1 rows_l1).1].
Proof. vm_compute. repeat split; reflexivity. Qed.

(** Four rows of country X at level 2, one without a name: three rows pass
    the filter and fall into two groups. *)
Example query_table_x :
  length (query 2 table_x) = 2 /\
  snd <$> group_by 2 (filter (fun r => where_clause 2 r = true) table_x)
    = [[("1", "1"); ("3", "1")]; [("2", "2")]].
Proof. vm_compute. split; reflexivity. Qed.

End OnDemandSessionExamples.

(** * The info panel and the popup *)

Section PanelFacts.
Import OnDemand Dissolve Panel.
Context `{SpatialEngine}.

Lemma append_assoc (s1 s2 s3 : string) : (s1 +:+ s2) +:+ s3 = s1 +:+ (s2 +:+ s3).
Proof.
  induction s1 as [|a s1 IH]; [done|].
  change (String a ((s1 +:+ s2) +:+ s3) = String a (s1 +:+ (s2 +:+ s3))).
  by rewrite IH.
Qed.





End PanelFacts.

Section PanelExamples.
Import OnDemand Dissolve Panel Samples.
#[local] Existing Instance toy.


(** The panel of district Alpha of country X: the English type is left out
    because it repeats the type. *)
Example panel_alpha :
  showFeatureInfo (properties feature_alpha) =
    render "Alpha"
      [("Country:", "X"); ("Parent Region:", "North"); ("Type:", "District");
       ("Admin Level:", "2"); ("GID:", "X.1.1_1")].
Proof. vm_compute. reflexivity. Qed.

End PanelExamples.

Section PopupFacts.
Import Popup.

Lemma truthy_text (v : jsval) :
  truthy v = true -> exists t, v = JStr t /\ t <> EmptyString.
Proof.
  destruct v as [| |t]; cbn; [done | done |].
  destruct (String.eqb_spec t EmptyString) as [ -> |Hne]; [done|].
  intros _. by exists t.
Qed.

Lemma append_nil_r (s : string) : s +:+ EmptyString = s.
Proof.
  induction s as [|a s IH]; [done|].
  change (String a (s +:+ EmptyString) = String a s). by rewrite IH.
Qed.

Lemma append_if (b : bool) (c x : string) :
  (if b then c +:+ x else c) = c +:+ (if b then x else EmptyString).
Proof. destruct b; [done|]. by rewrite append_nil_r. Qed.

(** X17. The popup of a clicked feature always has a title: the text of
    NAME_<level> when the feature carries a non-empty one, else the text of
    [name] when that is non-empty, else [Unknown]; and the content handed
    to the popup starts with that title in its [popup-title] block. *)
Theorem popup_title_never_empty (level : Z) (props : Properties) :
  exists t rest,
    title level props = JStr t /\
    t <> EmptyString /\
    (if truthy (get props ("NAME_" +:+ decimal level))
     then get props ("NAME_" +:+ decimal level) = JStr t
     else if truthy (get props "name") then get props "name" = JStr t
     else t = "Unknown") /\
    handleFeatureClick level props = title_open +:+ t +:+ "</div>" +:+ rest.
Proof.
  assert (Htitle : exists t, title level props = JStr t /\ t <> EmptyString /\
            (if truthy (get props ("NAME_" +:+ decimal level))
             then get props ("NAME_" +:+ decimal level) = JStr t
             else if truthy (get props "name") then get props "name" = JStr t
             else t = "Unknown")).
  { unfold title, js_or.
    destruct (truthy (get props ("NAME_" +:+ decimal level))) eqn:Hn.
    - rewrite Hn. destruct (truthy_text _ Hn) as (t & Ht & Hne). by exists t.
    - destruct (truthy (get props "name")) eqn:Hm.
      + rewrite ?Hm. destruct (truthy_text _ Hm) as (t & Ht & Hne). by exists t.
      + rewrite ?Hm. by exists "Unknown". }
  destruct Htitle as (t & Ht & Hne & Hfrom). exists t.
  unfold handleFeatureClick, title_open. cbv zeta. rewrite Ht. cbn [js_to_string].
  rewrite !append_if, !append_assoc.
  eexists. split_and!; [done | done | done | reflexivity].
Qed.

End PopupFacts.

(** * The level buttons of the client with country filters *)

Section LevelButtons.
Import MapLibre Order MapSamples.
Context `{MapLibreLibrary}.

Lemma bind_throw {A B : Type} (c : M A) (f : A -> M B) a msg a' :
  c a = (Throw msg, a') -> (c ≫= f) a = (Throw msg, a').
Proof. intros Hc. unfold mbind, M_bind. by rewrite Hc. Qed.

Lemma for_each_app_ok {A : Type} (xs ys : list A) (body : A -> M unit) : forall a a1,
  for_each xs body a = (Ok tt, a1) ->
  for_each (xs ++ ys) body a = for_each ys body a1.
Proof.
  induction xs as [|x xs IH]; intros a a1; cbn [for_each app].
  - unfold mret, M_ret. by intros [= ->].
  - unfold mbind, M_bind. destruct (body x a) as [[[]|msg] a2]; [|done].
    apply IH.
Qed.

(** In a session of the client with country filters, a level without a
    style has no layer. *)
Lemma unstyled_level_has_no_layer (a : App) (level : Z) i :
  Tiled.Inv a -> Tiled.STYLES level = None ->
  i = LayerLine level \/ i = LayerFill level ->
  has_layer i (mapgl a) = false.
Proof.
  intros (_ & Hstyled & _) Hst Hi. apply bool_decide_eq_false_2.
  intros (l & Hid & Hl)%list_elem_of_fmap.
  eapply Forall_forall in Hstyled; [|exact Hl].
  unfold Tiled.styled in Hstyled. rewrite <- Hid in Hstyled.
  destruct Hi as [ -> | -> ]; destruct Hstyled as (st & Hsome & _); congruence.
Qed.

Lemma tiled_addLevelLayer_buttons (a0 : App) level isVisible :
  buttons (Tiled.addLevelLayer level isVisible a0).2 = buttons a0.
Proof.
  apply (tiled_addLevelLayer_preserves (fun a => buttons a = buttons a0));
    by intros.
Qed.

(** X18. A level of the country that has no entry in [STYLES] stops the
    rebuilding of the level buttons: when the map accepts the bounds of the
    country, [handleCountryChange] ends with the TypeError of
    [addLevelLayer]; the buttons of the levels before it and its own button
    are there, the levels after it have no button, and the level itself has
    a source but no layer. *)
Theorem country_change_stops_at_unstyled_level
    (catalog : list Country) (a : App) (value : string) (country : Country)
    (before after : list Z) (bad : Z) :
  Tiled.reachable catalog a ->
  String.eqb value EmptyString = false ->
  List.find (fun c => String.eqb (name c) value) (countriesData a) = Some country ->
  is_Some (fitBounds_view (c_bounds country)) ->
  admin_levels country = before ++ bad :: after ->
  Forall (fun l => (0 <= l <= 5)%Z) before ->
  Tiled.STYLES bad = None ->
  let r := Tiled.handleCountryChange value (set_select_value value a) in
  r.1 = Throw "TypeError: STYLES[level] is undefined" /\
  buttons r.2 = (0%Z, true) :: ((fun L => (L, false)) <$> before) ++ [(bad, false)] /\
  has_source (GadmLevel bad) (mapgl r.2) = true /\
  has_layer (LayerLine bad) (mapgl r.2) = false /\
  has_layer (LayerFill bad) (mapgl r.2) = false.
Proof.
  intros Hreach Hv Hfind [v Hfit] Hlevels Hrange Hbad. cbv zeta.
  assert (Hinv : Tiled.Inv (set_select_value value a)).
  { apply reachable_Inv in Hreach. revert Hreach. by apply Inv_ext. }
  rewrite (handleCountryChange_found_eq value country (set_select_value value a) v
             Hv Hfind Hfit).
  match goal with |- context [Tiled.updateAdminLevelUI country ?c] => set (cleared := c) end.
  assert (Hcleared : forall i, i = LayerLine bad \/ i = LayerFill bad ->
            has_layer i (mapgl cleared) = false).
  { intros i Hi. apply bool_decide_eq_false_2. subst cleared.
    rewrite layers_with_layers.
    intros (l & Hid & [_ Hl]%list_elem_of_filter)%list_elem_of_fmap.
    apply list_elem_of_fmap in Hl as (l0 & -> & Hl0).
    rewrite highlight0_id in Hid.
    assert (Hno := unstyled_level_has_no_layer _ bad i Hinv Hbad Hi).
    apply bool_decide_eq_false_1 in Hno. apply Hno.
    rewrite Hid. by apply list_elem_of_fmap_2. }
  unfold Tiled.updateAdminLevelUI.
  do 2 (erewrite bind_ok by reflexivity).
  destruct (tiled_STYLES_some 0) as [st0 Hst0]; [lia|].
  destruct (tiled_createLevelButton_ok 0 true st0
              (set_buttons [] (set_container_shown true cleared)) Hst0)
    as (a1 & Hbtn & _ & Hhas1 & Hb1 & _).
  erewrite bind_ok by exact Hbtn.
  destruct (tiled_level_buttons_ok before a1)
    as (a2 & Hloop & Hb2 & Hhas2 & _).
  { eapply Forall_impl; [exact Hrange|]. intros l. apply tiled_STYLES_some. }
  rewrite Hlevels, (for_each_app_ok _ _ _ _ _ Hloop). cbn [for_each].
  assert (Hnotin : bad ∉ before).
  { intros Hin. eapply Forall_forall in Hrange; [|exact Hin].
    destruct (tiled_STYLES_some bad Hrange) as [st Hst]. congruence. }
  assert (Hbad0 : bad <> 0%Z) by (by intros ->).
  assert (Hno2 : forall i, i = LayerLine bad \/ i = LayerFill bad ->
            has_layer i (mapgl a2) = false).
  { intros i Hi. rewrite Hhas2, Hhas1. simpl_app. rewrite (Hcleared i Hi).
    destruct Hi as [ -> | -> ]; cbn [level_of];
      rewrite (bool_decide_eq_false_2 (bad ∈ before)) by done;
      rewrite !bool_decide_eq_false_2; try done; congruence. }
  set (a3 := set_buttons (buttons a2 ++ [(bad, false)]) a2).
  assert (Hmiss : has_layer (LayerLine bad) (mapgl a3)
                  && has_layer (LayerFill bad) (mapgl a3) = false).
  { subst a3. simpl_app. by rewrite (Hno2 (LayerLine bad)); auto. }
  assert (Hthrow := addLevelLayer_throws bad false a3 Hbad Hmiss).
  destruct (addLevelLayer_post bad false a3) as [Hsrc Hpost].
  pose proof (tiled_addLevelLayer_buttons a3 bad false) as Hbuttons.
  destruct (Tiled.addLevelLayer bad false a3) as [[[]|msg] a4] eqn:Hadd;
    cbn [fst snd] in *; [done|].
  injection Hthrow as ->.
  destruct Hpost as (_ & Hl & Hf & _).
  assert (Hcb : Tiled.createLevelButton bad false a2
                = (Throw "TypeError: STYLES[level] is undefined", a4)).
  { unfold Tiled.createLevelButton. erewrite bind_ok by reflexivity. fold a3.
    unfold mbind, M_bind. by rewrite Hadd. }
  erewrite bind_throw by exact Hcb. cbn [fst snd].
  split_and!.
  - done.
  - rewrite Hbuttons. subst a3. simpl_app. rewrite Hb2, Hb1. simpl_app.
    by rewrite <- app_assoc.
  - done.
  - rewrite Hl. subst a3. simpl_app. apply Hno2. by left.
  - rewrite Hf. subst a3. simpl_app. apply Hno2. by right.
Qed.

End LevelButtons.

Section LevelButtonsExamples.
Import MapLibre Order MapSamples.
#[local] Existing Instance any_corner.

Lemma country_change_stops_at_unstyled_level_witness :
  (Tiled.handleCountryChange "Atlantis" (set_select_value "Atlantis" atlantis_loaded)).1
    = Throw "TypeError: STYLES[level] is undefined".
Proof.
  refine (proj1 (country_change_stops_at_unstyled_level [atlantis] atlantis_loaded
                   "Atlantis" atlantis [1%Z] [2%Z] 6 _ _ _ _ _ _ _)).
  - apply tiled_reachable_run. constructor.
  - reflexivity.
  - reflexivity.
  - by eexists.
  - reflexivity.
  - repeat constructor; lia.
  - reflexivity.
Defined.

(** Atlantis lists levels 1, 6 and 2: the buttons of levels 1 and 6 appear,
    the button of level 2 does not, and level 6 has a source without
    layers. *)
Example atlantis_selected :
  let a' := Tiled.step (Tiled.ECountryChange "Atlantis") atlantis_loaded in
  buttons a' = [(0%Z, true); (1%Z, false); (6%Z, false)] /\
  l_id <$> layers (mapgl a') = [Basemap; LayerFill 0; LayerLine 0; LayerFill 1; LayerLine 1] /\
  (sources (mapgl a')).*1 = [Carto; GadmLevel 0; GadmLevel 1; GadmLevel 6].
Proof. vm_compute. split_and!; reflexivity. Qed.

End LevelButtonsExamples.

Section ButtonsAgree.
Import MapLibre Order MapSamples.
Context `{MapLibreLibrary}.

Lemma has_layer_elem (i : layer_id) (m : MapState) :
  has_layer i m = true <-> exists l, l ∈ layers m /\ l_id l = i.
Proof.
  unfold has_layer. rewrite bool_decide_eq_true, list_elem_of_fmap.
  split; intros (l & ? & ?); by exists l.
Qed.

(** [addLevelLayer(x, v); setLayerVisibility(x, v)] from a session in which
    the button of [x] shows [v] and the other buttons agree with the map. *)
Lemma ensure_visible_agree (x : Z) (v : bool) (a0 : App) :
  Tiled.Inv a0 ->
  (forall L act, (L, act) ∈ buttons a0 ->
     (L = x /\ act = v) \/
     (L <> x /\
      (is_Some (Tiled.STYLES L) ->
         has_layer (LayerLine L) (mapgl a0) = true /\
         has_layer (LayerFill L) (mapgl a0) = true) /\
      forall l, l ∈ layers (mapgl a0) ->
        l_id l = LayerLine L \/ l_id l = LayerFill L -> visible l = act)) ->
  let a' := ((Tiled.addLevelLayer x v;; Tiled.setLayerVisibility x v) a0).2 in
  buttons_agree a' /\ buttons a' = buttons a0.
Proof.
  intros Hinv Hbtn. cbv zeta.
  destruct (tiled_addLevelLayer_layers a0 x v) as [Hold Hnew].
  pose proof (tiled_addLevelLayer_buttons a0 x v) as Hb.
  pose proof (addLevelLayer_Inv x v a0 Hinv) as Hinv1.
  destruct (addLevelLayer_post x v a0) as [_ Hpost].
  unfold mbind, M_bind.
  destruct (Tiled.addLevelLayer x v a0) as [[[]|msg] a1] eqn:Hadd; cbn [fst snd] in *.
  - rewrite tiled_setLayerVisibility_eq. cbn [snd]. split; [|by simpl_app].
    intros L act Hin. change ((L, act) ∈ buttons a1) in Hin. rewrite Hb in Hin.
    destruct (Hbtn L act Hin) as [[-> ->]|(Hne & Hboth & Hvis)].
    + split.
      * intros _. rewrite !has_layer_fmap by apply show_level_id. exact Hpost.
      * intros l' Hl' Hid. rewrite layers_with_layers in Hl'.
        apply list_elem_of_fmap in Hl' as (l & -> & Hl).
        rewrite show_level_id in Hid. by rewrite show_level_hit.
    + split.
      * intros HS. destruct (Hboth HS) as [[l1 [Hl1 Hid1]]%has_layer_elem
                                            [l2 [Hl2 Hid2]]%has_layer_elem].
        rewrite !has_layer_fmap by apply show_level_id.
        split; apply has_layer_elem; [exists l1 | exists l2]; auto.
      * intros l' Hl' Hid. rewrite layers_with_layers in Hl'.
        apply list_elem_of_fmap in Hl' as (l & -> & Hl).
        rewrite show_level_id in Hid.
        rewrite (show_level_other x v l L Hid) by done.
        destruct (Hnew l Hl) as [Hin0|Hx]; [by apply Hvis|].
        exfalso. destruct Hid as [Hid|Hid], Hx as [Hx|Hx]; congruence.
  - destruct Hpost as (Hst & _). split; [|done].
    assert (Hnone : forall l, l ∈ layers (mapgl a1) ->
              l_id l = LayerLine x \/ l_id l = LayerFill x -> False).
    { intros l Hl Hid.
      assert (Hno := unstyled_level_has_no_layer a1 x (l_id l) Hinv1 Hst Hid).
      apply bool_decide_eq_false_1 in Hno. apply Hno. by apply list_elem_of_fmap_2. }
    intros L act Hin. rewrite Hb in Hin.
    destruct (Hbtn L act Hin) as [[-> ->]|(Hne & Hboth & Hvis)].
    + split.
      * rewrite Hst. by intros [? ?].
      * intros l Hl Hid. by destruct (Hnone l Hl Hid).
    + split.
      * intros HS. destruct (Hboth HS) as [[l1 [Hl1 Hid1]]%has_layer_elem
                                            [l2 [Hl2 Hid2]]%has_layer_elem].
        split; apply has_layer_elem; [exists l1 | exists l2]; auto.
      * intros l Hl Hid. destruct (Hnew l Hl) as [Hin0|Hx]; [by apply Hvis|].
        by destruct (Hnone l Hl Hx).
Qed.

Lemma tiled_createLevelButton_agree (x : Z) (v : bool) (a : App) :
  Tiled.Inv a -> buttons_agree a -> x ∉ (buttons a).*1 ->
  let a' := (Tiled.createLevelButton x v a).2 in
  buttons_agree a' /\ buttons a' = buttons a ++ [(x, v)].
Proof.
  intros Hinv Hagree Hfresh. cbv zeta. unfold Tiled.createLevelButton.
  erewrite bind_ok by reflexivity.
  set (a0 := set_buttons (buttons a ++ [(x, v)]) a).
  destruct (ensure_visible_agree x v a0) as [H1 H2].
  - revert Hinv. by apply Inv_ext.
  - intros L act. subst a0. simpl_app.
    intros [Hin|[= -> ->]%list_elem_of_singleton]%elem_of_app; [|by left].
    right. split.
    + intros ->. apply Hfresh. apply list_elem_of_fmap. by exists (x, act).
    + by apply Hagree.
  - split; [exact H1|]. rewrite H2. subst a0. by simpl_app.
Qed.

Lemma tiled_button_click_agree (idx : nat) (a : App) :
  Tiled.Inv a -> buttons_agree a -> NoDup (buttons a).*1 ->
  let a' := (Tiled.button_click idx a).2 in
  buttons_agree a' /\ (buttons a').*1 = (buttons a).*1.
Proof.
  intros Hinv Hagree Hnd. cbv zeta. unfold Tiled.button_click.
  erewrite bind_ok by reflexivity. cbn beta.
  destruct (buttons a !! idx) as [[x act]|] eqn:Hidx; [|done].
  erewrite bind_ok by reflexivity.
  set (a0 := set_buttons (<[idx:=(x, negb act)]> (buttons a)) a).
  destruct (ensure_visible_agree x (negb act) a0) as [H1 H2].
  - revert Hinv. by apply Inv_ext.
  - intros L act'. subst a0. simpl_app.
    intros (j & Hj)%list_elem_of_lookup_1.
    apply list_lookup_insert_Some in Hj as [(<- & [= <- <-] & _)|(Hne & Hj)]; [by left|].
    right. split.
    + intros ->. apply Hne.
      apply (NoDup_lookup _ idx j x Hnd); rewrite list_lookup_fmap.
      * by rewrite Hidx.
      * by rewrite Hj.
    + apply Hagree. by eapply list_elem_of_lookup_2.
  - split; [exact H1|]. rewrite H2. subst a0. simpl_app.
    rewrite list_fmap_insert. cbn [fst]. apply list_insert_id.
    by rewrite list_lookup_fmap, Hidx.
Qed.

(** [addLevelLayer] alone keeps the agreement. *)
Lemma tiled_addLevelLayer_agree (x : Z) (v : bool) (a : App) :
  Tiled.Inv a -> buttons_agree a ->
  buttons_agree (Tiled.addLevelLayer x v a).2.
Proof.
  intros Hinv Hagree.
  destruct (tiled_addLevelLayer_layers a x v) as [Hold Hnew].
  pose proof (tiled_addLevelLayer_buttons a x v) as Hb.
  pose proof (addLevelLayer_Inv x v a Hinv) as Hinv1.
  intros L act Hin. rewrite Hb in Hin. destruct (Hagree L act Hin) as [Hboth Hvis].
  split.
  - intros HS. destruct (Hboth HS) as [[l1 [Hl1 Hid1]]%has_layer_elem
                                        [l2 [Hl2 Hid2]]%has_layer_elem].
    split; apply has_layer_elem; [exists l1 | exists l2]; auto.
  - intros l Hl Hid. destruct (Hnew l Hl) as [Hin0|Hx]; [by apply Hvis|].
    assert (L = x) as -> by (destruct Hid as [Hid|Hid], Hx as [Hx|Hx]; congruence).
    destruct (Tiled.STYLES x) as [st|] eqn:Hst.
    + destruct Hboth as [Hl1 Hl2]; [by eexists|].
      assert (Hsame : layers (mapgl (Tiled.addLevelLayer x v a).2) = layers (mapgl a)).
      { rewrite addLevelLayer_eq. cbv zeta. rewrite ensure_source_eq. cbn [snd].
        assert (Hsrc : forall i,
                  has_layer i (mapgl (if has_source (GadmLevel x) (mapgl a) then a
                                      else Tiled.with_source x a)) = has_layer i (mapgl a))
          by (intros i; by destruct (has_source _ _)).
        rewrite ensure_line_layer_eq, Hsrc, Hl1, ensure_fill_layer_eq, Hsrc, Hl2.
        cbn [snd]. by destruct (has_source _ _). }
      rewrite Hsame in Hl. by apply Hvis.
    + exfalso.
      assert (Hno := unstyled_level_has_no_layer _ x (l_id l) Hinv1 Hst Hx).
      apply bool_decide_eq_false_1 in Hno. apply Hno. by apply list_elem_of_fmap_2.
Qed.

Lemma tiled_level_buttons_agree (xs : list Z) : forall a,
  Tiled.Inv a -> buttons_agree a -> NoDup ((buttons a).*1 ++ xs) ->
  let a' := (for_each xs (fun level => Tiled.createLevelButton level false) a).2 in
  buttons_agree a' /\ NoDup (buttons a').*1.
Proof.
  induction xs as [|x xs IH]; intros a Hinv Hagree Hnd; cbv zeta; cbn [for_each].
  - rewrite app_nil_r in Hnd. done.
  - assert (Hfresh : x ∉ (buttons a).*1).
    { apply NoDup_app in Hnd as (_ & Hdisj & _). intros Hin.
      apply (Hdisj x Hin). by left. }
    destruct (tiled_createLevelButton_agree x false a Hinv Hagree Hfresh) as [Hag1 Hb1].
    pose proof (createLevelButton_Inv x false a Hinv) as Hinv1.
    unfold mbind, M_bind.
    destruct (Tiled.createLevelButton x false a) as [[[]|msg] a1]; cbn [fst snd] in *.
    + apply IH; [done | done |].
      rewrite Hb1, fmap_app, <- app_assoc. exact Hnd.
    + split; [done|]. rewrite Hb1, fmap_app.
      rewrite (assoc_L (++) _ [x] xs) in Hnd. cbn [fmap list_fmap fst].
      by apply NoDup_app in Hnd as (Hnd & _).
Qed.

Lemma tiled_step_countriesData (e : Tiled.Event) (a : App) :
  countriesData (Tiled.step e a) = countriesData a.
Proof.
  assert (Hadd : forall c x v,
            preserves (fun a0 => countriesData a0 = c) (Tiled.addLevelLayer x v)).
  { intros c x v. apply tiled_addLevelLayer_preserves; by intros. }
  assert (Hvis : forall c x v,
            preserves (fun a0 => countriesData a0 = c) (Tiled.setLayerVisibility x v)).
  { intros c x v a0 Ha0. by rewrite tiled_setLayerVisibility_eq. }
  assert (Hbtn : forall c x v,
            preserves (fun a0 => countriesData a0 = c) (Tiled.createLevelButton x v)).
  { intros c x v. unfold Tiled.createLevelButton.
    pres; [by apply preserves_modify | apply Hadd | apply Hvis]. }
  destruct e as [|value|idx|]; cbn [Tiled.step]; unfold exec.
  - by apply Hadd.
  - destruct (String.eqb value EmptyString) eqn:Hv.
    + apply String.eqb_eq in Hv as ->. by rewrite handleCountryChange_empty_eq.
    + destruct (List.find (fun c => String.eqb (name c) value)
                  (countriesData (set_select_value value a))) as [country|] eqn:Hfind.
      * destruct (fitBounds_view (c_bounds country)) as [v|] eqn:Hfit;
          [|rewrite (handleCountryChange_rejected_eq _ _ _ Hv Hfind Hfit); done].
        rewrite (handleCountryChange_found_eq _ _ _ _ Hv Hfind Hfit).
        assert (Hup : preserves (fun a0 => countriesData a0 = countriesData a)
                        (Tiled.updateAdminLevelUI country)).
        { unfold Tiled.updateAdminLevelUI.
          pres; [by apply preserves_modify | by apply preserves_modify | ..];
            apply Hbtn. }
        by apply Hup.
      * by rewrite (handleCountryChange_unknown_eq _ _ Hv Hfind).
  - assert (Hc : preserves (fun a0 => countriesData a0 = countriesData a)
                   (Tiled.button_click idx)).
    { unfold Tiled.button_click. apply preserves_bind; [apply preserves_gets|].
      intros bs. destruct (bs !! idx) as [[level active]|]; [|apply preserves_ret].
      pres; [by apply preserves_modify | apply Hadd | apply Hvis]. }
    by apply Hc.
  - by rewrite reset_view_click_eq.
Qed.

Lemma tiled_step_agree (catalog : list Country) (e : Tiled.Event) (a : App) :
  Forall (fun c => NoDup (0%Z :: admin_levels c)) catalog ->
  Tiled.Inv a -> countriesData a = catalog ->
  NoDup (buttons a).*1 -> buttons_agree a ->
  NoDup (buttons (Tiled.step e a)).*1 /\ buttons_agree (Tiled.step e a).
Proof.
  intros Hcat Hinv Hdata Hnd Hagree.
  assert (Hnil : forall a0 : App, buttons a0 = [] ->
            NoDup (buttons a0).*1 /\ buttons_agree a0).
  { intros a0 Hb. split; [rewrite Hb; constructor|].
    intros L act Hin. rewrite Hb in Hin. by apply elem_of_nil in Hin. }
  destruct e as [|value|idx|]; cbn [Tiled.step]; unfold exec.
  - split.
    + by rewrite tiled_addLevelLayer_buttons.
    + by apply tiled_addLevelLayer_agree.
  - destruct (String.eqb value EmptyString) eqn:Hv.
    + apply String.eqb_eq in Hv as ->. rewrite handleCountryChange_empty_eq.
      by apply Hnil.
    + destruct (List.find (fun c => String.eqb (name c) value)
                  (countriesData (set_select_value value a))) as [country|] eqn:Hfind.
      * destruct (fitBounds_view (c_bounds country)) as [v|] eqn:Hfit;
          [|rewrite (handleCountryChange_rejected_eq _ _ _ Hv Hfind Hfit); cbn [snd];
           split; [exact Hnd | exact Hagree]].
        rewrite (handleCountryChange_found_eq _ _ _ _ Hv Hfind Hfit).
        match goal with |- context [Tiled.updateAdminLevelUI country ?c] =>
          set (cleared := c)
        end.
        assert (Hinvc : Tiled.Inv cleared).
        { apply (proj1 (Inv_highlighted_cleared (name country) a cleared Hinv
                          eq_refl eq_refl)). }
        assert (Hlevels : NoDup (0%Z :: admin_levels country)).
        { apply find_some in Hfind as [Hin _]. simpl_app. rewrite Hdata in Hin.
          apply list_elem_of_In in Hin. by eapply Forall_forall in Hcat. }
        unfold Tiled.updateAdminLevelUI.
        do 2 (erewrite bind_ok by reflexivity).
        set (c0 := set_buttons [] (set_container_shown true cleared)).
        assert (Hinv0 : Tiled.Inv c0) by (revert Hinvc; by apply Inv_ext).
        destruct (Hnil c0 eq_refl) as [_ Hag0].
        destruct (tiled_createLevelButton_agree 0 true c0 Hinv0 Hag0) as [Hag1 Hb1].
        { subst c0. simpl_app. apply not_elem_of_nil. }
        pose proof (createLevelButton_Inv 0%Z true c0 Hinv0) as Hinv1.
        unfold mbind, M_bind.
        destruct (Tiled.createLevelButton 0 true c0) as [[[]|msg] c1]; cbn [fst snd] in *.
        -- destruct (tiled_level_buttons_agree (admin_levels country) c1 Hinv1 Hag1)
             as [Hag Hn]; [|done].
           rewrite Hb1. subst c0. by simpl_app.
        -- split; [|done]. rewrite Hb1. subst c0. simpl_app. apply NoDup_singleton.
      * by rewrite (handleCountryChange_unknown_eq _ _ Hv Hfind).
  - destruct (tiled_button_click_agree idx a Hinv Hagree Hnd) as [H1 H2].
    split; [by rewrite H2 | done].
  - rewrite reset_view_click_eq. by apply Hnil.
Qed.

(** X19. The level buttons tell the truth about the map.  When no country
    of the catalog lists a level twice or lists level 0, then in every
    session of the client with country filters no two buttons belong to the
    same level, a button of a level that has a style has the line and fill
    layers of its level on the map, and every layer of the level of a
    button is visible exactly when the button is active. *)
Theorem buttons_match_visibility (catalog : list Country) (a : App) :
  Forall (fun c => NoDup (0%Z :: admin_levels c)) catalog ->
  Tiled.reachable catalog a ->
  NoDup (buttons a).*1 /\ buttons_agree a.
Proof.
  intros Hcat Hreach.
  assert (Hall : Tiled.Inv a /\ countriesData a = catalog /\
                 NoDup (buttons a).*1 /\ buttons_agree a); [|by destruct Hall as (_ & _ & ?)].
  induction Hreach as [|e a Hreach IH].
  - split_and!.
    + apply reachable_Inv with (catalog := catalog). constructor.
    + done.
    + constructor.
    + intros L act Hin. by apply elem_of_nil in Hin.
  - destruct IH as (Hinv & Hdata & Hnd & Hagree).
    destruct (tiled_step_agree catalog e a Hcat Hinv Hdata Hnd Hagree) as [H1 H2].
    split_and!; [by apply step_Inv | by rewrite tiled_step_countriesData | done | done].
Qed.

End ButtonsAgree.

Section ButtonsAgreeExamples.
Import MapLibre Order MapSamples.
#[local] Existing Instance any_corner.

Lemma buttons_match_visibility_witness :
  NoDup (buttons wakanda_selected).*1 /\ buttons_agree wakanda_selected.
Proof.
  apply (buttons_match_visibility catalog wakanda_selected).
  - unfold catalog, elbonia, wakanda.
    apply Forall_cons. split; [|apply Forall_cons; split; [|constructor]];
      cbn [admin_levels].
    + apply NoDup_cons. split; [|apply NoDup_singleton].
      rewrite list_elem_of_singleton. lia.
    + apply NoDup_cons. split.
      * rewrite elem_of_cons, list_elem_of_singleton. lia.
      * apply NoDup_cons. split; [|apply NoDup_singleton].
        rewrite list_elem_of_singleton. lia.
  - apply reachable_wakanda_selected.
Defined.

(** The client of [src/js/app.js] does not keep this agreement: Reset View
    hides the layers of level 1 and leaves its button active. *)
Example appjs_reset_leaves_button_active :
  let b' := AppJs.step AppJs.EResetView appjs_level1_shown in
  buttons b' = [(0%Z, true); (1%Z, true); (2%Z, false)] /\
  visible <$> filter (fun l => l_id l = LayerLine 1 \/ l_id l = LayerFill 1)
                (layers (mapgl b')) = [false; false].
Proof. vm_compute. split; reflexivity. Qed.

End ButtonsAgreeExamples.
